(** * Payment ledger of the school-administration back end

    A shallow embedding of the payment / enrollment subsystem:
    - the Sequelize models [User], [Course], [Enrollment], [Payment];
    - the payments router (create payment, Stripe webhook, refund);
    - the Conekta controller (order creation, webhook, refund);
    - the enrollments router (create, cancel and complete an enrollment).

    Conventions of the embedding.
    - [DECIMAL(10,2)] columns are integers counting cents, so that sums and
      comparisons are exact.  Stripe already speaks in cents, so the
      [paymentIntent.amount / 100] of the webhook is the identity here.  A
      nullable numeric column is an [option]; [None] is SQL [NULL], which
      JavaScript arithmetic reads as 0 ([num]).  Numbers are taken within the
      range of their column.
    - The data base is a record of tables; a table is the list of its rows in
      insertion order.  [findOne] returns the first matching row.
    - A request handler is a function of the external world of that request
      ([Env]: clock, generated identifiers, data-base and mail health, the
      payment processors' answers) and of the [World] (tables and console).
    - JavaScript exceptions are values of [Exn]; code that may throw lives in
      the monad [M], which keeps the writes made before the throw (the
      handlers open no transaction). *)

From Stdlib Require Import ZArith List Ascii String Bool Lia DecimalString.
Import ListNotations.

Local Open Scope string_scope.
Local Open Scope list_scope.
Local Open Scope Z_scope.

Definition UUID := string.
Definition Money := Z.
Definition Date := Z.

(** What JavaScript arithmetic and comparison make of a nullable number:
    [null] counts as 0. *)
Definition num (v : option Z) : Z :=
  match v with
  | Some n => n
  | None => 0
  end.

(** What the JSON body of a request holds under a key where the handler
    expects an amount: nothing, a number (counted in cents, as the columns
    are) or a string.  The application mounts [express.json()] and
    [express.urlencoded()]; with the second every value of a body is a
    string.  The other kinds of JSON value (null, booleans, arrays, objects)
    are not followed. *)
Inductive JsValue :=
| js_undefined
| js_number (n : Z)
| js_string (s : string).

(** JavaScript truthiness of a nullable string. *)
Definition truthy (s : option string) : bool :=
  match s with
  | None => false
  | Some v => negb (String.eqb v EmptyString)
  end.

Definition opt_eqb (a : option string) (b : string) : bool :=
  match a with
  | None => false
  | Some v => String.eqb v b
  end.

(** [String.prototype.toUpperCase] on ASCII text. *)
Definition upper_ascii (c : Ascii.ascii) : Ascii.ascii :=
  let n := Ascii.nat_of_ascii c in
  if ((97 <=? n) && (n <=? 122))%nat
  then Ascii.ascii_of_nat (n - 32)
  else c.

Fixpoint toUpperCase (s : string) : string :=
  match s with
  | EmptyString => EmptyString
  | String c rest => String (upper_ascii c) (toUpperCase rest)
  end.

(** ** Models *)

Module User.
Inductive Role := admin | teacher | student.

Definition Role_eqb (a b : Role) : bool :=
  match a, b with
  | admin, admin | teacher, teacher | student, student => true
  | _, _ => false
  end.

Record t := mk { id : UUID; role : Role }.
End User.

Module Course.
Record t := mk {
  id : UUID;
  name : string;
  maxStudents : Z;
  price : Money;
  isActive : bool
}.
End Course.

(** [Enrollment.status] *)
Module EStatus.
Inductive t := pending | active | completed | cancelled | suspended.

Definition eqb (a b : t) : bool :=
  match a, b with
  | pending, pending | active, active | completed, completed
  | cancelled, cancelled | suspended, suspended => true
  | _, _ => false
  end.

End EStatus.

(** [Enrollment.paymentStatus] *)
Module EPaymentStatus.
Inductive t := pending | partial | completed | overdue.
End EPaymentStatus.

Module Enrollment.
Record t := mk {
  id : UUID;
  studentId : UUID;
  courseId : UUID;
  teacherId : UUID;
  status : EStatus.t;
  startDate : Date;
  endDate : Date;
  completionDate : option Date;
  finalGrade : option Z;                  (* DECIMAL(5,2), in hundredths *)
  attendancePercentage : option Z;        (* DECIMAL(5,2), in hundredths *)
  certificateIssued : bool;
  certificateNumber : option string;
  paymentStatus : EPaymentStatus.t;
  totalAmount : Money;
  paidAmount : option Money;              (* nullable, default 0 *)
  discountAmount : Money;
  lastPaymentDate : option Date
}.

(** Instance methods of the model. *)
Definition getRemainingAmount (this : t) : Money :=
  totalAmount this - num (paidAmount this) - discountAmount this.

Definition isFullyPaid (this : t) : bool :=
  getRemainingAmount this <=? 0.

(** [enrollment.update({ paidAmount, paymentStatus, lastPaymentDate })] on
    the instance. *)
Definition set_payment (paid : option Money) (ps : EPaymentStatus.t)
    (d : Date) (this : t) : t :=
  mk (id this) (studentId this) (courseId this) (teacherId this)
     (status this) (startDate this) (endDate this)
     (completionDate this) (finalGrade this) (attendancePercentage this)
     (certificateIssued this) (certificateNumber this)
     ps (totalAmount this) paid (discountAmount this) (Some d).

(** [enrollment.update({ status: 'completed', completionDate, finalGrade,
    attendancePercentage, certificateNumber, certificateIssued })] on the
    instance. *)
Definition set_completed (d : Date) (grade attendance : option Z)
    (number : option string) (issued : bool) (this : t) : t :=
  mk (id this) (studentId this) (courseId this) (teacherId this)
     EStatus.completed (startDate this) (endDate this)
     (Some d) grade attendance issued number
     (paymentStatus this) (totalAmount this) (paidAmount this)
     (discountAmount this) (lastPaymentDate this).
End Enrollment.

(** [Payment.status] *)
Module PStatus.
Inductive t := pending | processing | completed | failed | cancelled | refunded.

Definition eqb (a b : t) : bool :=
  match a, b with
  | pending, pending | processing, processing | completed, completed
  | failed, failed | cancelled, cancelled | refunded, refunded => true
  | _, _ => false
  end.

End PStatus.

Module PMethod.
Inductive t := cash | card | transfer | stripe | paypal | conekta.

Definition is_stripe (m : t) : bool :=
  match m with stripe => true | _ => false end.
End PMethod.

Module PType.
Inductive t := full | partial | installment | refund.
End PType.

Module Payment.
Record t := mk {
  id : UUID;
  enrollmentId : UUID;
  amount : Money;
  currency : string;
  paymentMethod : PMethod.t;
  paymentType : PType.t;
  status : PStatus.t;
  transactionId : option string;
  externalPaymentId : option string;
  receiptNumber : option string;
  paymentDate : Date;
  processedBy : UUID;
  refundReason : option string;
  refundedBy : option UUID;
  refundedAt : option Date;
  refundAmount : Money
}.

Definition set_status (s : PStatus.t) (this : t) : t :=
  mk (id this) (enrollmentId this) (amount this) (currency this)
     (paymentMethod this) (paymentType this) s (transactionId this)
     (externalPaymentId this) (receiptNumber this) (paymentDate this)
     (processedBy this) (refundReason this) (refundedBy this)
     (refundedAt this) (refundAmount this).

(** [payment.update({ status: 'refunded', refundAmount, refundReason,
    refundedBy, refundedAt })] on the instance; a key whose value is
    [undefined] ([None]) is not written. *)
Definition set_refund (amt : option Money) (reason : option string)
    (by_ : UUID) (at_ : Date) (this : t) : t :=
  mk (id this) (enrollmentId this) (amount this) (currency this)
     (paymentMethod this) (paymentType this) PStatus.refunded
     (transactionId this) (externalPaymentId this) (receiptNumber this)
     (paymentDate this) (processedBy this)
     (match reason with
      | Some r => Some r
      | None => refundReason this
      end)
     (Some by_) (Some at_)
     (match amt with
      | Some a => a
      | None => refundAmount this
      end).

Definition isSuccessful (this : t) : bool :=
  PStatus.eqb (status this) PStatus.completed.
End Payment.

(** ** The data base and the world of a handler *)

Record Store := mkStore {
  users : list User.t;
  courses : list Course.t;
  enrollments : list Enrollment.t;
  payments : list Payment.t
}.

Record World := mkWorld {
  db : Store;
  console : list string
}.

Definition with_enrollments (es : list Enrollment.t) (w : World) : World :=
  mkWorld (mkStore (users (db w)) (courses (db w)) es (payments (db w)))
          (console w).

Definition with_payments (ps : list Payment.t) (w : World) : World :=
  mkWorld (mkStore (users (db w)) (courses (db w)) (enrollments (db w)) ps)
          (console w).

Definition console_log (line : string) (w : World) : World :=
  mkWorld (db w) (console w ++ [line]).

(** ** Exceptions and the monad of throwing code *)

Inductive Exn :=
| SequelizeConnectionError
| SequelizeValidationError (msg : string)
| SequelizeUniqueConstraintError (field : string)
| SequelizeDatabaseError (msg : string)
| ProcessorError (msg : string)
| TypeError (msg : string).

Definition message (e : Exn) : string :=
  match e with
  | SequelizeConnectionError => "connect ECONNREFUSED"
  | SequelizeValidationError m => m
  | SequelizeUniqueConstraintError f => f
  | SequelizeDatabaseError m => m
  | ProcessorError m => m
  | TypeError m => m
  end.

Definition M (A : Type) : Type := World -> (Exn + A) * World.

Definition ret {A} (a : A) : M A := fun w => (inr a, w).

Definition throw {A} (e : Exn) : M A := fun w => (inl e, w).

Definition bind {A B} (m : M A) (k : A -> M B) : M B :=
  fun w =>
    match m w with
    | (inl e, w') => (inl e, w')
    | (inr a, w') => k a w'
    end.

Notation "x <- c1 ;; c2" := (bind c1 (fun x => c2))
  (at level 61, c1 at next level, right associativity).
Notation "c1 ;; c2" := (bind c1 (fun _ => c2))
  (at level 61, right associativity).

(** [try { m } catch (error) { h error }] where the catch block itself cannot
    throw (it logs and answers). *)
Definition try_catch {A} (m : M A) (h : Exn -> World -> A * World)
    (w : World) : A * World :=
  match m w with
  | (inr a, w') => (a, w')
  | (inl e, w') => h e w'
  end.

(** Code that cannot throw, used inside throwing code. *)
Definition lift {A} (n : World -> A * World) : M A :=
  fun w => let (a, w') := n w in (inr a, w').

Definition gets {A} (f : World -> A) : M A := fun w => (inr (f w), w).

Definition modify (f : World -> World) : M unit := fun w => (inr tt, f w).

Definition of_sum {A} (r : Exn + A) : M A :=
  match r with
  | inl e => throw e
  | inr a => ret a
  end.

(** ** Responses *)

Record Response := Resp { code : Z; body : string }.

(** ** The external world of one request *)

Record PaymentIntent := mkPaymentIntent {
  pi_id : string;
  pi_amount : Z;                          (* cents *)
  pi_currency : string;
  pi_metadata_enrollmentId : option UUID;
  pi_customer : option string
}.

Record StripeEvent := mkStripeEvent {
  se_type : string;
  se_data_object : PaymentIntent
}.

Record ConektaCharge := mkConektaCharge { charge_status : string }.

Record ConektaOrder := mkConektaOrder {
  order_id : string;
  order_charge0 : ConektaCharge
}.

(** [stripe_refunds_create] receives the payment intent and the value the
    handler computes the amount from.  [pg_numeric_in] is what PostgreSQL
    makes of a text written to a [NUMERIC(10,2)] column: the number stored,
    in cents, or nothing when it refuses the text. *)
Record Env := mkEnv {
  now : Date;
  dbUp : bool;
  uuidv4 : UUID;
  txnId : string;
  rcpId : string;
  mailUp : bool;
  stripe_constructEvent : string -> option string -> Exn + StripeEvent;
  stripe_refunds_create : string -> JsValue -> Exn + string;
  conekta_Order_create : Money -> string -> Exn + ConektaOrder;
  conekta_Charge_refund : option string -> Exn + string;
  pg_numeric_in : string -> option Money
}.

(** ** Data access (the Sequelize calls the handlers make) *)

(** Every query needs the connection; when it is down the call throws. *)
Definition connected (env : Env) : M unit :=
  if dbUp env then ret tt else throw SequelizeConnectionError.

Definition lookup_user (pk : UUID) (w : World) : option User.t :=
  find (fun u => String.eqb (User.id u) pk) (users (db w)).

Definition lookup_course (pk : UUID) (w : World) : option Course.t :=
  find (fun c => String.eqb (Course.id c) pk) (courses (db w)).

Definition User_findByPk (env : Env) (pk : UUID) : M (option User.t) :=
  connected env ;; gets (lookup_user pk).

Definition Course_findByPk (env : Env) (pk : UUID) : M (option Course.t) :=
  connected env ;; gets (lookup_course pk).

(** The row of a primary key. *)
Definition lookup_enrollment (pk : UUID) (w : World) : option Enrollment.t :=
  find (fun e => String.eqb (Enrollment.id e) pk) (enrollments (db w)).

Definition lookup_payment (pk : UUID) (w : World) : option Payment.t :=
  find (fun p => String.eqb (Payment.id p) pk) (payments (db w)).

Definition Enrollment_findByPk (env : Env) (pk : UUID)
    : M (option Enrollment.t) :=
  connected env ;; gets (lookup_enrollment pk).

Definition Payment_findByPk (env : Env) (pk : UUID) : M (option Payment.t) :=
  connected env ;; gets (lookup_payment pk).

(** [Payment.findOne({ where: { externalPaymentId } })] *)
Definition lookup_externalPaymentId (ext : string) (w : World)
    : option Payment.t :=
  find (fun p => opt_eqb (Payment.externalPaymentId p) ext) (payments (db w)).

Definition Payment_findOne_externalPaymentId (env : Env) (ext : string)
    : M (option Payment.t) :=
  connected env ;; gets (lookup_externalPaymentId ext).

Definition lookup_transactionId (txn : string) (w : World)
    : option Payment.t :=
  find (fun p => opt_eqb (Payment.transactionId p) txn) (payments (db w)).

(** [Payment.findOne({ where: { transactionId } })]; an [undefined] value in
    the where clause makes Sequelize throw. *)
Definition Payment_findOne_transactionId (env : Env) (txn : option string)
    : M (option Payment.t) :=
  match txn with
  | None => throw (TypeError "WHERE parameter transactionId has invalid undefined value")
  | Some t => connected env ;; gets (lookup_transactionId t)
  end.

Definition is_completed_of (enrollmentId : UUID) (p : Payment.t) : bool :=
  String.eqb (Payment.enrollmentId p) enrollmentId
  && PStatus.eqb (Payment.status p) PStatus.completed.

Definition sum_amount (ps : list Payment.t) : Money :=
  fold_right (fun p acc => Payment.amount p + acc) 0 ps.

(** The sum of the amounts of the completed payments of an enrollment. *)
Definition completed_total (enrollmentId : UUID) (ps : list Payment.t)
    : Money :=
  sum_amount (filter (is_completed_of enrollmentId) ps).

(** The completed total as a nullable column holds it: [NULL] when the
    enrollment has no completed payment. *)
Definition nullable_total (enrollmentId : UUID) (ps : list Payment.t)
    : option Money :=
  if existsb (is_completed_of enrollmentId) ps
  then Some (completed_total enrollmentId ps) else None.

(** SQL [SUM(amount)] over the rows a query selects: [NULL] over no row. *)
Definition sql_sum_amount (rows : list Payment.t) : option Money :=
  match rows with
  | [] => None
  | _ :: _ => Some (fold_left (fun acc p => acc + Payment.amount p) rows 0)
  end.

(** [Payment.sum('amount', { where: { enrollmentId, status: 'completed' } })];
    Sequelize hands the [NULL] of an empty selection back as [null]. *)
Definition Payment_sum_amount (env : Env) (enrollmentId : UUID)
    : M (option Money) :=
  connected env ;;
  gets (fun w =>
    sql_sum_amount
      (filter (fun p =>
                 String.eqb (Payment.enrollmentId p) enrollmentId
                 && PStatus.eqb (Payment.status p) PStatus.completed)
              (payments (db w)))).

Definition update_enrollment_row (pk : UUID)
    (f : Enrollment.t -> Enrollment.t) (es : list Enrollment.t)
    : list Enrollment.t :=
  map (fun e => if String.eqb (Enrollment.id e) pk then f e else e) es.

Definition update_payment_row (pk : UUID) (f : Payment.t -> Payment.t)
    (ps : list Payment.t) : list Payment.t :=
  map (fun p => if String.eqb (Payment.id p) pk then f p else p) ps.

(** [enrollment.update({...})]: writes the given fields of the row of that
    instance. *)
Definition Enrollment_update (env : Env) (enrollment : Enrollment.t)
    (f : Enrollment.t -> Enrollment.t) : M unit :=
  connected env ;;
  modify (fun w =>
    with_enrollments
      (update_enrollment_row (Enrollment.id enrollment) f (enrollments (db w)))
      w).

(** [payment.update({...})] and [payment.save()] on an instance. *)
Definition Payment_save (env : Env) (payment : Payment.t)
    (f : Payment.t -> Payment.t) : M unit :=
  connected env ;;
  modify (fun w =>
    with_payments
      (update_payment_row (Payment.id payment) f (payments (db w))) w).

(** [Payment.update({...}, { where: { externalPaymentId } })] *)
Definition Payment_update_where_externalPaymentId (env : Env) (ext : string)
    (f : Payment.t -> Payment.t) : M unit :=
  connected env ;;
  modify (fun w =>
    with_payments
      (map (fun p =>
              if opt_eqb (Payment.externalPaymentId p) ext then f p else p)
           (payments (db w)))
      w).

(** The attributes handed to [Payment.create]; an absent key is [None].  Keys
    that are not attributes of the model are dropped by Sequelize and are not
    listed. *)
Record PaymentValues := mkPaymentValues {
  v_enrollmentId : option UUID;
  v_amount : option Money;
  v_currency : option string;
  v_paymentMethod : option PMethod.t;
  v_paymentType : option PType.t;
  v_status : option PStatus.t;
  v_transactionId : option string;
  v_externalPaymentId : option string;
  v_receiptNumber : option string;
  v_paymentDate : option Date;
  v_processedBy : option UUID
}.

Definition or_default {A} (o : option A) (d : A) : A :=
  match o with
  | Some a => a
  | None => d
  end.

(** Model validation of [Payment]: [allowNull: false] attributes without a
    default and [validate: { min: 0.01 }] on [amount]; then the defaults. *)
Definition Payment_build (env : Env) (v : PaymentValues) : Exn + Payment.t :=
  match v_enrollmentId v with
  | None => inl (SequelizeValidationError "Payment.enrollmentId cannot be null")
  | Some enrollmentId =>
  match v_amount v with
  | None => inl (SequelizeValidationError "Payment.amount cannot be null")
  | Some amount =>
  match v_paymentMethod v with
  | None => inl (SequelizeValidationError "Payment.paymentMethod cannot be null")
  | Some paymentMethod =>
  match v_paymentType v with
  | None => inl (SequelizeValidationError "Payment.paymentType cannot be null")
  | Some paymentType =>
  match v_processedBy v with
  | None => inl (SequelizeValidationError "Payment.processedBy cannot be null")
  | Some processedBy =>
      if amount <? 1
      then inl (SequelizeValidationError "Validation min on amount failed")
      else inr (Payment.mk (uuidv4 env) enrollmentId amount
                  (or_default (v_currency v) "MXN")
                  paymentMethod paymentType
                  (or_default (v_status v) PStatus.pending)
                  (v_transactionId v) (v_externalPaymentId v)
                  (v_receiptNumber v)
                  (or_default (v_paymentDate v) (now env))
                  processedBy None None None 0)
  end end end end end.

Definition taken (proj : Payment.t -> option string) (v : option string)
    (ps : list Payment.t) : bool :=
  match v with
  | None => false
  | Some s => existsb (fun p => opt_eqb (proj p) s) ps
  end.

(** [Payment.create(values)]: validation, then the insert, which the primary
    key and the unique columns [transactionId] and [receiptNumber] may
    refuse.  The handlers insert a payment only for an enrollment they have
    just read, so the foreign key on [enrollmentId] is not checked again. *)
Definition Payment_create (env : Env) (v : PaymentValues) : M Payment.t :=
  connected env ;;
  row <- of_sum (Payment_build env v) ;;
  ps <- gets (fun w => payments (db w)) ;;
  if existsb (fun p => String.eqb (Payment.id p) (Payment.id row)) ps
  then throw (SequelizeUniqueConstraintError "id")
  else if taken Payment.transactionId (Payment.transactionId row) ps
  then throw (SequelizeUniqueConstraintError "transactionId")
  else if taken Payment.receiptNumber (Payment.receiptNumber row) ps
  then throw (SequelizeUniqueConstraintError "receiptNumber")
  else modify (with_payments (ps ++ [row])) ;; ret row.

(** ** Payments router *)

Definition paymentStatus_of (remainingAmount : Money)
    (totalPaid : option Money) : EPaymentStatus.t :=
  if remainingAmount <=? 0 then EPaymentStatus.completed
  else if 0 <? num totalPaid then EPaymentStatus.partial
  else EPaymentStatus.pending.

(** The block commented "Update enrollment payment status", which the
    create-payment handler and the Stripe webhook both contain: it reads the
    total of the completed payments and writes the enrollment. *)
Definition updateEnrollmentPaymentStatus (env : Env)
    (enrollment : Enrollment.t) (enrollmentId : UUID) : M unit :=
  totalPaid <- Payment_sum_amount env enrollmentId ;;
  let remainingAmount := Enrollment.totalAmount enrollment - num totalPaid in
  let paymentStatus := paymentStatus_of remainingAmount totalPaid in
  Enrollment_update env enrollment
    (Enrollment.set_payment totalPaid paymentStatus (now env)).

(** The body of [POST /]. *)
Record PaymentData := mkPaymentData {
  pd_enrollmentId : UUID;
  pd_amount : option Money;
  pd_currency : option string;
  pd_paymentMethod : option PMethod.t;
  pd_paymentType : option PType.t;
  pd_status : option PStatus.t;
  pd_externalPaymentId : option string;
  pd_paymentDate : option Date
}.

Definition is_stripe_method (m : option PMethod.t) : bool :=
  match m with
  | Some PMethod.stripe => true
  | _ => false
  end.

(** [router.post('/')], behind [authenticateToken] and [requireAdmin];
    [user] is [req.user.id]. *)
Definition createPayment (env : Env) (user : UUID) (paymentData : PaymentData)
    : World -> Response * World :=
  try_catch
    (enrollment <- Enrollment_findByPk env (pd_enrollmentId paymentData) ;;
     match enrollment with
     | None => ret (Resp 404 "Enrollment not found")
     | Some enrollment =>
         if negb (EStatus.eqb (Enrollment.status enrollment) EStatus.active)
         then ret (Resp 400 "Enrollment not active")
         else
           let transactionId := txnId env in
           let receiptNumber :=
             if is_stripe_method (pd_paymentMethod paymentData)
             then Some (rcpId env) else None in
           payment <- Payment_create env
             (mkPaymentValues
                (Some (pd_enrollmentId paymentData))
                (pd_amount paymentData)
                (pd_currency paymentData)
                (pd_paymentMethod paymentData)
                (pd_paymentType paymentData)
                (pd_status paymentData)
                (Some transactionId)
                (pd_externalPaymentId paymentData)
                receiptNumber
                (pd_paymentDate paymentData)
                (Some user)) ;;
           updateEnrollmentPaymentStatus env enrollment
             (pd_enrollmentId paymentData) ;;
           ret (Resp 201 "Payment created successfully")
     end)
    (fun error w =>
       (Resp 500 "Failed to create payment",
        console_log "Create payment error:" w)).

Record StripeWebhookRequest := mkStripeWebhookRequest {
  sw_body : string;
  sw_signature : option string
}.

(** [router.post('/stripe/webhook')] *)
Definition stripeWebhook (env : Env) (req : StripeWebhookRequest)
    : World -> Response * World :=
  match stripe_constructEvent env (sw_body req) (sw_signature req) with
  | inl err =>
      fun w =>
        (Resp 400 ("Webhook Error: " ++ message err)%string,
         console_log "Webhook signature verification failed:" w)
  | inr event =>
      try_catch
        ((if String.eqb (se_type event) "payment_intent.succeeded" then
            let paymentIntent := se_data_object event in
            payment <- Payment_findOne_externalPaymentId env
                         (pi_id paymentIntent) ;;
            match payment with
            | Some _ => ret tt
            | None =>
                let enrollmentId := pi_metadata_enrollmentId paymentIntent in
                enrollment <-
                  match enrollmentId with
                  | None => ret None
                  | Some pk => Enrollment_findByPk env pk
                  end ;;
                match enrollment, enrollmentId with
                | Some enrollment, Some enrollmentId =>
                    Payment_create env
                      (mkPaymentValues
                         (Some enrollmentId)
                         (Some (pi_amount paymentIntent))
                         (Some (toUpperCase (pi_currency paymentIntent)))
                         (Some PMethod.stripe)
                         (Some PType.partial)
                         (Some PStatus.completed)
                         (Some (txnId env))
                         (Some (pi_id paymentIntent))
                         (Some (rcpId env))
                         (Some (now env))
                         (Some (Enrollment.teacherId enrollment))) ;;
                    updateEnrollmentPaymentStatus env enrollment enrollmentId
                | _, _ => ret tt
                end
            end
          else if String.eqb (se_type event) "payment_intent.payment_failed"
          then
            let failedPaymentIntent := se_data_object event in
            Payment_update_where_externalPaymentId env
              (pi_id failedPaymentIntent)
              (Payment.set_status PStatus.failed)
          else
            modify (console_log "Unhandled event type")) ;;
         ret (Resp 200 "received"))
        (fun error w =>
           (Resp 500 "Webhook processing failed",
            console_log "Webhook processing error:" w))
  end.

Definition digit (n : Z) : Ascii.ascii :=
  Ascii.ascii_of_nat (48 + Z.to_nat n).

(** The text PostgreSQL returns for a [NUMERIC(10,2)] value, which is what an
    instance holds under a [DECIMAL] attribute: 99900 cents read "999.00". *)
Definition decimal_text (cents : Money) : string :=
  let a := Z.abs cents in
  let units := NilZero.string_of_int (Z.to_int (a / 100)) in
  let cents2 :=
    String (digit (a mod 100 / 10)) (String (digit (a mod 10)) EmptyString) in
  let text := (units ++ "." ++ cents2)%string in
  if cents <? 0 then String "-"%char text else text.

(** [refundAmount > payment.amount], the right operand being the text of a
    [DECIMAL]: two strings are compared as strings, unit by unit; otherwise
    both sides become numbers, [undefined] the number NaN, which is greater
    than nothing. *)
Definition js_gt_decimal (v : JsValue) (amount : Money) : bool :=
  match v with
  | js_undefined => false
  | js_number n => amount <? n
  | js_string s => String.ltb (decimal_text amount) s
  end.

(** What the update writes in the [refundAmount] column: nothing for
    [undefined], the number, or what the data base makes of the string. *)
Definition refundAmount_column (env : Env) (v : JsValue)
    : Exn + option Money :=
  match v with
  | js_undefined => inr None
  | js_number n => inr (Some n)
  | js_string s =>
      match pg_numeric_in env s with
      | Some n => inr (Some n)
      | None =>
          inl (SequelizeDatabaseError "invalid input syntax for type numeric")
      end
  end.

(** [router.post('/:id/refund')], behind [authenticateToken] and
    [requireAdmin]; no validator looks at the body. *)
Definition refund (env : Env) (user : UUID) (id : UUID)
    (refundAmount : JsValue) (refundReason : option string)
    : World -> Response * World :=
  try_catch
    (payment <- Payment_findByPk env id ;;
     match payment with
     | None => ret (Resp 404 "Payment not found")
     | Some payment =>
         if negb (PStatus.eqb (Payment.status payment) PStatus.completed)
         then ret (Resp 400 "Payment not completed")
         else if js_gt_decimal refundAmount (Payment.amount payment)
         then ret (Resp 400 "Invalid refund amount")
         else if PMethod.is_stripe (Payment.paymentMethod payment)
                 && truthy (Payment.externalPaymentId payment)
         then
           lift (try_catch
             (_ <- of_sum (stripe_refunds_create env
                             (or_default (Payment.externalPaymentId payment) EmptyString)
                             refundAmount) ;;
              stored <- of_sum (refundAmount_column env refundAmount) ;;
              Payment_save env payment
                (Payment.set_refund stored refundReason user (now env)) ;;
              ret (Resp 200 "Refund processed successfully"))
             (fun stripeError w =>
                (Resp 500 "Refund failed",
                 console_log "Stripe refund error:" w)))
         else
           stored <- of_sum (refundAmount_column env refundAmount) ;;
           Payment_save env payment
             (Payment.set_refund stored refundReason user (now env)) ;;
           ret (Resp 200 "Refund processed successfully")
     end)
    (fun error w =>
       (Resp 500 "Failed to process refund",
        console_log "Process refund error:" w)).

(** ** Conekta controller *)

(** [sendPaymentConfirmationEmail] is imported from the mail utility; whether
    the call returns or throws is part of the request's external world. *)
Definition sendPaymentConfirmationEmail (env : Env) : M unit :=
  if mailUp env then ret tt
  else throw (TypeError "sendPaymentConfirmationEmail is not a function").

Definition is_paid (order : ConektaOrder) : bool :=
  String.eqb (charge_status (order_charge0 order)) "paid".

Record ConektaEvent := mkConektaEvent {
  ce_type : string;
  ce_data_object_id : option string;
  ce_data_object_order_id : option string
}.

Record ConektaWebhookRequest := mkConektaWebhookRequest {
  cw_body : ConektaEvent;
  cw_signature : option string
}.

Module ConektaController.

(** [ConektaController.createOrder]; [course.price * 100] is the price in
    cents.  The values handed to [Payment.create] name the method under the
    key [method], which is not an attribute of the model, and give neither
    [paymentType] nor [processedBy]. *)
Definition createOrder (env : Env) (enrollmentId : UUID)
    (paymentMethod_type : string) : World -> Response * World :=
  try_catch
    (enrollment <- Enrollment_findByPk env enrollmentId ;;
     match enrollment with
     | None => ret (Resp 404 "Enrollment not found")
     | Some enrollment =>
         course <- Course_findByPk env (Enrollment.courseId enrollment) ;;
         match course with
         | None =>
             throw (TypeError "Cannot read properties of null (reading 'price')")
         | Some course =>
             order <- of_sum (conekta_Order_create env (Course.price course)
                                paymentMethod_type) ;;
             payment <- Payment_create env
               (mkPaymentValues
                  (Some enrollmentId)
                  (Some (Course.price course))
                  (Some "MXN")
                  None
                  None
                  (Some (if is_paid order then PStatus.completed
                         else PStatus.pending))
                  (Some (order_id order))
                  None
                  None
                  None
                  None) ;;
             (if is_paid order then sendPaymentConfirmationEmail env
              else ret tt) ;;
             ret (Resp 200 "Payment processed successfully")
         end
     end)
    (fun error w =>
       (Resp 500 (message error), console_log "Conekta payment error:" w)).

(** [ConektaController.handleOrderPaid]; [paidDate] is not an attribute of
    the model, so [save] writes the status only. *)
Definition handleOrderPaid (env : Env) (event : ConektaEvent)
    : World -> unit * World :=
  try_catch
    (let orderId := ce_data_object_id event in
     payment <- Payment_findOne_transactionId env orderId ;;
     match payment with
     | Some payment =>
         Payment_save env payment (Payment.set_status PStatus.completed) ;;
         enrollment <- Enrollment_findByPk env (Payment.enrollmentId payment) ;;
         match enrollment with
         | Some _ => sendPaymentConfirmationEmail env
         | None => ret tt
         end
     | None => ret tt
     end)
    (fun error w => (tt, console_log "Error handling order paid:" w)).

(** [ConektaController.handleOrderExpired] *)
Definition handleOrderExpired (env : Env) (event : ConektaEvent)
    : World -> unit * World :=
  try_catch
    (let orderId := ce_data_object_id event in
     payment <- Payment_findOne_transactionId env orderId ;;
     match payment with
     | Some payment =>
         Payment_save env payment (Payment.set_status PStatus.failed)
     | None => ret tt
     end)
    (fun error w => (tt, console_log "Error handling order expired:" w)).

(** [ConektaController.handleChargeFailed] *)
Definition handleChargeFailed (env : Env) (event : ConektaEvent)
    : World -> unit * World :=
  try_catch
    (let orderId := ce_data_object_order_id event in
     payment <- Payment_findOne_transactionId env orderId ;;
     match payment with
     | Some payment =>
         Payment_save env payment (Payment.set_status PStatus.failed)
     | None => ret tt
     end)
    (fun error w => (tt, console_log "Error handling charge failed:" w)).

(** [ConektaController.webhook], a public route: it is mounted before
    [authenticateToken]. *)
Definition webhook (env : Env) (req : ConektaWebhookRequest)
    : World -> Response * World :=
  try_catch
    (let event := cw_body req in
     let signature := cw_signature req in
     if negb (truthy signature)
     then ret (Resp 400 "No signature provided")
     else
       (if String.eqb (ce_type event) "order.paid"
        then lift (handleOrderPaid env event)
        else if String.eqb (ce_type event) "order.expired"
        then lift (handleOrderExpired env event)
        else if String.eqb (ce_type event) "charge.failed"
        then lift (handleChargeFailed env event)
        else modify (console_log "Unhandled event type:")) ;;
       ret (Resp 200 "received"))
    (fun error w =>
       (Resp 500 "Webhook processing failed", console_log "Webhook error:" w)).

(** [ConektaController.refundPayment]; the body carries a reason only, the
    charge is refunded in full. *)
Definition refundPayment (env : Env) (paymentId : UUID)
    : World -> Response * World :=
  try_catch
    (payment <- Payment_findByPk env paymentId ;;
     match payment with
     | None => ret (Resp 404 "Payment not found")
     | Some payment =>
         if negb (PStatus.eqb (Payment.status payment) PStatus.completed)
         then ret (Resp 400 "Payment cannot be refunded")
         else
           _ <- of_sum (conekta_Charge_refund env
                          (Payment.transactionId payment)) ;;
           Payment_save env payment (Payment.set_status PStatus.refunded) ;;
           ret (Resp 200 "Payment refunded successfully")
     end)
    (fun error w =>
       (Resp 500 "Error processing refund",
        console_log "Error refunding payment:" w)).

End ConektaController.

(** ** Enrollments router *)

(** The body of [POST /] of the enrollments router. *)
Record EnrollmentData := mkEnrollmentData {
  ed_studentId : UUID;
  ed_courseId : UUID;
  ed_teacherId : UUID;
  ed_startDate : Date;
  ed_endDate : Date;
  ed_totalAmount : Money;
  ed_status : option EStatus.t
}.

Definition has_role (r : User.Role) (u : option User.t) : bool :=
  match u with
  | Some u => User.Role_eqb (User.role u) r
  | None => false
  end.

(** The active enrollments of a course, counted. *)
Definition active_enrollments (course : Course.t) (es : list Enrollment.t)
    : Z :=
  Z.of_nat (List.length (filter
    (fun e => String.eqb (Enrollment.courseId e) (Course.id course)
              && EStatus.eqb (Enrollment.status e) EStatus.active) es)).

(** [course.getCurrentEnrollmentCount()].  The method binds its model with
    [const { Enrollment } = require('./Enrollment')], and that module exports
    the model itself ([module.exports = Enrollment]), which has no property
    [Enrollment]: the name is bound to [undefined] and the call of
    [Enrollment.count] throws before any query is made. *)
Definition Course_getCurrentEnrollmentCount (env : Env) (course : Course.t)
    : M Z :=
  throw (TypeError "Cannot read properties of undefined (reading 'count')").

(** [course.isFull()] *)
Definition Course_isFull (env : Env) (course : Course.t) : M bool :=
  enrollmentCount <- Course_getCurrentEnrollmentCount env course ;;
  ret (Course.maxStudents course <=? enrollmentCount).

Definition same_pair (studentId courseId : UUID) (e : Enrollment.t) : bool :=
  String.eqb (Enrollment.studentId e) studentId
  && String.eqb (Enrollment.courseId e) courseId.

Definition pending_or_active (s : EStatus.t) : bool :=
  EStatus.eqb s EStatus.pending || EStatus.eqb s EStatus.active.

(** [Enrollment.findOne({ where: { studentId, courseId,
    status: ['pending', 'active'] } })] *)
Definition lookup_existing (studentId courseId : UUID) (w : World)
    : option Enrollment.t :=
  find (fun e => same_pair studentId courseId e
                 && pending_or_active (Enrollment.status e))
       (enrollments (db w)).

Definition Enrollment_findOne_existing (env : Env) (studentId courseId : UUID)
    : M (option Enrollment.t) :=
  connected env ;; gets (lookup_existing studentId courseId).

(** [Enrollment.create(enrollmentData)]: the defaults of the model, then the
    insert, which the primary key and the unique index on
    [(studentId, courseId)] may refuse. *)
Definition Enrollment_create (env : Env) (d : EnrollmentData)
    : M Enrollment.t :=
  connected env ;;
  es <- gets (fun w => enrollments (db w)) ;;
  let row :=
    Enrollment.mk (uuidv4 env) (ed_studentId d) (ed_courseId d)
      (ed_teacherId d) (or_default (ed_status d) EStatus.pending)
      (ed_startDate d) (ed_endDate d) None None None false None
      EPaymentStatus.pending (ed_totalAmount d) (Some 0) 0 None in
  if existsb (fun e => String.eqb (Enrollment.id e) (Enrollment.id row)) es
  then throw (SequelizeUniqueConstraintError "id")
  else if existsb (same_pair (ed_studentId d) (ed_courseId d)) es
  then throw (SequelizeUniqueConstraintError "studentId, courseId")
  else modify (with_enrollments (es ++ [row])) ;; ret row.

(** [router.post('/')] of the enrollments router, behind [authenticateToken]
    and [requireAdmin]. *)
Definition createEnrollment (env : Env) (enrollmentData : EnrollmentData)
    : World -> Response * World :=
  try_catch
    (student <- User_findByPk env (ed_studentId enrollmentData) ;;
     course <- Course_findByPk env (ed_courseId enrollmentData) ;;
     teacher <- User_findByPk env (ed_teacherId enrollmentData) ;;
     if negb (has_role User.student student)
     then ret (Resp 404 "Student not found")
     else
       match course with
       | None => ret (Resp 404 "Course not found")
       | Some course =>
           if negb (has_role User.teacher teacher)
           then ret (Resp 404 "Teacher not found")
           else if negb (Course.isActive course)
           then ret (Resp 400 "Course not available")
           else
             isFull <- Course_isFull env course ;;
             if (isFull : bool)
             then ret (Resp 400 "Course is full")
             else
               existingEnrollment <-
                 Enrollment_findOne_existing env
                   (ed_studentId enrollmentData)
                   (ed_courseId enrollmentData) ;;
               match existingEnrollment with
               | Some _ => ret (Resp 409 "Already enrolled")
               | None =>
                   if ed_endDate enrollmentData
                        <=? ed_startDate enrollmentData
                   then ret (Resp 400 "Invalid date range")
                   else
                     enrollment <- Enrollment_create env enrollmentData ;;
                     ret (Resp 201 "Enrollment created successfully")
               end
       end)
    (fun error w =>
       (Resp 500 "Failed to create enrollment",
        console_log "Create enrollment error:" w)).

(** ** The ledger as a transition system *)

Inductive Request :=
| POST_payments (user : UUID) (paymentData : PaymentData)
| POST_payments_stripe_webhook (req : StripeWebhookRequest)
| POST_payments_refund (user : UUID) (id : UUID) (refundAmount : JsValue)
    (refundReason : option string)
| POST_conekta_create_order (enrollmentId : UUID) (paymentMethod_type : string)
| POST_conekta_webhook (req : ConektaWebhookRequest)
| POST_conekta_refund (paymentId : UUID)
| POST_enrollments (enrollmentData : EnrollmentData).

Definition handle (env : Env) (r : Request) : World -> Response * World :=
  match r with
  | POST_payments user paymentData => createPayment env user paymentData
  | POST_payments_stripe_webhook req => stripeWebhook env req
  | POST_payments_refund user id refundAmount refundReason =>
      refund env user id refundAmount refundReason
  | POST_conekta_create_order enrollmentId ty =>
      ConektaController.createOrder env enrollmentId ty
  | POST_conekta_webhook req => ConektaController.webhook env req
  | POST_conekta_refund paymentId =>
      ConektaController.refundPayment env paymentId
  | POST_enrollments enrollmentData => createEnrollment env enrollmentData
  end.

(** The worlds the server can be in after serving requests one after the
    other, starting from [w0]. *)
Inductive reachable (w0 : World) : World -> Prop :=
| reach_start : reachable w0 w0
| reach_step env r w :
    reachable w0 w -> reachable w0 (snd (handle env r w)).

(** The world after a payment row was inserted and the block ran. *)
Definition recomputed (env : Env) (enrollment : Enrollment.t)
    (enrollmentId : UUID) (row : Payment.t) (w : World) : World :=
  let ps := payments (db w) ++ [row] in
  let totalPaid := nullable_total enrollmentId ps in
  with_enrollments
    (update_enrollment_row (Enrollment.id enrollment)
       (Enrollment.set_payment totalPaid
          (paymentStatus_of (Enrollment.totalAmount enrollment - num totalPaid)
             totalPaid)
          (now env))
       (enrollments (db w)))
    (with_payments ps w).

(** The world the [switch] of the Conekta webhook leaves. *)
Definition conekta_switch (env : Env) (event : ConektaEvent) (w : World)
    : World :=
  if String.eqb (ce_type event) "order.paid"
  then snd (ConektaController.handleOrderPaid env event w)
  else if String.eqb (ce_type event) "order.expired"
  then snd (ConektaController.handleOrderExpired env event w)
  else if String.eqb (ce_type event) "charge.failed"
  then snd (ConektaController.handleChargeFailed env event w)
  else console_log "Unhandled event type:" w.

(** ** The statements of the specification *)

(** The payment status of section 4.1 of the specification: a function of
    [totalAmount - discountAmount - paidAmount]. *)
Definition spec_paymentStatus (totalAmount discountAmount paidAmount : Money)
    : EPaymentStatus.t :=
  let remaining := totalAmount - discountAmount - paidAmount in
  if remaining <=? 0 then EPaymentStatus.completed
  else if 0 <? paidAmount then EPaymentStatus.partial
  else EPaymentStatus.pending.

(** The ledger invariant of the specification, for one enrollment row; a
    [paidAmount] that is [NULL] is read as 0. *)
Definition enrollment_consistent (ps : list Payment.t) (e : Enrollment.t)
    : Prop :=
  num (Enrollment.paidAmount e) = completed_total (Enrollment.id e) ps
  /\ Enrollment.paymentStatus e
     = spec_paymentStatus (Enrollment.totalAmount e)
         (Enrollment.discountAmount e) (num (Enrollment.paidAmount e)).

Definition ledger_consistent (w : World) : Prop :=
  forall e, In e (enrollments (db w)) ->
    enrollment_consistent (payments (db w)) e.

(** The terminal states of a payment, as the specification lists them. *)
Definition terminal (s : PStatus.t) : bool :=
  match s with
  | PStatus.completed | PStatus.refunded | PStatus.failed => true
  | _ => false
  end.

(** Changing the [status] column of enrollments and nothing else. *)
Definition Enrollment_set_status (s : EStatus.t) (e : Enrollment.t)
    : Enrollment.t :=
  Enrollment.mk (Enrollment.id e) (Enrollment.studentId e)
    (Enrollment.courseId e) (Enrollment.teacherId e) s
    (Enrollment.startDate e) (Enrollment.endDate e)
    (Enrollment.completionDate e) (Enrollment.finalGrade e)
    (Enrollment.attendancePercentage e) (Enrollment.certificateIssued e)
    (Enrollment.certificateNumber e)
    (Enrollment.paymentStatus e) (Enrollment.totalAmount e)
    (Enrollment.paidAmount e) (Enrollment.discountAmount e)
    (Enrollment.lastPaymentDate e).

Definition restatus (f : Enrollment.t -> EStatus.t) (w : World) : World :=
  with_enrollments
    (map (fun e => Enrollment_set_status (f e) e) (enrollments (db w))) w.

(** ** Sample data *)

Definition no_event (_ : string) (_ : option string) : Exn + StripeEvent :=
  inl (ProcessorError "No signatures found matching the expected signature for payload").

Definition sample_env : Env :=
  mkEnv 1000 true "pay-1" "TXN-1" "RCP-1" true
    no_event
    (fun _ _ => inr "re_1")
    (fun _ _ => inr (mkConektaOrder "ord_1" (mkConektaCharge "pending_payment")))
    (fun _ => inr "refund_1")
    (fun _ => None).

(** The same request world, the Stripe library accepting the signature and
    returning [event]. *)
Definition env_with_event (event : StripeEvent) (env : Env) : Env :=
  mkEnv (now env) (dbUp env) (uuidv4 env) (txnId env) (rcpId env) (mailUp env)
    (fun _ _ => inr event)
    (stripe_refunds_create env) (conekta_Order_create env)
    (conekta_Charge_refund env) (pg_numeric_in env).

Definition env_db_down (env : Env) : Env :=
  mkEnv (now env) false (uuidv4 env) (txnId env) (rcpId env) (mailUp env)
    (stripe_constructEvent env)
    (stripe_refunds_create env) (conekta_Order_create env)
    (conekta_Charge_refund env) (pg_numeric_in env).

Definition env_at (t : Date) (id txn : string) (env : Env) : Env :=
  mkEnv t (dbUp env) id txn (rcpId env) (mailUp env)
    (stripe_constructEvent env)
    (stripe_refunds_create env) (conekta_Order_create env)
    (conekta_Charge_refund env) (pg_numeric_in env).

Definition sample_users : list User.t :=
  [ User.mk "adm-1" User.admin;
    User.mk "tch-1" User.teacher;
    User.mk "stu-1" User.student ].

Definition sample_courses : list Course.t :=
  [ Course.mk "crs-1" "English A1" 15 150000 true ].

(** An active enrollment of 1500.00 with nothing paid. *)
Definition sample_enrollment (st : EStatus.t) (discount : Money)
    : Enrollment.t :=
  Enrollment.mk "enr-1" "stu-1" "crs-1" "tch-1" st 10 100
    None None None false None
    EPaymentStatus.pending 150000 (Some 0) discount None.

Definition sample_world (st : EStatus.t) (discount : Money)
    (ps : list Payment.t) : World :=
  mkWorld
    (mkStore sample_users sample_courses [sample_enrollment st discount] ps)
    [].

(** A cash payment of 1000.00 entered as completed. *)
Definition sample_paymentData : PaymentData :=
  mkPaymentData "enr-1" (Some 100000) None (Some PMethod.cash)
    (Some PType.partial) (Some PStatus.completed) None None.

(** A payment of 1500.00 opened for a Conekta order. *)
Definition sample_conekta_payment (st : PStatus.t) : Payment.t :=
  Payment.mk "pay-c" "enr-1" 150000 "MXN" PMethod.conekta PType.full st
    (Some "ord_1") None None 900 "adm-1" None None None 0.

(** A payment of 500.00 recorded for a Stripe payment intent. *)
Definition sample_stripe_payment (st : PStatus.t) : Payment.t :=
  Payment.mk "pay-s" "enr-1" 50000 "MXN" PMethod.stripe PType.partial st
    (Some "TXN-0") (Some "pi_1") (Some "RCP-0") 900 "adm-1" None None None 0.

Definition sample_intent : PaymentIntent :=
  mkPaymentIntent "pi_1" 50000 "mxn" (Some "enr-1") None.

Definition order_paid_event : ConektaEvent :=
  mkConektaEvent "order.paid" (Some "ord_1") None.

Definition sample_enrollmentData : EnrollmentData :=
  mkEnrollmentData "stu-1" "crs-1" "tch-1" 200 300 150000 None.

(** The sample request world, the data base reading the text "100000" as
    100000.00. *)
Definition numeric_env : Env :=
  mkEnv 2000 true "pay-2" "TXN-2" "RCP-1" true
    no_event
    (fun _ _ => inr "re_1")
    (fun _ _ => inr (mkConektaOrder "ord_1" (mkConektaCharge "pending_payment")))
    (fun _ => inr "refund_1")
    (fun s => if String.eqb s "100000" then Some 10000000 else None).

(** Runs from the sample world. *)
Definition later_env : Env := env_at 2000 "pay-2" "TXN-2" sample_env.

(** The admin enters the completed cash payment of 1000.00. *)
Definition paid_world (discount : Money) : World :=
  snd (handle sample_env (POST_payments "adm-1" sample_paymentData)
         (sample_world EStatus.active discount [])).

(** Then 400.00 of it are refunded. *)
Definition refunded_world : World :=
  snd (handle later_env
         (POST_payments_refund "adm-1" "pay-1" (js_number 40000)
            (Some "customer request"))
         (paid_world 0)).

Definition signed (event : ConektaEvent) : ConektaWebhookRequest :=
  mkConektaWebhookRequest event (Some "t=1700000000,v1=9f2c").

Definition stripe_request : StripeWebhookRequest :=
  mkStripeWebhookRequest "{...}" (Some "t=1700000000,v1=5257a8").

(** A Conekta order opened as pending, paid, refunded, and the notification
    of the payment delivered once more. *)
Definition conekta_pending_world : World :=
  sample_world EStatus.active 0 [sample_conekta_payment PStatus.pending].

Definition conekta_paid_world : World :=
  snd (handle sample_env (POST_conekta_webhook (signed order_paid_event))
         conekta_pending_world).

Definition conekta_refunded_world : World :=
  snd (handle later_env (POST_conekta_refund "pay-c") conekta_paid_world).

Definition conekta_redelivered_world : World :=
  snd (handle later_env (POST_conekta_webhook (signed order_paid_event))
         conekta_refunded_world).


(** The row the create-payment route writes for [sample_paymentData]. *)
Definition sample_cash_payment : Payment.t :=
  Payment.mk "pay-1" "enr-1" 100000 "MXN" PMethod.cash PType.partial
    PStatus.completed (Some "TXN-1") None None 1000 "adm-1" None None None 0.

(** The row [Enrollment.create] builds from the body of the request. *)
Definition new_enrollment (env : Env) (d : EnrollmentData) : Enrollment.t :=
  Enrollment.mk (uuidv4 env) (ed_studentId d) (ed_courseId d)
    (ed_teacherId d) (or_default (ed_status d) EStatus.pending)
    (ed_startDate d) (ed_endDate d) None None None false None
    EPaymentStatus.pending (ed_totalAmount d) (Some 0) 0 None.

(** The sample world, the course closed. *)
Definition closed_course_world : World :=
  mkWorld
    (mkStore sample_users [Course.mk "crs-1" "English A1" 15 150000 false]
       [sample_enrollment EStatus.active 0] [])
    [].

Definition succeeded_env : Env :=
  env_with_event (mkStripeEvent "payment_intent.succeeded" sample_intent)
    sample_env.

(** ** Authorization middleware *)

(** [authorizeRoles(...roles)]; [user] is [req.user], which
    [authenticateToken] sets; [None] as the result is the call of [next()]. *)
Definition authorizeRoles (roles : list User.Role) (user : option User.t)
    : option Response :=
  match user with
  | None => Some (Resp 401 "Authentication required")
  | Some u =>
      if negb (existsb (User.Role_eqb (User.role u)) roles)
      then Some (Resp 403 "Access denied")
      else None
  end.

Definition requireTeacher := authorizeRoles [User.admin; User.teacher].

(** [checkResourceOwnership(Enrollment)]: [resourceId] is
    [req.params.id || req.body.id]. *)
Definition checkResourceOwnership (env : Env) (user : User.t)
    (resourceId : option string) : World -> option Response * World :=
  try_catch
    (if negb (truthy resourceId)
     then ret (Some (Resp 400 "Resource ID required"))
     else
       resource <- Enrollment_findByPk env (or_default resourceId EmptyString) ;;
       match resource with
       | None => ret (Some (Resp 404 "Resource not found"))
       | Some resource =>
           if User.Role_eqb (User.role user) User.admin
           then ret None
           else
             let ownershipField :=
               if User.Role_eqb (User.role user) User.teacher
               then Enrollment.teacherId else Enrollment.studentId in
             if String.eqb (ownershipField resource) (User.id user)
             then ret None
             else ret (Some (Resp 403 "Access denied"))
       end)
    (fun error w =>
       (Some (Resp 500 "Authorization error"),
        console_log "Resource ownership check error:" w)).

(** ** Enrollments router: status transitions *)

(** [router.put('/:id/cancel')], behind [authenticateToken].  The [notes]
    column, which the update also writes, is not a column of the embedding. *)
Definition cancelEnrollment (env : Env) (user : User.t) (id : UUID)
    : World -> Response * World :=
  try_catch
    (enrollment <- Enrollment_findByPk env id ;;
     match enrollment with
     | None => ret (Resp 404 "Enrollment not found")
     | Some enrollment =>
         if negb (User.Role_eqb (User.role user) User.admin)
            && negb (String.eqb (User.id user) (Enrollment.studentId enrollment))
            && negb (String.eqb (User.id user) (Enrollment.teacherId enrollment))
         then ret (Resp 403 "Access denied")
         else if EStatus.eqb (Enrollment.status enrollment) EStatus.cancelled
         then ret (Resp 400 "Already cancelled")
         else if EStatus.eqb (Enrollment.status enrollment) EStatus.completed
         then ret (Resp 400 "Cannot cancel completed enrollment")
         else
           Enrollment_update env enrollment
             (Enrollment_set_status EStatus.cancelled) ;;
           ret (Resp 200 "Enrollment cancelled successfully")
     end)
    (fun error w =>
       (Resp 500 "Failed to cancel enrollment",
        console_log "Cancel enrollment error:" w)).

(** The body of [PUT /:id/complete]: [finalGrade] and [attendancePercentage]
    as JSON numbers (in hundredths, as the columns are) or absent, and
    [certificateNumber] as a string or absent. *)
Record CompletionData := mkCompletionData {
  cd_finalGrade : option Z;
  cd_attendancePercentage : option Z;
  cd_certificateNumber : option string
}.

(** [a || b] where [a] is a number of the body: 0 is falsy. *)
Definition number_or (a b : option Z) : option Z :=
  match a with
  | Some n => if n =? 0 then b else Some n
  | None => b
  end.

(** [a || b] where [a] is a string of the body: the empty string is falsy. *)
Definition string_or (a b : option string) : option string :=
  if truthy a then a else b.

(** [validate: { min: 0, max: 100 }] of the model on [finalGrade] and on
    [attendancePercentage]; a [null] value is not validated. *)
Definition percentage_ok (v : option Z) : bool :=
  match v with
  | None => true
  | Some n => (0 <=? n) && (n <=? 10000)
  end.

(** [router.put('/:id/complete')], behind [authenticateToken] and
    [requireTeacher].  The update validates the attributes it is given before
    it writes. *)
Definition completeEnrollment (env : Env) (user : User.t) (id : UUID)
    (body : CompletionData) : World -> Response * World :=
  match requireTeacher (Some user) with
  | Some refusal => fun w => (refusal, w)
  | None =>
      try_catch
        (enrollment <- Enrollment_findByPk env id ;;
         match enrollment with
         | None => ret (Resp 404 "Enrollment not found")
         | Some enrollment =>
             if negb (User.Role_eqb (User.role user) User.admin)
                && negb (String.eqb (User.id user)
                           (Enrollment.teacherId enrollment))
             then ret (Resp 403 "Access denied")
             else if EStatus.eqb (Enrollment.status enrollment)
                       EStatus.completed
             then ret (Resp 400 "Already completed")
             else if EStatus.eqb (Enrollment.status enrollment)
                       EStatus.cancelled
             then ret (Resp 400 "Cannot complete cancelled enrollment")
             else
               let finalGrade :=
                 number_or (cd_finalGrade body)
                   (Enrollment.finalGrade enrollment) in
               let attendancePercentage :=
                 number_or (cd_attendancePercentage body)
                   (Enrollment.attendancePercentage enrollment) in
               let certificateNumber :=
                 string_or (cd_certificateNumber body)
                   (Enrollment.certificateNumber enrollment) in
               let certificateIssued := truthy (cd_certificateNumber body) in
               (if negb (percentage_ok finalGrade)
                then throw (SequelizeValidationError
                              "Validation on finalGrade failed")
                else if negb (percentage_ok attendancePercentage)
                then throw (SequelizeValidationError
                              "Validation on attendancePercentage failed")
                else
                  Enrollment_update env enrollment
                    (Enrollment.set_completed (now env) finalGrade
                       attendancePercentage certificateNumber
                       certificateIssued)) ;;
               ret (Resp 200 "Enrollment completed successfully")
         end)
        (fun error w =>
           (Resp 500 "Failed to complete enrollment",
            console_log "Complete enrollment error:" w))
  end.

(** [course.getAvailableSpots()] *)
Definition Course_getAvailableSpots (env : Env) (course : Course.t) : M Z :=
  enrollmentCount <- Course_getCurrentEnrollmentCount env course ;;
  ret (Z.max 0 (Course.maxStudents course - enrollmentCount)).

(** ** Payment model: instance methods *)

Definition Payment_isPending (this : Payment.t) : bool :=
  PStatus.eqb (Payment.status this) PStatus.pending
  || PStatus.eqb (Payment.status this) PStatus.processing.

Definition Payment_isFailed (this : Payment.t) : bool :=
  PStatus.eqb (Payment.status this) PStatus.failed
  || PStatus.eqb (Payment.status this) PStatus.cancelled.

Definition Payment_isRefunded (this : Payment.t) : bool :=
  PStatus.eqb (Payment.status this) PStatus.refunded
  || (0 <? Payment.refundAmount this).

(** ** Payments router: reading and editing one payment *)

(** [router.get('/:id')] of the payments router, behind [authenticateToken];
    the second component of the answer is the payment sent, if any.  The
    enrollment is the one the query includes. *)
Definition getPayment (env : Env) (user : User.t) (id : UUID)
    : World -> (Response * option Payment.t) * World :=
  try_catch
    (payment <- Payment_findByPk env id ;;
     match payment with
     | None => ret (Resp 404 "Payment not found", None)
     | Some payment =>
         if negb (User.Role_eqb (User.role user) User.admin)
         then
           enrollment <- gets (lookup_enrollment (Payment.enrollmentId payment)) ;;
           match enrollment with
           | None =>
               throw (TypeError
                 "Cannot read properties of null (reading 'studentId')")
           | Some enrollment =>
               if negb (String.eqb (User.id user)
                          (Enrollment.studentId enrollment))
               then ret (Resp 403 "Access denied", None)
               else ret (Resp 200 "payment", Some payment)
           end
         else ret (Resp 200 "payment", Some payment)
     end)
    (fun error w =>
       ((Resp 500 "Failed to retrieve payment", None),
        console_log "Get payment error:" w)).




(** ** Conekta controller: the other payment routes *)

(** [ConektaController.processCardPayment] *)
Definition processCardPayment (env : Env) (enrollmentId : UUID)
    : World -> Response * World :=
  try_catch
    (enrollment <- Enrollment_findByPk env enrollmentId ;;
     match enrollment with
     | None => ret (Resp 404 "Enrollment not found")
     | Some enrollment =>
         course <- Course_findByPk env (Enrollment.courseId enrollment) ;;
         match course with
         | None =>
             throw (TypeError "Cannot read properties of null (reading 'price')")
         | Some course =>
             order <- of_sum (conekta_Order_create env (Course.price course)
                                "card") ;;
             payment <- Payment_create env
               (mkPaymentValues
                  (Some enrollmentId)
                  (Some (Course.price course))
                  (Some "MXN")
                  None
                  None
                  (Some (if is_paid order then PStatus.completed
                         else PStatus.pending))
                  (Some (order_id order))
                  None
                  None
                  None
                  None) ;;
             (if is_paid order then sendPaymentConfirmationEmail env
              else ret tt) ;;
             ret (Resp 200 "Card payment processed successfully")
         end
     end)
    (fun error w =>
       (Resp 500 (message error), console_log "Conekta card payment error:" w)).

(** [ConektaController.processOxxoPayment] *)
Definition processOxxoPayment (env : Env) (enrollmentId : UUID)
    : World -> Response * World :=
  try_catch
    (enrollment <- Enrollment_findByPk env enrollmentId ;;
     match enrollment with
     | None => ret (Resp 404 "Enrollment not found")
     | Some enrollment =>
         course <- Course_findByPk env (Enrollment.courseId enrollment) ;;
         match course with
         | None =>
             throw (TypeError "Cannot read properties of null (reading 'price')")
         | Some course =>
             order <- of_sum (conekta_Order_create env (Course.price course)
                                "oxxo_cash") ;;
             payment <- Payment_create env
               (mkPaymentValues
                  (Some enrollmentId)
                  (Some (Course.price course))
                  (Some "MXN")
                  None
                  None
                  (Some PStatus.pending)
                  (Some (order_id order))
                  None
                  None
                  None
                  None) ;;
             ret (Resp 200 "OXXO payment created successfully")
         end
     end)
    (fun error w =>
       (Resp 500 (message error), console_log "Conekta OXXO payment error:" w)).

(** [ConektaController.processSpeiPayment] *)
Definition processSpeiPayment (env : Env) (enrollmentId : UUID)
    : World -> Response * World :=
  try_catch
    (enrollment <- Enrollment_findByPk env enrollmentId ;;
     match enrollment with
     | None => ret (Resp 404 "Enrollment not found")
     | Some enrollment =>
         course <- Course_findByPk env (Enrollment.courseId enrollment) ;;
         match course with
         | None =>
             throw (TypeError "Cannot read properties of null (reading 'price')")
         | Some course =>
             order <- of_sum (conekta_Order_create env (Course.price course)
                                "spei") ;;
             payment <- Payment_create env
               (mkPaymentValues
                  (Some enrollmentId)
                  (Some (Course.price course))
                  (Some "MXN")
                  None
                  None
                  (Some PStatus.pending)
                  (Some (order_id order))
                  None
                  None
                  None
                  None) ;;
             ret (Resp 200 "SPEI payment created successfully")
         end
     end)
    (fun error w =>
       (Resp 500 (message error), console_log "Conekta SPEI payment error:" w)).

(** ** Attendance model *)

Module Attendance.
Inductive Status := present | absent | late | excused | tardy.

Record t := mk {
  status : Status;
  minutesLate : Z;
  minutesPresent : Z
}.

Definition isPresent (this : t) : bool :=
  match status this with
  | present | late | tardy => true
  | _ => false
  end.

Definition isAbsent (this : t) : bool :=
  match status this with
  | absent => true
  | _ => false
  end.

Definition isExcused (this : t) : bool :=
  match status this with
  | excused => true
  | _ => false
  end.

Definition isLate (this : t) : bool := 0 <? minutesLate this.

Definition getStatusColor (this : t) : string :=
  match status this with
  | present => "green"
  | late => "yellow"
  | tardy => "orange"
  | absent => "red"
  | excused => "blue"
  end.
End Attendance.

(** ** All the routes as one transition system *)

Inductive Route :=
| ledger_route (r : Request)
| PUT_enrollments_cancel (user : User.t) (id : UUID)
| PUT_enrollments_complete (user : User.t) (id : UUID) (body : CompletionData)
| GET_payments (user : User.t) (id : UUID)
| POST_conekta_card_payment (enrollmentId : UUID)
| POST_conekta_oxxo_payment (enrollmentId : UUID)
| POST_conekta_spei_payment (enrollmentId : UUID).

Definition serve (env : Env) (r : Route) : World -> Response * World :=
  match r with
  | ledger_route r => handle env r
  | PUT_enrollments_cancel user id => cancelEnrollment env user id
  | PUT_enrollments_complete user id body =>
      completeEnrollment env user id body
  | GET_payments user id =>
      fun w => (fst (fst (getPayment env user id w)),
                snd (getPayment env user id w))
  | POST_conekta_card_payment enrollmentId => processCardPayment env enrollmentId
  | POST_conekta_oxxo_payment enrollmentId => processOxxoPayment env enrollmentId
  | POST_conekta_spei_payment enrollmentId => processSpeiPayment env enrollmentId
  end.

(** Serving requests one after the other, each in its own external world. *)
Fixpoint serve_all (rs : list (Env * Route)) (w : World) : World :=
  match rs with
  | [] => w
  | (env, r) :: rest => serve_all rest (snd (serve env r w))
  end.

(** The columns of a row that no route of [serve] writes once the row
    exists. *)
Definition payment_key (p : Payment.t)
    : UUID * UUID * Money * option string * option string :=
  (Payment.id p, Payment.enrollmentId p, Payment.amount p,
   Payment.transactionId p, Payment.externalPaymentId p).

Definition enrollment_key (e : Enrollment.t)
    : UUID * UUID * UUID * UUID * Money * Money :=
  (Enrollment.id e, Enrollment.studentId e, Enrollment.courseId e,
   Enrollment.teacherId e, Enrollment.totalAmount e,
   Enrollment.discountAmount e).

Definition enrollment_pair (e : Enrollment.t) : UUID * UUID :=
  (Enrollment.studentId e, Enrollment.courseId e).

(** What the primary keys and the unique index of the enrollments promise. *)
Definition unique_keys (w : World) : Prop :=
  NoDup (map Payment.id (payments (db w)))
  /\ NoDup (map Enrollment.id (enrollments (db w)))
  /\ NoDup (map enrollment_pair (enrollments (db w))).

(** An enrollment that is cancelled or completed. *)
Definition closed (s : EStatus.t) : bool :=
  EStatus.eqb s EStatus.cancelled || EStatus.eqb s EStatus.completed.

(** How the tables of [w'] relate to those of an earlier world [w]. *)
Record evolves (w w' : World) : Prop := mkEvolves {
  ev_users : users (db w') = users (db w);
  ev_courses : courses (db w') = courses (db w);
  ev_payments :
    exists added,
      map payment_key (payments (db w'))
      = map payment_key (payments (db w)) ++ added;
  ev_enrollments :
    exists added,
      map enrollment_key (enrollments (db w'))
      = map enrollment_key (enrollments (db w)) ++ added;
  ev_unique : unique_keys w -> unique_keys w';
  ev_closed :
    forall id e,
      lookup_enrollment id w = Some e ->
      exists e',
        lookup_enrollment id w' = Some e'
        /\ (closed (Enrollment.status e) = true ->
            Enrollment.status e' = Enrollment.status e)
}.

(** A computation every run of which leaves tables that evolve from the
    tables it started with, whether it returns or throws. *)
Definition keeps {A} (m : M A) : Prop :=
  forall w, evolves w (snd (m w)).

(** * Properties *)

(** ** Tables and lookups *)

Lemma find_map_preserve {A} (p : A -> bool) (g : A -> A) (l : list A) :
  (forall x, p (g x) = p x) ->
  find p (map g l) = option_map g (find p l).
Proof.
  intros Hp. induction l as [|x l IH]; simpl; [reflexivity|].
  rewrite Hp. destruct (p x); [reflexivity | exact IH].
Qed.

Lemma lookup_enrollment_id pk w e :
  lookup_enrollment pk w = Some e -> Enrollment.id e = pk.
Proof.
  unfold lookup_enrollment. intros H.
  apply find_some in H. destruct H as [_ H]. now apply String.eqb_eq.
Qed.

Lemma lookup_enrollment_In pk w e :
  lookup_enrollment pk w = Some e -> In e (enrollments (db w)).
Proof.
  unfold lookup_enrollment. intros H. now apply find_some in H.
Qed.

Lemma lookup_payment_id pk w p :
  lookup_payment pk w = Some p -> Payment.id p = pk.
Proof.
  unfold lookup_payment. intros H.
  apply find_some in H. destruct H as [_ H]. now apply String.eqb_eq.
Qed.

Lemma find_update_enrollment_row pk f es :
  (forall e, Enrollment.id (f e) = Enrollment.id e) ->
  find (fun e => String.eqb (Enrollment.id e) pk) (update_enrollment_row pk f es)
  = option_map f (find (fun e => String.eqb (Enrollment.id e) pk) es).
Proof.
  intros Hf. unfold update_enrollment_row.
  induction es as [|x es IH]; simpl; [reflexivity|].
  destruct (String.eqb (Enrollment.id x) pk) eqn:E.
  - rewrite Hf, E. reflexivity.
  - rewrite E. exact IH.
Qed.

Lemma update_enrollment_row_twice pk f g es :
  (forall e, Enrollment.id (f e) = Enrollment.id e) ->
  update_enrollment_row pk g (update_enrollment_row pk f es)
  = update_enrollment_row pk (fun e => g (f e)) es.
Proof.
  intros Hf. unfold update_enrollment_row. rewrite map_map.
  apply map_ext. intros e.
  destruct (String.eqb (Enrollment.id e) pk) eqn:E.
  - now rewrite Hf, E.
  - now rewrite E.
Qed.

(** ** The monad *)

Lemma connected_up env w :
  dbUp env = true -> connected env w = (inr tt, w).
Proof. unfold connected. now intros ->. Qed.

Lemma connected_down env w :
  dbUp env = false -> connected env w = (inl SequelizeConnectionError, w).
Proof. unfold connected. now intros ->. Qed.

Ltac unfold_db :=
  unfold Enrollment_findByPk, Payment_findByPk, User_findByPk,
    Course_findByPk, Payment_findOne_externalPaymentId,
    Payment_findOne_transactionId, Payment_sum_amount, Enrollment_update,
    Payment_save, Payment_update_where_externalPaymentId, Course_isFull,
    Course_getAvailableSpots, Course_getCurrentEnrollmentCount,
    Enrollment_findOne_existing, sendPaymentConfirmationEmail.

Ltac unfold_m :=
  repeat (progress
    (unfold try_catch, lift, bind, gets, modify, of_sum, ret, throw,
       connected));
  cbv beta iota zeta.

(** ** The recomputation block *)

Lemma fold_left_amount rows acc :
  fold_left (fun acc p => acc + Payment.amount p) rows acc
  = acc + sum_amount rows.
Proof.
  revert acc. induction rows as [|p rows IH]; intros acc; simpl.
  - lia.
  - rewrite IH. lia.
Qed.

Lemma filter_nil_iff {A} (f : A -> bool) (l : list A) :
  filter f l = [] <-> forall x, In x l -> f x = false.
Proof.
  induction l as [|a l IH]; simpl.
  - split; [intros _ x []|reflexivity].
  - destruct (f a) eqn:Ha.
    + split; [discriminate|]. intros H.
      rewrite (H a (or_introl eq_refl)) in Ha. discriminate.
    + rewrite IH. split.
      * intros H x [<-|Hx]; auto.
      * intros H x Hx. apply H. now right.
Qed.

Lemma existsb_filter_nil {A} (f : A -> bool) (l : list A) :
  existsb f l = false <-> filter f l = [].
Proof.
  rewrite filter_nil_iff. split.
  - intros H x Hx. destruct (f x) eqn:E; [|reflexivity].
    assert (existsb f l = true) by (apply existsb_exists; eauto). congruence.
  - intros H. destruct (existsb f l) eqn:E; [|reflexivity].
    apply existsb_exists in E. destruct E as (x & Hx & Hfx).
    rewrite (H x Hx) in Hfx. discriminate.
Qed.

(** What the query of the block returns, in the terms of the
    specification. *)
Lemma sql_sum_completed enrollmentId ps :
  sql_sum_amount
    (filter (fun p =>
               String.eqb (Payment.enrollmentId p) enrollmentId
               && PStatus.eqb (Payment.status p) PStatus.completed) ps)
  = nullable_total enrollmentId ps.
Proof.
  unfold nullable_total, completed_total.
  change (fun p => String.eqb (Payment.enrollmentId p) enrollmentId
                   && PStatus.eqb (Payment.status p) PStatus.completed)
    with (is_completed_of enrollmentId).
  destruct (existsb (is_completed_of enrollmentId) ps) eqn:E.
  - destruct (filter (is_completed_of enrollmentId) ps) as [|p rows] eqn:F.
    + apply existsb_filter_nil in F. congruence.
    + unfold sql_sum_amount. now rewrite fold_left_amount.
  - apply existsb_filter_nil in E. now rewrite E.
Qed.

Lemma num_nullable_total enrollmentId ps :
  num (nullable_total enrollmentId ps) = completed_total enrollmentId ps.
Proof.
  unfold nullable_total.
  destruct (existsb (is_completed_of enrollmentId) ps) eqn:E; [reflexivity|].
  apply existsb_filter_nil in E. unfold completed_total. now rewrite E.
Qed.

Lemma nullable_total_None enrollmentId ps :
  nullable_total enrollmentId ps = None
  <-> forall p, In p ps -> is_completed_of enrollmentId p = false.
Proof.
  unfold nullable_total. rewrite <- filter_nil_iff, <- existsb_filter_nil.
  destruct (existsb (is_completed_of enrollmentId) ps);
    split; congruence.
Qed.

Lemma updateEnrollmentPaymentStatus_up env enrollment enrollmentId w :
  dbUp env = true ->
  updateEnrollmentPaymentStatus env enrollment enrollmentId w
  = (inr tt,
     with_enrollments
       (update_enrollment_row (Enrollment.id enrollment)
          (Enrollment.set_payment
             (nullable_total enrollmentId (payments (db w)))
             (paymentStatus_of
                (Enrollment.totalAmount enrollment
                 - num (nullable_total enrollmentId (payments (db w))))
                (nullable_total enrollmentId (payments (db w))))
             (now env))
          (enrollments (db w)))
       w).
Proof.
  intros Hup. unfold updateEnrollmentPaymentStatus. unfold_db. unfold_m.
  rewrite Hup, sql_sum_completed. reflexivity.
Qed.

Lemma updateEnrollmentPaymentStatus_down env enrollment enrollmentId w :
  dbUp env = false ->
  updateEnrollmentPaymentStatus env enrollment enrollmentId w
  = (inl SequelizeConnectionError, w).
Proof.
  intros Hdown. unfold updateEnrollmentPaymentStatus. unfold_db. unfold_m.
  rewrite Hdown. reflexivity.
Qed.

(** C5: the recomputation block is idempotent.  Run for an enrollment found
    by its key, then run again for the same enrollment read back from the
    data base, with no payment changed in between: the second run succeeds,
    leaves the payments alone, gives the row the same [paidAmount] and
    [paymentStatus] as the first, and produces exactly the world that a
    single run at the later clock produces from the start; when both runs
    read the same clock, the second changes nothing at all.  The result is a
    function of the payment rows, not of what the row held before:
    [paidAmount] is the sum of the amounts of the completed payments of the
    enrollment, stored as [NULL] exactly when it has none, and
    [paymentStatus] is computed from that sum and [totalAmount]. *)
Theorem reconciliation_idempotent
    env1 env2 enrollmentId enrollment enrollment' w :
  dbUp env1 = true -> dbUp env2 = true ->
  lookup_enrollment enrollmentId w = Some enrollment ->
  let w1 := snd (updateEnrollmentPaymentStatus env1 enrollment enrollmentId w) in
  lookup_enrollment enrollmentId w1 = Some enrollment' ->
  let r2 := updateEnrollmentPaymentStatus env2 enrollment' enrollmentId w1 in
  fst r2 = inr tt
  /\ payments (db (snd r2)) = payments (db w1)
  /\ (forall e2, lookup_enrollment enrollmentId (snd r2) = Some e2 ->
        Enrollment.paidAmount e2 = Enrollment.paidAmount enrollment'
        /\ Enrollment.paymentStatus e2 = Enrollment.paymentStatus enrollment'
        /\ num (Enrollment.paidAmount e2)
           = completed_total enrollmentId (payments (db (snd r2)))
        /\ (Enrollment.paidAmount e2 = None
            <-> forall p, In p (payments (db (snd r2))) ->
                  is_completed_of enrollmentId p = false)
        /\ Enrollment.paymentStatus e2
           = (if Enrollment.totalAmount e2
                   <=? completed_total enrollmentId (payments (db (snd r2)))
              then EPaymentStatus.completed
              else if 0 <? completed_total enrollmentId
                             (payments (db (snd r2)))
              then EPaymentStatus.partial
              else EPaymentStatus.pending))
  /\ snd r2
     = snd (updateEnrollmentPaymentStatus env2 enrollment enrollmentId w)
  /\ (now env2 = now env1 -> snd r2 = w1).
Proof.
  intros Hup1 Hup2 Hfind w1 Hfind' r2.
  pose proof (lookup_enrollment_id _ _ _ Hfind) as Hid.
  subst w1 r2.
  rewrite (updateEnrollmentPaymentStatus_up env1) in * by assumption.
  simpl snd in *.
  unfold lookup_enrollment in Hfind'. simpl in Hfind'.
  rewrite Hid in Hfind'.
  rewrite find_update_enrollment_row in Hfind' by (intros; reflexivity).
  fold (lookup_enrollment enrollmentId w) in Hfind'.
  rewrite Hfind in Hfind'. simpl in Hfind'.
  injection Hfind' as <-.
  rewrite !(updateEnrollmentPaymentStatus_up env2) by assumption.
  simpl. rewrite Hid.
  rewrite update_enrollment_row_twice by (intros; reflexivity).
  split; [reflexivity|]. split; [reflexivity|]. split; [|split].
  - intros e2 He2. unfold lookup_enrollment in He2. simpl in He2.
    rewrite find_update_enrollment_row in He2 by (intros; reflexivity).
    fold (lookup_enrollment enrollmentId w) in He2.
    rewrite Hfind in He2. simpl in He2. injection He2 as <-.
    cbn [Enrollment.set_payment Enrollment.paidAmount
         Enrollment.paymentStatus Enrollment.totalAmount].
    split; [reflexivity|]. split; [reflexivity|].
    split; [apply num_nullable_total|].
    split; [apply nullable_total_None|].
    unfold paymentStatus_of. rewrite num_nullable_total.
    replace (Enrollment.totalAmount enrollment
             - completed_total enrollmentId (payments (db w)) <=? 0)
      with (Enrollment.totalAmount enrollment
            <=? completed_total enrollmentId (payments (db w))).
    + reflexivity.
    + destruct (Z.leb_spec (Enrollment.totalAmount enrollment)
                  (completed_total enrollmentId (payments (db w))));
      destruct (Z.leb_spec
                  (Enrollment.totalAmount enrollment
                   - completed_total enrollmentId (payments (db w))) 0);
      try reflexivity; lia.
  - reflexivity.
  - intros ->. reflexivity.
Qed.

Lemma reconciliation_idempotent_witness :
  let w :=
    sample_world EStatus.active 0 [sample_stripe_payment PStatus.completed] in
  let e := sample_enrollment EStatus.active 0 in
  let w1 := snd (updateEnrollmentPaymentStatus sample_env e "enr-1" w) in
  let e' := Enrollment.set_payment (Some 50000) EPaymentStatus.partial 1000 e in
  let r2 :=
    updateEnrollmentPaymentStatus (env_at 2000 "pay-2" "TXN-2" sample_env)
      e' "enr-1" w1 in
  snd r2
  = snd (updateEnrollmentPaymentStatus (env_at 2000 "pay-2" "TXN-2" sample_env)
           e "enr-1" w)
  /\ num (Enrollment.paidAmount
            (Enrollment.set_payment (Some 50000) EPaymentStatus.partial 2000 e))
     = completed_total "enr-1" (payments (db (snd r2))).
Proof.
  intros w e w1 e' r2.
  pose proof (reconciliation_idempotent sample_env
                (env_at 2000 "pay-2" "TXN-2" sample_env) "enr-1" e e' w
                eq_refl eq_refl eq_refl eq_refl) as H.
  split.
  - exact (proj1 (proj2 (proj2 (proj2 H)))).
  - exact (proj1 (proj2 (proj2
             (proj1 (proj2 (proj2 H))
                (Enrollment.set_payment (Some 50000) EPaymentStatus.partial
                   2000 e)
                eq_refl)))).
Defined.

(** ** Stripe webhook *)

Lemma stripeWebhook_rejected env req err w :
  stripe_constructEvent env (sw_body req) (sw_signature req) = inl err ->
  stripeWebhook env req w
  = (Resp 400 ("Webhook Error: " ++ message err)%string,
     console_log "Webhook signature verification failed:" w).
Proof. unfold stripeWebhook. now intros ->. Qed.

Lemma stripeWebhook_failed_up env req event w :
  stripe_constructEvent env (sw_body req) (sw_signature req) = inr event ->
  se_type event = "payment_intent.payment_failed" ->
  dbUp env = true ->
  stripeWebhook env req w
  = (Resp 200 "received",
     with_payments
       (map (fun p =>
               if opt_eqb (Payment.externalPaymentId p)
                    (pi_id (se_data_object event))
               then Payment.set_status PStatus.failed p else p)
            (payments (db w)))
       w).
Proof.
  intros Hev Hty Hup. unfold stripeWebhook. rewrite Hev, Hty.
  change (String.eqb "payment_intent.payment_failed"
            "payment_intent.succeeded") with false.
  change (String.eqb "payment_intent.payment_failed"
            "payment_intent.payment_failed") with true.
  cbv iota. unfold_db. unfold_m. rewrite Hup. reflexivity.
Qed.

Lemma stripeWebhook_failed_down env req event w :
  stripe_constructEvent env (sw_body req) (sw_signature req) = inr event ->
  se_type event = "payment_intent.payment_failed" ->
  dbUp env = false ->
  stripeWebhook env req w
  = (Resp 500 "Webhook processing failed",
     console_log "Webhook processing error:" w).
Proof.
  intros Hev Hty Hdown. unfold stripeWebhook. rewrite Hev, Hty.
  change (String.eqb "payment_intent.payment_failed"
            "payment_intent.succeeded") with false.
  change (String.eqb "payment_intent.payment_failed"
            "payment_intent.payment_failed") with true.
  cbv iota. unfold_db. unfold_m. rewrite Hdown. reflexivity.
Qed.

(** C10: a [payment_intent.payment_failed] event changes nothing but the
    status of the payment rows carrying the event's external id, which
    becomes [failed]: users, courses and every enrollment row (with its
    [paidAmount], [paymentStatus] and [lastPaymentDate]) are as before, the
    payment table keeps its rows and their order, the rows of another
    external id are untouched, and the rows written differ from the old ones
    in [status] alone. *)
Theorem payment_failed_frame env req event w :
  stripe_constructEvent env (sw_body req) (sw_signature req) = inr event ->
  se_type event = "payment_intent.payment_failed" ->
  let w' := snd (stripeWebhook env req w) in
  users (db w') = users (db w)
  /\ courses (db w') = courses (db w)
  /\ enrollments (db w') = enrollments (db w)
  /\ payments (db w')
     = (if dbUp env
        then map (fun p =>
                    if opt_eqb (Payment.externalPaymentId p)
                         (pi_id (se_data_object event))
                    then Payment.set_status PStatus.failed p else p)
                 (payments (db w))
        else payments (db w))
  /\ (forall p s,
        Payment.set_status s p
        = Payment.mk (Payment.id p) (Payment.enrollmentId p) (Payment.amount p)
            (Payment.currency p) (Payment.paymentMethod p)
            (Payment.paymentType p) s (Payment.transactionId p)
            (Payment.externalPaymentId p) (Payment.receiptNumber p)
            (Payment.paymentDate p) (Payment.processedBy p)
            (Payment.refundReason p) (Payment.refundedBy p)
            (Payment.refundedAt p) (Payment.refundAmount p)).
Proof.
  intros Hev Hty w'. subst w'.
  destruct (dbUp env) eqn:Hup.
  - rewrite (stripeWebhook_failed_up _ _ _ _ Hev Hty Hup). simpl.
    repeat split; reflexivity.
  - rewrite (stripeWebhook_failed_down _ _ _ _ Hev Hty Hup). simpl.
    repeat split; reflexivity.
Qed.

Lemma payment_failed_frame_witness :
  let env :=
    env_with_event
      (mkStripeEvent "payment_intent.payment_failed" sample_intent)
      sample_env in
  let w :=
    sample_world EStatus.active 0 [sample_stripe_payment PStatus.pending] in
  let w' := snd (stripeWebhook env (mkStripeWebhookRequest "{}" (Some "t=1,v1=5257a8")) w) in
  enrollments (db w') = enrollments (db w)
  /\ payments (db w') = [sample_stripe_payment PStatus.failed].
Proof.
  intros env w w'.
  pose proof (payment_failed_frame env
    (mkStripeWebhookRequest "{}" (Some "t=1,v1=5257a8"))
    (mkStripeEvent "payment_intent.payment_failed" sample_intent) w
    eq_refl eq_refl) as H.
  split.
  - exact (proj1 (proj2 (proj2 H))).
  - exact (proj1 (proj2 (proj2 (proj2 H)))).
Defined.

(** ** Creating payments *)

Lemma Payment_build_ok env v row :
  Payment_build env v = inr row ->
  v_enrollmentId v = Some (Payment.enrollmentId row)
  /\ v_amount v = Some (Payment.amount row)
  /\ 1 <= Payment.amount row
  /\ Payment.status row = or_default (v_status v) PStatus.pending
  /\ Payment.externalPaymentId row = v_externalPaymentId v
  /\ Payment.transactionId row = v_transactionId v
  /\ Payment.id row = uuidv4 env.
Proof.
  unfold Payment_build.
  destruct (v_enrollmentId v); [|discriminate].
  destruct (v_amount v) as [a|]; [|discriminate].
  destruct (v_paymentMethod v); [|discriminate].
  destruct (v_paymentType v); [|discriminate].
  destruct (v_processedBy v); [|discriminate].
  destruct (a <? 1) eqn:Ha; [discriminate|].
  intros [= <-]. simpl. apply Z.ltb_ge in Ha. auto 10.
Qed.

Lemma Payment_create_ok env v w a w' :
  Payment_create env v w = (inr a, w') ->
  dbUp env = true /\ Payment_build env v = inr a
  /\ w' = with_payments (payments (db w) ++ [a]) w.
Proof.
  unfold Payment_create. unfold_m.
  destruct (dbUp env); [|discriminate].
  destruct (Payment_build env v) as [e|row]; [discriminate|].
  match goal with |- context [existsb ?f ?l] => destruct (existsb f l) end;
    [discriminate|].
  destruct (taken Payment.transactionId _ _); [discriminate|].
  destruct (taken Payment.receiptNumber _ _); [discriminate|].
  intros H. injection H as <- <-. auto.
Qed.

Lemma Payment_create_err env v w e w' :
  Payment_create env v w = (inl e, w') -> w' = w.
Proof.
  unfold Payment_create. unfold_m.
  destruct (dbUp env); [|now intros [= _ <-]].
  destruct (Payment_build env v) as [e0|row]; [now intros [= _ <-]|].
  match goal with |- context [existsb ?f ?l] => destruct (existsb f l) end;
    [now intros [= _ <-]|].
  destruct (taken Payment.transactionId _ _); [now intros [= _ <-]|].
  destruct (taken Payment.receiptNumber _ _); [now intros [= _ <-]|].
  discriminate.
Qed.

Lemma createPayment_created env user pd w r w' :
  createPayment env user pd w = (r, w') -> code r = 201 ->
  exists enrollment row,
    dbUp env = true
    /\ lookup_enrollment (pd_enrollmentId pd) w = Some enrollment
    /\ Enrollment.status enrollment = EStatus.active
    /\ Payment.enrollmentId row = pd_enrollmentId pd
    /\ Payment.status row = or_default (pd_status pd) PStatus.pending
    /\ w' = recomputed env enrollment (pd_enrollmentId pd) row w.
Proof.
  unfold createPayment, try_catch, bind at 1.
  unfold Enrollment_findByPk. unfold bind at 1. unfold connected.
  destruct (dbUp env) eqn:Hup; unfold_m; [|intros [= <- _]; discriminate].
  destruct (lookup_enrollment (pd_enrollmentId pd) w) as [enrollment|] eqn:Hfind;
    [|intros [= <- _]; discriminate].
  destruct (EStatus.eqb (Enrollment.status enrollment) EStatus.active) eqn:Hst;
    simpl; [|intros [= <- _]; discriminate].
  match goal with |- context [Payment_create env ?v w] =>
    destruct (Payment_create env v w) as [[e|row] w1] eqn:Hc end;
    [intros [= <- _]; discriminate|].
  apply Payment_create_ok in Hc. destruct Hc as (_ & Hb & ->).
  rewrite updateEnrollmentPaymentStatus_up by assumption.
  intros [= <- <-] _.
  apply Payment_build_ok in Hb. simpl in Hb.
  destruct Hb as (He & _ & _ & Hs & _).
  exists enrollment, row.
  repeat split; try assumption; try reflexivity.
  - destruct (Enrollment.status enrollment); simpl in Hst; congruence.
  - congruence.
Qed.

Lemma stripeWebhook_succeeded_created
    env req event enrollmentId enrollment w r w' :
  stripe_constructEvent env (sw_body req) (sw_signature req) = inr event ->
  se_type event = "payment_intent.succeeded" ->
  lookup_externalPaymentId (pi_id (se_data_object event)) w = None ->
  pi_metadata_enrollmentId (se_data_object event) = Some enrollmentId ->
  lookup_enrollment enrollmentId w = Some enrollment ->
  stripeWebhook env req w = (r, w') -> code r = 200 ->
  exists row,
    dbUp env = true
    /\ Payment.enrollmentId row = enrollmentId
    /\ Payment.status row = PStatus.completed
    /\ Payment.amount row = pi_amount (se_data_object event)
    /\ Payment.externalPaymentId row = Some (pi_id (se_data_object event))
    /\ w' = recomputed env enrollment enrollmentId row w.
Proof.
  intros Hev Hty Hnone Hmeta Hfind. unfold stripeWebhook. rewrite Hev, Hty.
  change (String.eqb "payment_intent.succeeded" "payment_intent.succeeded")
    with true.
  cbv iota. rewrite Hmeta.
  unfold try_catch, bind at 1 2.
  unfold Payment_findOne_externalPaymentId, Enrollment_findByPk.
  unfold bind at 1. unfold connected.
  destruct (dbUp env) eqn:Hup; unfold_m; [|intros [= <- _]; discriminate].
  rewrite Hnone, Hfind.
  match goal with |- context [Payment_create env ?v w] =>
    destruct (Payment_create env v w) as [[e|row] w1] eqn:Hc end;
    [intros [= <- _]; discriminate|].
  apply Payment_create_ok in Hc. destruct Hc as (_ & Hb & ->).
  rewrite updateEnrollmentPaymentStatus_up by assumption.
  intros [= <- <-] _.
  apply Payment_build_ok in Hb. simpl in Hb.
  destruct Hb as (He & Ha & _ & Hs & Hx & _).
  exists row. repeat split; try assumption; try reflexivity; congruence.
Qed.

Lemma recomputed_row env enrollment enrollmentId row w e' :
  lookup_enrollment enrollmentId w = Some enrollment ->
  lookup_enrollment enrollmentId
    (recomputed env enrollment enrollmentId row w) = Some e' ->
  let ps := payments (db (recomputed env enrollment enrollmentId row w)) in
  num (Enrollment.paidAmount e') = completed_total (Enrollment.id e') ps
  /\ (Enrollment.paidAmount e' = None
      <-> forall p, In p ps -> is_completed_of (Enrollment.id e') p = false)
  /\ (Enrollment.discountAmount e' = 0 ->
      Enrollment.paymentStatus e'
      = spec_paymentStatus (Enrollment.totalAmount e')
          (Enrollment.discountAmount e') (num (Enrollment.paidAmount e'))).
Proof.
  intros Hfind He'.
  pose proof (lookup_enrollment_id _ _ _ Hfind) as Hid.
  unfold recomputed, lookup_enrollment in He'. simpl in He'.
  rewrite Hid in He'.
  rewrite find_update_enrollment_row in He' by (intros; reflexivity).
  fold (lookup_enrollment enrollmentId w) in He'.
  rewrite Hfind in He'. simpl in He'. injection He' as <-.
  simpl. rewrite Hid.
  split; [apply num_nullable_total|].
  split; [apply nullable_total_None|].
  intros ->. unfold spec_paymentStatus, paymentStatus_of.
  rewrite Z.sub_0_r. reflexivity.
Qed.

(** ** Refunds *)

Ltac break_match :=
  repeat match goal with
  | |- context [if ?c then _ else _] => destruct c eqn:?
  | |- context [match ?x with Some _ => _ | None => _ end] => destruct x eqn:?
  | |- context [match ?x with inl _ => _ | inr _ => _ end] => destruct x eqn:?
  end.

Lemma refund_unfold env user id refundAmount refundReason w :
  refund env user id refundAmount refundReason w
  = if dbUp env then
      match lookup_payment id w with
      | None => (Resp 404 "Payment not found", w)
      | Some payment =>
          if negb (PStatus.eqb (Payment.status payment) PStatus.completed)
          then (Resp 400 "Payment not completed", w)
          else if js_gt_decimal refundAmount (Payment.amount payment)
          then (Resp 400 "Invalid refund amount", w)
          else if PMethod.is_stripe (Payment.paymentMethod payment)
                  && truthy (Payment.externalPaymentId payment)
          then
            match stripe_refunds_create env
                    (or_default (Payment.externalPaymentId payment) EmptyString)
                    refundAmount with
            | inl _ =>
                (Resp 500 "Refund failed", console_log "Stripe refund error:" w)
            | inr _ =>
                match refundAmount_column env refundAmount with
                | inl _ =>
                    (Resp 500 "Refund failed",
                     console_log "Stripe refund error:" w)
                | inr stored =>
                    (Resp 200 "Refund processed successfully",
                     with_payments
                       (update_payment_row (Payment.id payment)
                          (Payment.set_refund stored refundReason user
                             (now env))
                          (payments (db w)))
                       w)
                end
            end
          else
            match refundAmount_column env refundAmount with
            | inl _ =>
                (Resp 500 "Failed to process refund",
                 console_log "Process refund error:" w)
            | inr stored =>
                (Resp 200 "Refund processed successfully",
                 with_payments
                   (update_payment_row (Payment.id payment)
                      (Payment.set_refund stored refundReason user (now env))
                      (payments (db w)))
                   w)
            end
      end
    else (Resp 500 "Failed to process refund",
          console_log "Process refund error:" w).
Proof.
  unfold refund. unfold_db. unfold_m.
  destruct (dbUp env); [|reflexivity].
  destruct (lookup_payment id w) as [payment|]; [|reflexivity].
  destruct (negb _); [reflexivity|].
  destruct (js_gt_decimal _ _); [reflexivity|].
  destruct (_ && _).
  - destruct (stripe_refunds_create _ _ _); [reflexivity|].
    destruct (refundAmount_column _ _); reflexivity.
  - destruct (refundAmount_column _ _); reflexivity.
Qed.

Lemma refundPayment_unfold env paymentId w :
  ConektaController.refundPayment env paymentId w
  = if dbUp env then
      match lookup_payment paymentId w with
      | None => (Resp 404 "Payment not found", w)
      | Some payment =>
          if negb (PStatus.eqb (Payment.status payment) PStatus.completed)
          then (Resp 400 "Payment cannot be refunded", w)
          else
            match conekta_Charge_refund env (Payment.transactionId payment) with
            | inl _ =>
                (Resp 500 "Error processing refund",
                 console_log "Error refunding payment:" w)
            | inr _ =>
                (Resp 200 "Payment refunded successfully",
                 with_payments
                   (update_payment_row (Payment.id payment)
                      (Payment.set_status PStatus.refunded) (payments (db w)))
                   w)
            end
      end
    else (Resp 500 "Error processing refund",
          console_log "Error refunding payment:" w).
Proof.
  unfold ConektaController.refundPayment. unfold_db. unfold_m.
  destruct (dbUp env); [|reflexivity].
  destruct (lookup_payment paymentId w) as [payment|]; [|reflexivity].
  destruct (negb _); [reflexivity|].
  destruct (conekta_Charge_refund _ _); reflexivity.
Qed.

Lemma refund_enrollments env user id refundAmount refundReason w :
  enrollments (db (snd (refund env user id refundAmount refundReason w)))
  = enrollments (db w).
Proof. rewrite refund_unfold. break_match; reflexivity. Qed.

Lemma refundPayment_enrollments env id w :
  enrollments (db (snd (ConektaController.refundPayment env id w)))
  = enrollments (db w).
Proof. rewrite refundPayment_unfold. break_match; reflexivity. Qed.

Lemma PStatus_eqb_eq a b : PStatus.eqb a b = true <-> a = b.
Proof. destruct a, b; simpl; split; congruence. Qed.

Lemma EStatus_eqb_eq a b : EStatus.eqb a b = true <-> a = b.
Proof. destruct a, b; simpl; split; congruence. Qed.

Lemma PStatus_eqb_neq a b : PStatus.eqb a b = false <-> a <> b.
Proof. destruct a, b; simpl; split; congruence. Qed.

Lemma find_update_payment_row pk f ps :
  (forall p, Payment.id (f p) = Payment.id p) ->
  find (fun p => String.eqb (Payment.id p) pk) (update_payment_row pk f ps)
  = option_map f (find (fun p => String.eqb (Payment.id p) pk) ps).
Proof.
  intros Hf. unfold update_payment_row.
  induction ps as [|x ps IH]; simpl; [reflexivity|].
  destruct (String.eqb (Payment.id x) pk) eqn:E.
  - rewrite Hf, E. reflexivity.
  - rewrite E. exact IH.
Qed.

(** A performed refund on the payments route, read off the answer. *)
Lemma refund_performed env user id refundAmount refundReason w payment :
  dbUp env = true ->
  lookup_payment id w = Some payment ->
  code (fst (refund env user id refundAmount refundReason w)) = 200 ->
  Payment.status payment = PStatus.completed
  /\ js_gt_decimal refundAmount (Payment.amount payment) = false
  /\ exists stored,
       refundAmount_column env refundAmount = inr stored
       /\ snd (refund env user id refundAmount refundReason w)
          = with_payments
              (update_payment_row id
                 (Payment.set_refund stored refundReason user (now env))
                 (payments (db w)))
              w.
Proof.
  intros Hup Hfind.
  pose proof (lookup_payment_id _ _ _ Hfind) as Hid.
  rewrite refund_unfold, Hup, Hfind, Hid.
  destruct (PStatus.eqb (Payment.status payment) PStatus.completed) eqn:Hst;
    cbn [negb]; [|discriminate].
  apply PStatus_eqb_eq in Hst.
  destruct (js_gt_decimal _ _); [discriminate|].
  destruct (_ && _).
  - destruct (stripe_refunds_create _ _ _); [discriminate|].
    destruct (refundAmount_column _ _) as [|stored]; [discriminate|].
    intros _. eauto.
  - destruct (refundAmount_column _ _) as [|stored]; [discriminate|].
    intros _. eauto.
Qed.

Lemma lookup_after_update_payment id f payment w w0 :
  (forall p, Payment.id (f p) = Payment.id p) ->
  lookup_payment id w = Some payment ->
  lookup_payment id
    (with_payments (update_payment_row id f (payments (db w))) w0)
  = Some (f payment).
Proof.
  intros Hf Hfind. unfold lookup_payment. cbn [db payments with_payments].
  rewrite find_update_payment_row by exact Hf.
  fold (lookup_payment id w). now rewrite Hfind.
Qed.

(** C3, as the code has it.  A refund on the payments route, for a payment
    found by its key: it is rejected (400, nothing written) when the payment
    is not completed, and when the amount asked, sent as a JSON number,
    exceeds the payment's amount; when it is performed (200) the payment was
    completed, an amount sent as a number is within the payment's, the
    payment row becomes [refunded] with [refundAmount] set to the amount
    asked, and -- performed or not -- no enrollment row is written:
    [paidAmount] stays what it was, so a refund cannot drive it negative.
    The Conekta route rejects a payment that is not completed and writes no
    enrollment row either. *)
Theorem refund_effect env user id refundAmount refundReason w payment :
  dbUp env = true ->
  lookup_payment id w = Some payment ->
  let r := fst (refund env user id refundAmount refundReason w) in
  let w' := snd (refund env user id refundAmount refundReason w) in
  enrollments (db w') = enrollments (db w)
  /\ (Payment.status payment <> PStatus.completed ->
      r = Resp 400 "Payment not completed" /\ w' = w)
  /\ (forall n,
      Payment.status payment = PStatus.completed ->
      refundAmount = js_number n ->
      Payment.amount payment < n ->
      r = Resp 400 "Invalid refund amount" /\ w' = w)
  /\ (code r = 200 ->
      Payment.status payment = PStatus.completed
      /\ exists stored p',
           refundAmount_column env refundAmount = inr stored
           /\ p' = Payment.set_refund stored refundReason user (now env)
                     payment
           /\ lookup_payment id w' = Some p'
           /\ payments (db w')
              = update_payment_row id
                  (Payment.set_refund stored refundReason user (now env))
                  (payments (db w))
           /\ Payment.status p' = PStatus.refunded
           /\ Payment.amount p' = Payment.amount payment
           /\ forall n,
                refundAmount = js_number n ->
                n <= Payment.amount payment /\ Payment.refundAmount p' = n)
  /\ enrollments (db (snd (ConektaController.refundPayment env id w)))
     = enrollments (db w)
  /\ (Payment.status payment <> PStatus.completed ->
      ConektaController.refundPayment env id w
      = (Resp 400 "Payment cannot be refunded", w)).
Proof.
  intros Hup Hfind r w'. subst r w'.
  split; [apply refund_enrollments|].
  split.
  { intros Hst. rewrite refund_unfold, Hup, Hfind.
    apply PStatus_eqb_neq in Hst. rewrite Hst. split; reflexivity. }
  split.
  { intros n Hst -> Hlt. rewrite refund_unfold, Hup, Hfind.
    apply PStatus_eqb_eq in Hst. rewrite Hst. cbn [negb js_gt_decimal].
    apply Z.ltb_lt in Hlt. rewrite Hlt. split; reflexivity. }
  split.
  { intros Hcode.
    destruct (refund_performed _ _ _ _ _ _ _ Hup Hfind Hcode)
      as (Hst & Hgt & stored & Hcol & Hw).
    split; [exact Hst|].
    exists stored,
      (Payment.set_refund stored refundReason user (now env) payment).
    rewrite Hw.
    split; [exact Hcol|]. split; [reflexivity|].
    split; [apply lookup_after_update_payment;
            [intros; reflexivity | exact Hfind]|].
    split; [reflexivity|]. split; [reflexivity|]. split; [reflexivity|].
    intros n ->. cbn [js_gt_decimal] in Hgt. apply Z.ltb_ge in Hgt.
    cbn [refundAmount_column] in Hcol. injection Hcol as <-.
    split; [exact Hgt | reflexivity]. }
  split; [apply refundPayment_enrollments|].
  intros Hst. rewrite refundPayment_unfold, Hup, Hfind.
  apply PStatus_eqb_neq in Hst. now rewrite Hst.
Qed.

Lemma refund_effect_witness :
  enrollments (db refunded_world) = enrollments (db (paid_world 0))
  /\ exists p',
       lookup_payment "pay-1" refunded_world = Some p'
       /\ Payment.status p' = PStatus.refunded
       /\ Payment.refundAmount p' = 40000.
Proof.
  pose proof (refund_effect later_env "adm-1" "pay-1" (js_number 40000)
                (Some "customer request") (paid_world 0) sample_cash_payment
                eq_refl eq_refl) as H.
  split; [exact (proj1 H)|].
  destruct (proj1 (proj2 (proj2 (proj2 H))) eq_refl)
    as (_ & stored & p' & _ & _ & Hlook & _ & Hst & _ & Hn).
  exists p'. split; [exact Hlook|]. split; [exact Hst|].
  exact (proj2 (Hn 40000 eq_refl)).
Defined.

(** C3 fails on the code: a completed payment of 1000.00 is refunded for
    400.00, which is within its amount; the refund is performed, and the
    enrollment's [paidAmount] is 1000.00 afterwards as before, not 600.00. *)
Lemma refund_does_not_reduce_paidAmount :
  exists payment e e',
    lookup_payment "pay-1" (paid_world 0) = Some payment
    /\ Payment.status payment = PStatus.completed
    /\ 40000 <= Payment.amount payment
    /\ fst (refund later_env "adm-1" "pay-1" (js_number 40000)
              (Some "customer request") (paid_world 0))
       = Resp 200 "Refund processed successfully"
    /\ lookup_enrollment "enr-1" (paid_world 0) = Some e
    /\ lookup_enrollment "enr-1" refunded_world = Some e'
    /\ Enrollment.paidAmount e = Some 100000
    /\ num (Enrollment.paidAmount e') <> num (Enrollment.paidAmount e) - 40000.
Proof.
  exists sample_cash_payment.
  exists (Enrollment.set_payment (Some 100000) EPaymentStatus.partial 1000
            (sample_enrollment EStatus.active 0)).
  exists (Enrollment.set_payment (Some 100000) EPaymentStatus.partial 1000
            (sample_enrollment EStatus.active 0)).
  repeat split; try reflexivity.
  - simpl. lia.
  - simpl. lia.
Qed.

(** An amount sent as a string is compared with the text of the payment's
    amount: "100000" is not greater than "1500.00", so the refund of
    100000.00 on a payment of 1500.00 that is not a Stripe payment is
    performed and recorded. *)
Lemma refund_amount_compared_as_text :
  let w :=
    sample_world EStatus.active 0 [sample_conekta_payment PStatus.completed] in
  let r := refund numeric_env "adm-1" "pay-c" (js_string "100000") None w in
  fst r = Resp 200 "Refund processed successfully"
  /\ exists p',
       lookup_payment "pay-c" (snd r) = Some p'
       /\ Payment.amount p' = 150000
       /\ Payment.refundAmount p' = 10000000.
Proof.
  intros w r. split; [reflexivity|].
  eexists. split; [reflexivity|]. split; reflexivity.
Qed.

(** ** Conekta webhook *)

Lemma handleOrderPaid_unfold env event w :
  ConektaController.handleOrderPaid env event w
  = match ce_data_object_id event with
    | None => (tt, console_log "Error handling order paid:" w)
    | Some oid =>
        if dbUp env then
          match lookup_transactionId oid w with
          | None => (tt, w)
          | Some payment =>
              let w1 :=
                with_payments
                  (update_payment_row (Payment.id payment)
                     (Payment.set_status PStatus.completed) (payments (db w)))
                  w in
              match lookup_enrollment (Payment.enrollmentId payment) w with
              | Some _ =>
                  if mailUp env then (tt, w1)
                  else (tt, console_log "Error handling order paid:" w1)
              | None => (tt, w1)
              end
          end
        else (tt, console_log "Error handling order paid:" w)
    end.
Proof.
  unfold ConektaController.handleOrderPaid. unfold_db.
  destruct (ce_data_object_id event) as [oid|]; [|reflexivity].
  unfold_m. destruct (dbUp env); [|reflexivity].
  destruct (lookup_transactionId oid w) as [payment|]; [|reflexivity].
  unfold lookup_enrollment at 1. simpl.
  fold (lookup_enrollment (Payment.enrollmentId payment) w).
  destruct (lookup_enrollment _ w); [|reflexivity].
  destruct (mailUp env); reflexivity.
Qed.

Lemma handle_failure_unfold env txn line w :
  try_catch
    (payment <- Payment_findOne_transactionId env txn ;;
     match payment with
     | Some payment =>
         Payment_save env payment (Payment.set_status PStatus.failed)
     | None => ret tt
     end)
    (fun error w => (tt, console_log line w)) w
  = match txn with
    | None => (tt, console_log line w)
    | Some oid =>
        if dbUp env then
          match lookup_transactionId oid w with
          | None => (tt, w)
          | Some payment =>
              (tt,
               with_payments
                 (update_payment_row (Payment.id payment)
                    (Payment.set_status PStatus.failed) (payments (db w)))
                 w)
          end
        else (tt, console_log line w)
    end.
Proof.
  unfold_db. destruct txn as [oid|]; [|reflexivity].
  unfold_m. destruct (dbUp env); [|reflexivity].
  destruct (lookup_transactionId oid w); reflexivity.
Qed.

Lemma conektaWebhook_unfold env req w :
  ConektaController.webhook env req w
  = if negb (truthy (cw_signature req))
    then (Resp 400 "No signature provided", w)
    else (Resp 200 "received", conekta_switch env (cw_body req) w).
Proof.
  unfold ConektaController.webhook, conekta_switch. unfold_m.
  destruct (negb _); [reflexivity|].
  destruct (String.eqb (ce_type (cw_body req)) "order.paid").
  { destruct (ConektaController.handleOrderPaid env (cw_body req) w). reflexivity. }
  destruct (String.eqb (ce_type (cw_body req)) "order.expired").
  { destruct (ConektaController.handleOrderExpired env (cw_body req) w). reflexivity. }
  destruct (String.eqb (ce_type (cw_body req)) "charge.failed").
  { destruct (ConektaController.handleChargeFailed env (cw_body req) w). reflexivity. }
  reflexivity.
Qed.

(** The webhook never looks at what the signature header holds. *)
Lemma conektaWebhook_any_signature env event s1 s2 w :
  truthy (Some s1) = true -> truthy (Some s2) = true ->
  ConektaController.webhook env (mkConektaWebhookRequest event (Some s1)) w
  = ConektaController.webhook env (mkConektaWebhookRequest event (Some s2)) w.
Proof.
  intros H1 H2. rewrite !conektaWebhook_unfold.
  cbn [cw_signature cw_body]. now rewrite H1, H2.
Qed.

Lemma conektaWebhook_no_signature env req w :
  truthy (cw_signature req) = false ->
  ConektaController.webhook env req w = (Resp 400 "No signature provided", w).
Proof. intros H. rewrite conektaWebhook_unfold. now rewrite H. Qed.

Lemma conekta_switch_enrollments env event w :
  enrollments (db (conekta_switch env event w)) = enrollments (db w).
Proof.
  unfold conekta_switch.
  rewrite handleOrderPaid_unfold.
  unfold ConektaController.handleOrderExpired, ConektaController.handleChargeFailed.
  rewrite !handle_failure_unfold.
  break_match; reflexivity.
Qed.

Lemma stripeWebhook_succeeded_existing env req event payment w :
  stripe_constructEvent env (sw_body req) (sw_signature req) = inr event ->
  se_type event = "payment_intent.succeeded" ->
  dbUp env = true ->
  lookup_externalPaymentId (pi_id (se_data_object event)) w = Some payment ->
  stripeWebhook env req w = (Resp 200 "received", w).
Proof.
  intros Hev Hty Hup Hfind. unfold stripeWebhook. rewrite Hev, Hty.
  change (String.eqb "payment_intent.succeeded" "payment_intent.succeeded")
    with true.
  cbv iota. unfold_db. unfold_m. rewrite Hup, Hfind. reflexivity.
Qed.

Lemma stripeWebhook_succeeded_down env req event w :
  stripe_constructEvent env (sw_body req) (sw_signature req) = inr event ->
  se_type event = "payment_intent.succeeded" ->
  dbUp env = false ->
  stripeWebhook env req w
  = (Resp 500 "Webhook processing failed",
     console_log "Webhook processing error:" w).
Proof.
  intros Hev Hty Hdown. unfold stripeWebhook. rewrite Hev, Hty.
  change (String.eqb "payment_intent.succeeded" "payment_intent.succeeded")
    with true.
  cbv iota. unfold_db. unfold_m. rewrite Hdown. reflexivity.
Qed.

(** C4, as the code has it.  With the data base reachable and for a payment
    row that is not in a terminal state: a signed Conekta [order.paid],
    [order.expired] or [charge.failed] event whose order has that row is
    acknowledged and sets the row's status to [completed], [failed],
    [failed]; a verified Stripe [payment_intent.payment_failed] event that
    finds the row is acknowledged and sets the rows of its external id to
    [failed].  The three failure kinds leave every enrollment row as it
    was. *)
Theorem webhook_status_update env w payment :
  dbUp env = true ->
  terminal (Payment.status payment) = false ->
  (forall req oid,
      truthy (cw_signature req) = true ->
      ce_type (cw_body req) = "order.paid" ->
      ce_data_object_id (cw_body req) = Some oid ->
      lookup_transactionId oid w = Some payment ->
      fst (ConektaController.webhook env req w) = Resp 200 "received"
      /\ payments (db (snd (ConektaController.webhook env req w)))
         = update_payment_row (Payment.id payment)
             (Payment.set_status PStatus.completed) (payments (db w)))
  /\ (forall req oid,
      truthy (cw_signature req) = true ->
      ce_type (cw_body req) = "order.expired" ->
      ce_data_object_id (cw_body req) = Some oid ->
      lookup_transactionId oid w = Some payment ->
      fst (ConektaController.webhook env req w) = Resp 200 "received"
      /\ payments (db (snd (ConektaController.webhook env req w)))
         = update_payment_row (Payment.id payment)
             (Payment.set_status PStatus.failed) (payments (db w))
      /\ enrollments (db (snd (ConektaController.webhook env req w)))
         = enrollments (db w))
  /\ (forall req oid,
      truthy (cw_signature req) = true ->
      ce_type (cw_body req) = "charge.failed" ->
      ce_data_object_order_id (cw_body req) = Some oid ->
      lookup_transactionId oid w = Some payment ->
      fst (ConektaController.webhook env req w) = Resp 200 "received"
      /\ payments (db (snd (ConektaController.webhook env req w)))
         = update_payment_row (Payment.id payment)
             (Payment.set_status PStatus.failed) (payments (db w))
      /\ enrollments (db (snd (ConektaController.webhook env req w)))
         = enrollments (db w))
  /\ (forall req event,
      stripe_constructEvent env (sw_body req) (sw_signature req) = inr event ->
      se_type event = "payment_intent.payment_failed" ->
      lookup_externalPaymentId (pi_id (se_data_object event)) w
      = Some payment ->
      fst (stripeWebhook env req w) = Resp 200 "received"
      /\ payments (db (snd (stripeWebhook env req w)))
         = map (fun p =>
                  if opt_eqb (Payment.externalPaymentId p)
                       (pi_id (se_data_object event))
                  then Payment.set_status PStatus.failed p else p)
               (payments (db w))
      /\ enrollments (db (snd (stripeWebhook env req w)))
         = enrollments (db w)).
Proof.
  intros Hup _. split; [|split; [|split]].
  - intros req oid Hsig Hty Hid Hfind.
    rewrite conektaWebhook_unfold, Hsig. cbn [negb fst snd].
    split; [reflexivity|].
    unfold conekta_switch. rewrite Hty.
    change (String.eqb "order.paid" "order.paid") with true. cbv iota.
    rewrite handleOrderPaid_unfold, Hid, Hup, Hfind.
    destruct (lookup_enrollment _ w); [destruct (mailUp env)|]; reflexivity.
  - intros req oid Hsig Hty Hid Hfind.
    rewrite conektaWebhook_unfold, Hsig. cbn [negb fst snd].
    split; [reflexivity|].
    unfold conekta_switch. rewrite Hty.
    change (String.eqb "order.expired" "order.paid") with false.
    change (String.eqb "order.expired" "order.expired") with true. cbv iota.
    unfold ConektaController.handleOrderExpired.
    rewrite handle_failure_unfold, Hid, Hup, Hfind. split; reflexivity.
  - intros req oid Hsig Hty Hid Hfind.
    rewrite conektaWebhook_unfold, Hsig. cbn [negb fst snd].
    split; [reflexivity|].
    unfold conekta_switch. rewrite Hty.
    change (String.eqb "charge.failed" "order.paid") with false.
    change (String.eqb "charge.failed" "order.expired") with false.
    change (String.eqb "charge.failed" "charge.failed") with true. cbv iota.
    unfold ConektaController.handleChargeFailed.
    rewrite handle_failure_unfold, Hid, Hup, Hfind. split; reflexivity.
  - intros req event Hev Hty _.
    rewrite (stripeWebhook_failed_up _ _ _ _ Hev Hty Hup).
    repeat split; reflexivity.
Qed.

Lemma webhook_status_update_witness :
  fst (ConektaController.webhook sample_env (signed order_paid_event)
         conekta_pending_world) = Resp 200 "received"
  /\ payments (db conekta_paid_world)
     = update_payment_row "pay-c" (Payment.set_status PStatus.completed)
         (payments (db conekta_pending_world)).
Proof.
  exact (proj1 (webhook_status_update sample_env conekta_pending_world
                  (sample_conekta_payment PStatus.pending) eq_refl eq_refl)
           (signed order_paid_event) "ord_1" eq_refl eq_refl eq_refl eq_refl).
Defined.

(** C4 fails on the code.  A signed [order.paid] event finds the pending
    payment of 1500.00 of its order and completes it, and the enrollment is
    not recomputed: [paidAmount] is still 0 and [lastPaymentDate] unset while
    the completed payments total 1500.00.  And a verified
    [payment_intent.succeeded] event that finds a pending row for its
    external id acknowledges and leaves the row pending. *)
Lemma webhook_does_not_reconcile :
  (exists e,
      lookup_transactionId "ord_1" conekta_pending_world
      = Some (sample_conekta_payment PStatus.pending)
      /\ terminal PStatus.pending = false
      /\ lookup_payment "pay-c" conekta_paid_world
         = Some (sample_conekta_payment PStatus.completed)
      /\ lookup_enrollment "enr-1" conekta_paid_world = Some e
      /\ Enrollment.paidAmount e = Some 0
      /\ Enrollment.lastPaymentDate e = None
      /\ completed_total "enr-1" (payments (db conekta_paid_world)) = 150000)
  /\ (let env :=
        env_with_event
          (mkStripeEvent "payment_intent.succeeded" sample_intent) sample_env in
      let w :=
        sample_world EStatus.active 0 [sample_stripe_payment PStatus.pending] in
      lookup_externalPaymentId "pi_1" w
      = Some (sample_stripe_payment PStatus.pending)
      /\ stripeWebhook env stripe_request w = (Resp 200 "received", w)).
Proof.
  split.
  - exists (sample_enrollment EStatus.active 0). repeat split; reflexivity.
  - split; reflexivity.
Qed.

(** C8, as the code has it.  A Conekta webhook request that carries a
    signature is always acknowledged with success; when the data base is
    unreachable while one of the three handled kinds is processed, nothing
    is written and a line goes to the console.  The Stripe webhook answers
    500 when processing a verified event throws. *)
Theorem conekta_webhook_acknowledges env req w :
  truthy (cw_signature req) = true ->
  fst (ConektaController.webhook env req w) = Resp 200 "received"
  /\ (dbUp env = false ->
      In (ce_type (cw_body req))
         ["order.paid"; "order.expired"; "charge.failed"] ->
      db (snd (ConektaController.webhook env req w)) = db w
      /\ exists line,
           console (snd (ConektaController.webhook env req w))
           = console w ++ [line])
  /\ (forall sreq event,
      stripe_constructEvent env (sw_body sreq) (sw_signature sreq)
      = inr event ->
      dbUp env = false ->
      In (se_type event)
         ["payment_intent.succeeded"; "payment_intent.payment_failed"] ->
      stripeWebhook env sreq w
      = (Resp 500 "Webhook processing failed",
         console_log "Webhook processing error:" w)).
Proof.
  intros Hsig. rewrite conektaWebhook_unfold, Hsig. cbn [negb fst snd].
  split; [reflexivity|]. split.
  - intros Hdown Hty. unfold conekta_switch.
    rewrite handleOrderPaid_unfold.
    unfold ConektaController.handleOrderExpired, ConektaController.handleChargeFailed.
    rewrite !handle_failure_unfold, Hdown.
    destruct Hty as [<-|[<-|[<-|[]]]].
    + change (String.eqb "order.paid" "order.paid") with true. cbv iota.
      destruct (ce_data_object_id _); simpl; eauto.
    + change (String.eqb "order.expired" "order.paid") with false.
      change (String.eqb "order.expired" "order.expired") with true. cbv iota.
      destruct (ce_data_object_id _); simpl; eauto.
    + change (String.eqb "charge.failed" "order.paid") with false.
      change (String.eqb "charge.failed" "order.expired") with false.
      change (String.eqb "charge.failed" "charge.failed") with true. cbv iota.
      destruct (ce_data_object_order_id _); simpl; eauto.
  - intros sreq event Hev Hdown [Hty|[Hty|[]]]; symmetry in Hty.
    + now apply (stripeWebhook_succeeded_down env sreq event).
    + now apply (stripeWebhook_failed_down env sreq event).
Qed.

Lemma conekta_webhook_acknowledges_witness :
  fst (ConektaController.webhook (env_db_down sample_env) (signed order_paid_event)
         conekta_pending_world) = Resp 200 "received".
Proof.
  exact (proj1 (conekta_webhook_acknowledges (env_db_down sample_env)
                  (signed order_paid_event) conekta_pending_world eq_refl)).
Defined.

(** C8 fails on the Stripe webhook: the signature of the request verifies,
    and the answer is 500 -- when the data base is unreachable, and also,
    with the data base reachable, when the row of a payment intent of amount
    0 is refused by the validation of the model. *)
Lemma stripe_webhook_propagates_errors :
  (let event := mkStripeEvent "payment_intent.succeeded" sample_intent in
   let env := env_db_down (env_with_event event sample_env) in
   stripe_constructEvent env (sw_body stripe_request)
     (sw_signature stripe_request) = inr event
   /\ fst (stripeWebhook env stripe_request (sample_world EStatus.active 0 []))
      = Resp 500 "Webhook processing failed")
  /\ (let event :=
        mkStripeEvent "payment_intent.succeeded"
          (mkPaymentIntent "pi_2" 0 "mxn" (Some "enr-1") None) in
      let env := env_with_event event sample_env in
      stripe_constructEvent env (sw_body stripe_request)
        (sw_signature stripe_request) = inr event
      /\ fst (stripeWebhook env stripe_request
                (sample_world EStatus.active 0 []))
         = Resp 500 "Webhook processing failed").
Proof. repeat split; reflexivity. Qed.

(** C7 on the Conekta webhook: a public request whose signature header is
    the arbitrary text "forged" is not rejected; the event is processed, the
    pending payment of the order becomes completed, and the answer is 200. *)
Theorem conekta_webhook_accepts_forged_signature :
  let req := mkConektaWebhookRequest order_paid_event (Some "forged") in
  let r := ConektaController.webhook sample_env req conekta_pending_world in
  fst r = Resp 200 "received"
  /\ lookup_payment "pay-c" conekta_pending_world
     = Some (sample_conekta_payment PStatus.pending)
  /\ lookup_payment "pay-c" (snd r)
     = Some (sample_conekta_payment PStatus.completed)
  /\ db (snd r) <> db conekta_pending_world.
Proof.
  repeat split; try reflexivity. vm_compute. discriminate.
Qed.

(** ** The ledger invariant *)

Lemma stripeWebhook_other_enrollments env req event w :
  stripe_constructEvent env (sw_body req) (sw_signature req) = inr event ->
  se_type event <> "payment_intent.succeeded" ->
  enrollments (db (snd (stripeWebhook env req w))) = enrollments (db w).
Proof.
  intros Hev Hty. unfold stripeWebhook. rewrite Hev.
  destruct (String.eqb (se_type event) "payment_intent.succeeded") eqn:E.
  - apply String.eqb_eq in E. contradiction.
  - destruct (String.eqb (se_type event) "payment_intent.payment_failed").
    + unfold_db. unfold_m. destruct (dbUp env); reflexivity.
    + unfold_m. reflexivity.
Qed.

Lemma conektaWebhook_enrollments env req w :
  enrollments (db (snd (ConektaController.webhook env req w)))
  = enrollments (db w).
Proof.
  rewrite conektaWebhook_unfold.
  destruct (negb _); [reflexivity|]. apply conekta_switch_enrollments.
Qed.

(** C1, as the code has it: right after a payment row is created -- by the
    create-payment route answering 201, or by the Stripe webhook creating the
    row of a succeeded payment intent it had no row for -- the enrollment of
    that payment has [paidAmount] equal to the sum of the amounts of its
    completed payments, stored as [NULL] (which arithmetic reads as 0)
    exactly when it has no completed payment, and, when it carries no
    discount, the [paymentStatus] of section 4.1.  The equality is
    established there only: the two refund routes, the Conekta webhook, and
    the Stripe webhook for an event that is not [payment_intent.succeeded]
    or whose payment row exists already, write no enrollment row. *)
Theorem ledger_consistent_after_creation :
  (forall env user pd w r w' e',
      createPayment env user pd w = (r, w') -> code r = 201 ->
      lookup_enrollment (pd_enrollmentId pd) w' = Some e' ->
      num (Enrollment.paidAmount e')
      = completed_total (Enrollment.id e') (payments (db w'))
      /\ (Enrollment.paidAmount e' = None
          <-> forall p, In p (payments (db w')) ->
                is_completed_of (Enrollment.id e') p = false)
      /\ (Enrollment.discountAmount e' = 0 ->
          Enrollment.paymentStatus e'
          = spec_paymentStatus (Enrollment.totalAmount e')
              (Enrollment.discountAmount e')
              (num (Enrollment.paidAmount e'))))
  /\ (forall env req event enrollmentId w r w' e',
      stripe_constructEvent env (sw_body req) (sw_signature req) = inr event ->
      se_type event = "payment_intent.succeeded" ->
      lookup_externalPaymentId (pi_id (se_data_object event)) w = None ->
      pi_metadata_enrollmentId (se_data_object event) = Some enrollmentId ->
      stripeWebhook env req w = (r, w') -> code r = 200 ->
      lookup_enrollment enrollmentId w' = Some e' ->
      num (Enrollment.paidAmount e')
      = completed_total (Enrollment.id e') (payments (db w'))
      /\ (Enrollment.paidAmount e' = None
          <-> forall p, In p (payments (db w')) ->
                is_completed_of (Enrollment.id e') p = false)
      /\ (Enrollment.discountAmount e' = 0 ->
          Enrollment.paymentStatus e'
          = spec_paymentStatus (Enrollment.totalAmount e')
              (Enrollment.discountAmount e')
              (num (Enrollment.paidAmount e'))))
  /\ (forall env user id refundAmount refundReason w,
      enrollments (db (snd (refund env user id refundAmount refundReason w)))
      = enrollments (db w))
  /\ (forall env id w,
      enrollments (db (snd (ConektaController.refundPayment env id w)))
      = enrollments (db w))
  /\ (forall env req w,
      enrollments (db (snd (ConektaController.webhook env req w)))
      = enrollments (db w))
  /\ (forall env req event w,
      stripe_constructEvent env (sw_body req) (sw_signature req) = inr event ->
      se_type event <> "payment_intent.succeeded" ->
      enrollments (db (snd (stripeWebhook env req w))) = enrollments (db w))
  /\ (forall env req event payment w,
      stripe_constructEvent env (sw_body req) (sw_signature req) = inr event ->
      se_type event = "payment_intent.succeeded" ->
      lookup_externalPaymentId (pi_id (se_data_object event)) w
      = Some payment ->
      enrollments (db (snd (stripeWebhook env req w))) = enrollments (db w)).
Proof.
  split; [|split; [|split; [|split; [|split; [|split]]]]].
  - intros env user pd w r w' e' Hrun Hcode He'.
    destruct (createPayment_created _ _ _ _ _ _ Hrun Hcode)
      as (enrollment & row & _ & Hfind & _ & _ & _ & ->).
    eapply recomputed_row; eassumption.
  - intros env req event enrollmentId w r w' e' Hev Hty Hnone Hmeta Hrun Hcode
      He'.
    destruct (lookup_enrollment enrollmentId w) as [enrollment|] eqn:Hfind.
    + destruct (stripeWebhook_succeeded_created _ _ _ _ _ _ _ _
                  Hev Hty Hnone Hmeta Hfind Hrun Hcode)
        as (row & _ & _ & _ & _ & _ & ->).
      eapply recomputed_row; eassumption.
    + exfalso. revert Hrun. unfold stripeWebhook. rewrite Hev, Hty.
      change (String.eqb "payment_intent.succeeded" "payment_intent.succeeded")
        with true.
      cbv iota. rewrite Hmeta.
      unfold try_catch, bind at 1 2.
      unfold Payment_findOne_externalPaymentId, Enrollment_findByPk.
      unfold bind at 1. unfold connected.
      destruct (dbUp env) eqn:Hup; unfold_m.
      * rewrite Hnone, Hfind. intros [= _ <-].
        unfold lookup_enrollment in Hfind, He'. simpl in He'. congruence.
      * intros [= <- _]. discriminate.
  - intros. apply refund_enrollments.
  - intros. apply refundPayment_enrollments.
  - intros. apply conektaWebhook_enrollments.
  - intros env req event w Hev Hty.
    now apply (stripeWebhook_other_enrollments env req event).
  - intros env req event payment w Hev Hty Hfind.
    destruct (dbUp env) eqn:Hup.
    + now rewrite (stripeWebhook_succeeded_existing _ _ _ _ _ Hev Hty Hup Hfind).
    + now rewrite (stripeWebhook_succeeded_down _ _ _ _ Hev Hty Hup).
Qed.

Lemma ledger_consistent_after_creation_witness :
  let e' :=
    Enrollment.set_payment (Some 100000) EPaymentStatus.partial 1000
      (sample_enrollment EStatus.active 0) in
  num (Enrollment.paidAmount e')
  = completed_total (Enrollment.id e') (payments (db (paid_world 0)))
  /\ (Enrollment.paidAmount e' = None
      <-> forall p, In p (payments (db (paid_world 0))) ->
            is_completed_of (Enrollment.id e') p = false)
  /\ (Enrollment.discountAmount e' = 0 ->
      Enrollment.paymentStatus e'
      = spec_paymentStatus (Enrollment.totalAmount e')
          (Enrollment.discountAmount e') (num (Enrollment.paidAmount e'))).
Proof.
  intros e'.
  exact (proj1 ledger_consistent_after_creation sample_env "adm-1"
           sample_paymentData (sample_world EStatus.active 0 [])
           (Resp 201 "Payment created successfully") (paid_world 0) e'
           eq_refl eq_refl eq_refl).
Defined.

(** C1 does not hold at every reachable state.  From a consistent ledger,
    entering a completed payment of 1000.00 and refunding 400.00 of it leaves
    [paidAmount] at 1000.00 while no completed payment remains; and with a
    discount of 500.00 on a total of 1500.00, the payment of 1000.00 leaves
    [paymentStatus] at [partial] where section 4.1 gives [completed]. *)
Lemma ledger_invariant_not_maintained :
  (ledger_consistent (sample_world EStatus.active 0 [])
   /\ reachable (sample_world EStatus.active 0 []) refunded_world
   /\ ~ ledger_consistent refunded_world)
  /\ (ledger_consistent (sample_world EStatus.active 50000 [])
      /\ reachable (sample_world EStatus.active 50000 []) (paid_world 50000)
      /\ ~ ledger_consistent (paid_world 50000)).
Proof.
  split; (split; [|split]).
  - intros e [<-|[]]. split; reflexivity.
  - unfold refunded_world, paid_world. do 2 apply reach_step. apply reach_start.
  - intros H.
    assert (Hin : In (Enrollment.set_payment (Some 100000)
                        EPaymentStatus.partial 1000
                        (sample_enrollment EStatus.active 0))
                     (enrollments (db refunded_world)))
      by (left; reflexivity).
    destruct (H _ Hin) as [Hpaid _]. vm_compute in Hpaid. discriminate.
  - intros e [<-|[]]. split; reflexivity.
  - unfold paid_world. apply reach_step. apply reach_start.
  - intros H.
    assert (Hin : In (Enrollment.set_payment (Some 100000)
                        EPaymentStatus.partial 1000
                        (sample_enrollment EStatus.active 50000))
                     (enrollments (db (paid_world 50000))))
      by (left; reflexivity).
    destruct (H _ Hin) as [_ Hst]. vm_compute in Hst. discriminate.
Qed.

(** ** Redelivery of a Stripe event *)

Lemma find_app_last {A} (p : A -> bool) (l : list A) (x : A) :
  p x = true -> exists y, find p (l ++ [x]) = Some y.
Proof.
  intros Hx. induction l as [|a l IH]; simpl.
  - rewrite Hx. eauto.
  - destruct (p a); eauto.
Qed.

Lemma stripeWebhook_enrollments_changed env req event w :
  stripe_constructEvent env (sw_body req) (sw_signature req) = inr event ->
  enrollments (db (snd (stripeWebhook env req w))) <> enrollments (db w) ->
  se_type event = "payment_intent.succeeded"
  /\ exists row,
       Payment.externalPaymentId row = Some (pi_id (se_data_object event))
       /\ payments (db (snd (stripeWebhook env req w)))
          = payments (db w) ++ [row].
Proof.
  intros Hev. unfold stripeWebhook. rewrite Hev.
  destruct (String.eqb (se_type event) "payment_intent.succeeded") eqn:Hty.
  - apply String.eqb_eq in Hty. intros Hne. split; [exact Hty|].
    revert Hne.
    unfold try_catch, bind at 1 2.
    unfold Payment_findOne_externalPaymentId.
    unfold bind at 1. unfold connected.
    destruct (dbUp env) eqn:Hup; unfold_m; [|simpl; congruence].
    destruct (lookup_externalPaymentId _ w); [simpl; congruence|].
    destruct (pi_metadata_enrollmentId _) as [enrollmentId|];
      [|unfold_m; simpl; congruence].
    unfold Enrollment_findByPk. unfold_m. rewrite Hup.
    destruct (lookup_enrollment enrollmentId w) as [enrollment|];
      [|simpl; congruence].
    match goal with |- context [Payment_create env ?v w] =>
      destruct (Payment_create env v w) as [[e|row] w1] eqn:Hc end.
    + apply Payment_create_err in Hc. subst w1. simpl. congruence.
    + apply Payment_create_ok in Hc. destruct Hc as (_ & Hb & ->).
      rewrite updateEnrollmentPaymentStatus_up by assumption.
      intros _. apply Payment_build_ok in Hb. simpl in Hb.
      destruct Hb as (_ & _ & _ & _ & Hx & _).
      exists row. split; [exact Hx|reflexivity].
  - destruct (String.eqb (se_type event) "payment_intent.payment_failed").
    + unfold_db. unfold_m. destruct (dbUp env); simpl; congruence.
    + unfold_m. simpl. congruence.
Qed.

(** The same Stripe event delivered again after a delivery that wrote an
    enrollment writes no enrollment: the row it created is found. *)
Lemma stripe_redelivery_keeps_enrollments env1 env2 req1 req2 event w :
  stripe_constructEvent env1 (sw_body req1) (sw_signature req1) = inr event ->
  stripe_constructEvent env2 (sw_body req2) (sw_signature req2) = inr event ->
  let w1 := snd (stripeWebhook env1 req1 w) in
  enrollments (db w1) <> enrollments (db w) ->
  enrollments (db (snd (stripeWebhook env2 req2 w1))) = enrollments (db w1).
Proof.
  intros Hev1 Hev2 w1 Hne.
  destruct (stripeWebhook_enrollments_changed _ _ _ _ Hev1 Hne)
    as (Hty & row & Hx & Hps).
  fold w1 in Hps.
  assert (Hfind : exists p,
    lookup_externalPaymentId (pi_id (se_data_object event)) w1 = Some p).
  { unfold lookup_externalPaymentId. rewrite Hps. apply find_app_last.
    rewrite Hx. simpl. apply String.eqb_refl. }
  destruct Hfind as [p Hfind].
  destruct (dbUp env2) eqn:Hup.
  - now rewrite (stripeWebhook_succeeded_existing _ _ _ _ _ Hev2 Hty Hup Hfind).
  - now rewrite (stripeWebhook_succeeded_down _ _ _ _ Hev2 Hty Hup).
Qed.

(** C2 on the Conekta webhook: the payment of an order is completed by
    [order.paid], then refunded; the same [order.paid] notification delivered
    again finds the row in the terminal state [refunded], writes [completed]
    over it and acknowledges. *)
Theorem conekta_redelivery_overwrites_refunded :
  lookup_payment "pay-c" conekta_paid_world
  = Some (sample_conekta_payment PStatus.completed)
  /\ lookup_payment "pay-c" conekta_refunded_world
     = Some (sample_conekta_payment PStatus.refunded)
  /\ terminal PStatus.refunded = true
  /\ fst (handle later_env (POST_conekta_webhook (signed order_paid_event))
            conekta_refunded_world) = Resp 200 "received"
  /\ lookup_payment "pay-c" conekta_redelivered_world
     = Some (sample_conekta_payment PStatus.completed)
  /\ db conekta_redelivered_world <> db conekta_refunded_world.
Proof.
  repeat split; try reflexivity. vm_compute. discriminate.
Qed.

(** ** Creating enrollments *)

Lemma Course_isFull_throws env course w :
  Course_isFull env course w
  = (inl (TypeError "Cannot read properties of undefined (reading 'count')"),
     w).
Proof. reflexivity. Qed.

Lemma createEnrollment_unfold env d w :
  createEnrollment env d w
  = if dbUp env then
      if negb (has_role User.student (lookup_user (ed_studentId d) w))
      then (Resp 404 "Student not found", w)
      else
        match lookup_course (ed_courseId d) w with
        | None => (Resp 404 "Course not found", w)
        | Some course =>
            if negb (has_role User.teacher (lookup_user (ed_teacherId d) w))
            then (Resp 404 "Teacher not found", w)
            else if negb (Course.isActive course)
            then (Resp 400 "Course not available", w)
            else (Resp 500 "Failed to create enrollment",
                  console_log "Create enrollment error:" w)
        end
    else (Resp 500 "Failed to create enrollment",
          console_log "Create enrollment error:" w).
Proof.
  unfold createEnrollment. unfold_db. unfold_m.
  destruct (dbUp env); [|reflexivity].
  destruct (negb (has_role User.student _)); [reflexivity|].
  destruct (lookup_course (ed_courseId d) w) as [course|]; [|reflexivity].
  destruct (negb (has_role User.teacher _)); [reflexivity|].
  destruct (negb (Course.isActive course)); reflexivity.
Qed.

(** The route never gets past the capacity check. *)
Lemma createEnrollment_creates_nothing env d w :
  code (fst (createEnrollment env d w)) <> 201
  /\ code (fst (createEnrollment env d w)) <> 409
  /\ db (snd (createEnrollment env d w)) = db w.
Proof.
  rewrite createEnrollment_unfold.
  break_match; cbn [fst snd code db console_log];
    (split; [discriminate|]); (split; [discriminate|]); reflexivity.
Qed.

(** C9 on the code.  An admin asks for an enrollment of a student in a
    course in which the student has an active enrollment; student, course and
    teacher exist and the course is open.  The request is answered 500, not
    409: [course.isFull()] throws before the duplicate lookup is reached, as
    it does whatever the tables hold.  So no request is ever answered 409 or
    201 and none writes a table; a first enrollment of a pair is refused with
    500 as well. *)
Theorem duplicate_enrollment_answered_500 :
  (In (sample_enrollment EStatus.active 0)
      (enrollments (db (sample_world EStatus.active 0 [])))
   /\ same_pair "stu-1" "crs-1" (sample_enrollment EStatus.active 0) = true
   /\ lookup_existing "stu-1" "crs-1" (sample_world EStatus.active 0 [])
      = Some (sample_enrollment EStatus.active 0)
   /\ createEnrollment later_env sample_enrollmentData
        (sample_world EStatus.active 0 [])
      = (Resp 500 "Failed to create enrollment",
         console_log "Create enrollment error:"
           (sample_world EStatus.active 0 [])))
  /\ (forall env course w,
      exists e, Course_isFull env course w = (inl e, w))
  /\ (forall env d w,
      code (fst (createEnrollment env d w)) <> 409
      /\ code (fst (createEnrollment env d w)) <> 201
      /\ db (snd (createEnrollment env d w)) = db w)
  /\ (let w := mkWorld (mkStore sample_users sample_courses [] []) [] in
      createEnrollment later_env sample_enrollmentData w
      = (Resp 500 "Failed to create enrollment",
         console_log "Create enrollment error:" w)).
Proof.
  split; [|split; [|split]].
  - repeat split; try reflexivity. left. reflexivity.
  - intros env course w. eexists. apply Course_isFull_throws.
  - intros env d w.
    destruct (createEnrollment_creates_nothing env d w) as (H1 & H2 & H3).
    auto.
  - reflexivity.
Qed.

(** ** The status of the enrollment *)

Lemma lookup_enrollment_restatus f pk w :
  lookup_enrollment pk (restatus f w)
  = option_map (fun e => Enrollment_set_status (f e) e)
      (lookup_enrollment pk w).
Proof.
  unfold lookup_enrollment, restatus. simpl.
  apply find_map_preserve. intros e. reflexivity.
Qed.

Lemma createPayment_unfold_rejected env user pd w :
  dbUp env = true ->
  (lookup_enrollment (pd_enrollmentId pd) w = None ->
   createPayment env user pd w = (Resp 404 "Enrollment not found", w))
  /\ (forall enrollment,
      lookup_enrollment (pd_enrollmentId pd) w = Some enrollment ->
      Enrollment.status enrollment <> EStatus.active ->
      createPayment env user pd w = (Resp 400 "Enrollment not active", w)).
Proof.
  intros Hup. unfold createPayment, try_catch, bind at 1.
  unfold Enrollment_findByPk. unfold bind at 1. unfold connected.
  rewrite Hup. unfold_m. split.
  - intros ->. reflexivity.
  - intros enrollment -> Hst.
    destruct (EStatus.eqb (Enrollment.status enrollment) EStatus.active) eqn:E.
    + apply EStatus_eqb_eq in E. contradiction.
    + reflexivity.
Qed.

Lemma createOrder_not_found env enrollmentId ty w :
  dbUp env = true ->
  lookup_enrollment enrollmentId w = None ->
  ConektaController.createOrder env enrollmentId ty w
  = (Resp 404 "Enrollment not found", w).
Proof.
  intros Hup Hfind. unfold ConektaController.createOrder. unfold_db. unfold_m.
  rewrite Hup, Hfind. reflexivity.
Qed.

Lemma refund_restatus f env user id refundAmount refundReason w :
  refund env user id refundAmount refundReason (restatus f w)
  = (fst (refund env user id refundAmount refundReason w),
     restatus f (snd (refund env user id refundAmount refundReason w))).
Proof.
  rewrite !refund_unfold.
  change (lookup_payment id (restatus f w)) with (lookup_payment id w).
  break_match; reflexivity.
Qed.

Lemma refundPayment_restatus f env paymentId w :
  ConektaController.refundPayment env paymentId (restatus f w)
  = (fst (ConektaController.refundPayment env paymentId w),
     restatus f (snd (ConektaController.refundPayment env paymentId w))).
Proof.
  rewrite !refundPayment_unfold.
  change (lookup_payment paymentId (restatus f w))
    with (lookup_payment paymentId w).
  break_match; reflexivity.
Qed.

Lemma conekta_switch_restatus f env event w :
  conekta_switch env event (restatus f w)
  = restatus f (conekta_switch env event w).
Proof.
  unfold conekta_switch.
  rewrite !handleOrderPaid_unfold.
  unfold ConektaController.handleOrderExpired, ConektaController.handleChargeFailed.
  rewrite !handle_failure_unfold.
  destruct (String.eqb (ce_type event) "order.paid").
  { destruct (ce_data_object_id event) as [oid|]; [|reflexivity].
    destruct (dbUp env); [|reflexivity].
    change (lookup_transactionId oid (restatus f w))
      with (lookup_transactionId oid w).
    destruct (lookup_transactionId oid w) as [payment|]; [|reflexivity].
    rewrite lookup_enrollment_restatus.
    destruct (lookup_enrollment _ w); simpl; [|reflexivity].
    destruct (mailUp env); reflexivity. }
  destruct (String.eqb (ce_type event) "order.expired").
  { destruct (ce_data_object_id event) as [oid|]; [|reflexivity].
    destruct (dbUp env); [|reflexivity].
    change (lookup_transactionId oid (restatus f w))
      with (lookup_transactionId oid w).
    destruct (lookup_transactionId oid w); reflexivity. }
  destruct (String.eqb (ce_type event) "charge.failed").
  { destruct (ce_data_object_order_id event) as [oid|]; [|reflexivity].
    destruct (dbUp env); [|reflexivity].
    change (lookup_transactionId oid (restatus f w))
      with (lookup_transactionId oid w).
    destruct (lookup_transactionId oid w); reflexivity. }
  reflexivity.
Qed.

Lemma conektaWebhook_restatus f env req w :
  ConektaController.webhook env req (restatus f w)
  = (fst (ConektaController.webhook env req w),
     restatus f (snd (ConektaController.webhook env req w))).
Proof.
  rewrite !conektaWebhook_unfold.
  destruct (negb _); [reflexivity|].
  cbn [fst snd]. now rewrite conekta_switch_restatus.
Qed.

Lemma stripe_failed_restatus f env req event w :
  stripe_constructEvent env (sw_body req) (sw_signature req) = inr event ->
  se_type event = "payment_intent.payment_failed" ->
  stripeWebhook env req (restatus f w)
  = (fst (stripeWebhook env req w), restatus f (snd (stripeWebhook env req w))).
Proof.
  intros Hev Hty. destruct (dbUp env) eqn:Hup.
  - rewrite !(stripeWebhook_failed_up _ _ _ _ Hev Hty Hup). reflexivity.
  - rewrite !(stripeWebhook_failed_down _ _ _ _ Hev Hty Hup). reflexivity.
Qed.

Lemma Payment_create_restatus f env v w :
  Payment_create env v (restatus f w)
  = (fst (Payment_create env v w), restatus f (snd (Payment_create env v w))).
Proof.
  unfold Payment_create. unfold_m.
  destruct (dbUp env); [|reflexivity].
  destruct (Payment_build env v) as [e|row]; [reflexivity|].
  cbn [restatus with_enrollments db payments].
  match goal with |- context [existsb ?g ?l] => destruct (existsb g l) end;
    [reflexivity|].
  destruct (taken Payment.transactionId _ _); [reflexivity|].
  destruct (taken Payment.receiptNumber _ _); reflexivity.
Qed.

Lemma createOrder_restatus f env enrollmentId ty w :
  ConektaController.createOrder env enrollmentId ty (restatus f w)
  = (fst (ConektaController.createOrder env enrollmentId ty w),
     restatus f (snd (ConektaController.createOrder env enrollmentId ty w))).
Proof.
  unfold ConektaController.createOrder. unfold try_catch, bind at 1 3.
  unfold Enrollment_findByPk. unfold bind at 1 2. unfold connected.
  destruct (dbUp env) eqn:Hup; unfold_m; [|reflexivity].
  rewrite lookup_enrollment_restatus.
  destruct (lookup_enrollment enrollmentId w) as [enrollment|];
    [|reflexivity].
  cbn [option_map Enrollment_set_status Enrollment.courseId].
  unfold Course_findByPk. unfold_m. rewrite Hup.
  change (lookup_course (Enrollment.courseId enrollment) (restatus f w))
    with (lookup_course (Enrollment.courseId enrollment) w).
  destruct (lookup_course _ w) as [course|]; [|reflexivity].
  destruct (conekta_Order_create env _ _) as [e|order]; [reflexivity|].
  rewrite Payment_create_restatus.
  destruct (Payment_create env _ w) as [[e|row] w1]; cbn [fst snd];
    [reflexivity|].
  destruct (is_paid order); [|reflexivity].
  unfold sendPaymentConfirmationEmail. destruct (mailUp env); reflexivity.
Qed.

Lemma set_payment_set_status paid ps d st e :
  Enrollment.set_payment paid ps d (Enrollment_set_status st e)
  = Enrollment_set_status st (Enrollment.set_payment paid ps d e).
Proof. reflexivity. Qed.

Lemma update_enrollment_row_restatus (g : UUID -> EStatus.t) pk paid ps d es :
  update_enrollment_row pk (Enrollment.set_payment paid ps d)
    (map (fun e => Enrollment_set_status (g (Enrollment.id e)) e) es)
  = map (fun e => Enrollment_set_status (g (Enrollment.id e)) e)
      (update_enrollment_row pk (Enrollment.set_payment paid ps d) es).
Proof.
  unfold update_enrollment_row. rewrite !map_map. apply map_ext. intros e.
  cbn [Enrollment_set_status Enrollment.id].
  destruct (String.eqb (Enrollment.id e) pk); reflexivity.
Qed.

Lemma updateEnrollmentPaymentStatus_restatus
    (g : UUID -> EStatus.t) env enrollment enrollmentId w :
  let f := fun e => g (Enrollment.id e) in
  updateEnrollmentPaymentStatus env (Enrollment_set_status (f enrollment)
                                       enrollment)
    enrollmentId (restatus f w)
  = (fst (updateEnrollmentPaymentStatus env enrollment enrollmentId w),
     restatus f
       (snd (updateEnrollmentPaymentStatus env enrollment enrollmentId w))).
Proof.
  intros f. destruct (dbUp env) eqn:Hup.
  - rewrite !updateEnrollmentPaymentStatus_up by assumption.
    cbn [fst snd]. unfold restatus, with_enrollments.
    cbn [db payments enrollments users courses console].
    unfold f. rewrite update_enrollment_row_restatus. reflexivity.
  - rewrite !updateEnrollmentPaymentStatus_down by assumption. reflexivity.
Qed.

(** The Stripe webhook does not look at the status of an enrollment: with
    the statuses changed at will, it gives the same answer and makes the
    same writes. *)
Lemma stripeWebhook_restatus (g : UUID -> EStatus.t) env req w :
  let f := fun e => g (Enrollment.id e) in
  stripeWebhook env req (restatus f w)
  = (fst (stripeWebhook env req w), restatus f (snd (stripeWebhook env req w))).
Proof.
  intros f. unfold stripeWebhook.
  destruct (stripe_constructEvent env _ _) as [err|event]; [reflexivity|].
  destruct (String.eqb (se_type event) "payment_intent.succeeded").
  - unfold try_catch, bind at 1 2 5 6.
    unfold Payment_findOne_externalPaymentId.
    unfold bind at 1 2. unfold connected.
    destruct (dbUp env) eqn:Hup; unfold_m; [|reflexivity].
    change (lookup_externalPaymentId (pi_id (se_data_object event))
              (restatus f w))
      with (lookup_externalPaymentId (pi_id (se_data_object event)) w).
    destruct (lookup_externalPaymentId _ w); [reflexivity|].
    destruct (pi_metadata_enrollmentId (se_data_object event))
      as [enrollmentId|]; [|reflexivity].
    unfold Enrollment_findByPk. unfold_m. rewrite Hup.
    rewrite lookup_enrollment_restatus.
    destruct (lookup_enrollment enrollmentId w) as [enrollment|];
      [|reflexivity].
    cbn [option_map].
    change (Enrollment.teacherId (Enrollment_set_status (f enrollment)
                                    enrollment))
      with (Enrollment.teacherId enrollment).
    rewrite Payment_create_restatus.
    destruct (Payment_create env _ w) as [[e|row] w1]; cbn [fst snd];
      [reflexivity|].
    pose proof (updateEnrollmentPaymentStatus_restatus g env enrollment
                  enrollmentId w1) as H.
    cbv zeta in H. fold f in H. rewrite H.
    destruct (updateEnrollmentPaymentStatus env enrollment enrollmentId w1)
      as [[e|[]] w2]; reflexivity.
  - destruct (String.eqb (se_type event) "payment_intent.payment_failed").
    + unfold_db. unfold_m. destruct (dbUp env); reflexivity.
    + unfold_m. reflexivity.
Qed.

Lemma stripeWebhook_no_enrollment env req event w :
  dbUp env = true ->
  stripe_constructEvent env (sw_body req) (sw_signature req) = inr event ->
  se_type event = "payment_intent.succeeded" ->
  lookup_externalPaymentId (pi_id (se_data_object event)) w = None ->
  match pi_metadata_enrollmentId (se_data_object event) with
  | Some enrollmentId => lookup_enrollment enrollmentId w = None
  | None => True
  end ->
  stripeWebhook env req w = (Resp 200 "received", w).
Proof.
  intros Hup Hev Hty Hnone Hmeta. unfold stripeWebhook. rewrite Hev, Hty.
  change (String.eqb "payment_intent.succeeded" "payment_intent.succeeded")
    with true.
  cbv iota. unfold_db. unfold_m. rewrite Hup, Hnone.
  destruct (pi_metadata_enrollmentId _) as [enrollmentId|].
  - unfold_m. rewrite ?Hup, Hmeta. reflexivity.
  - reflexivity.
Qed.

(** C6, as the code has it.  The create-payment route answers 404 when the
    enrollment of the body does not exist and 400 when it exists and is not
    active, writing nothing.  Conekta order creation answers 404 when the
    enrollment does not exist and does not look at its status.  The Stripe
    webhook checks neither when it creates the row of a succeeded payment
    intent: an event naming no enrollment or one that does not exist is
    acknowledged with nothing written, and the status of the enrollment
    changes neither the answer nor the writes.  Refunds on both routes, the
    Conekta webhook and the [payment_failed] branch of the Stripe webhook do
    not depend on the status of any enrollment either: with the statuses
    changed at will they give the same answer and make the same writes. *)
Theorem enrollment_checks_on_creation env user pd w :
  dbUp env = true ->
  (lookup_enrollment (pd_enrollmentId pd) w = None ->
   createPayment env user pd w = (Resp 404 "Enrollment not found", w))
  /\ (forall enrollment,
      lookup_enrollment (pd_enrollmentId pd) w = Some enrollment ->
      Enrollment.status enrollment <> EStatus.active ->
      createPayment env user pd w = (Resp 400 "Enrollment not active", w))
  /\ (forall enrollmentId ty,
      lookup_enrollment enrollmentId w = None ->
      ConektaController.createOrder env enrollmentId ty w
      = (Resp 404 "Enrollment not found", w))
  /\ (forall f enrollmentId ty,
      ConektaController.createOrder env enrollmentId ty (restatus f w)
      = (fst (ConektaController.createOrder env enrollmentId ty w),
         restatus f
           (snd (ConektaController.createOrder env enrollmentId ty w))))
  /\ (forall req event,
      stripe_constructEvent env (sw_body req) (sw_signature req) = inr event ->
      se_type event = "payment_intent.succeeded" ->
      lookup_externalPaymentId (pi_id (se_data_object event)) w = None ->
      match pi_metadata_enrollmentId (se_data_object event) with
      | Some enrollmentId => lookup_enrollment enrollmentId w = None
      | None => True
      end ->
      stripeWebhook env req w = (Resp 200 "received", w))
  /\ (forall (g : UUID -> EStatus.t) req,
      stripeWebhook env req (restatus (fun e => g (Enrollment.id e)) w)
      = (fst (stripeWebhook env req w),
         restatus (fun e => g (Enrollment.id e))
           (snd (stripeWebhook env req w))))
  /\ (forall f id refundAmount refundReason,
      refund env user id refundAmount refundReason (restatus f w)
      = (fst (refund env user id refundAmount refundReason w),
         restatus f (snd (refund env user id refundAmount refundReason w))))
  /\ (forall f paymentId,
      ConektaController.refundPayment env paymentId (restatus f w)
      = (fst (ConektaController.refundPayment env paymentId w),
         restatus f (snd (ConektaController.refundPayment env paymentId w))))
  /\ (forall f req,
      ConektaController.webhook env req (restatus f w)
      = (fst (ConektaController.webhook env req w),
         restatus f (snd (ConektaController.webhook env req w))))
  /\ (forall f req event,
      stripe_constructEvent env (sw_body req) (sw_signature req) = inr event ->
      se_type event = "payment_intent.payment_failed" ->
      stripeWebhook env req (restatus f w)
      = (fst (stripeWebhook env req w),
         restatus f (snd (stripeWebhook env req w)))).
Proof.
  intros Hup.
  destruct (createPayment_unfold_rejected env user pd w Hup) as [H1 H2].
  split; [exact H1|]. split; [exact H2|].
  split; [intros; now apply createOrder_not_found|].
  split; [intros; apply createOrder_restatus|].
  split; [intros req event; now apply stripeWebhook_no_enrollment|].
  split; [intros g req; apply (stripeWebhook_restatus g)|].
  split; [intros; apply refund_restatus|].
  split; [intros; apply refundPayment_restatus|].
  split; [intros; apply conektaWebhook_restatus|].
  intros; now apply (stripe_failed_restatus f env req event).
Qed.

Lemma enrollment_checks_on_creation_witness :
  createPayment sample_env "adm-1" sample_paymentData
    (sample_world EStatus.cancelled 0 [])
  = (Resp 400 "Enrollment not active", sample_world EStatus.cancelled 0 []).
Proof.
  refine (proj1 (proj2 (enrollment_checks_on_creation sample_env "adm-1"
                          sample_paymentData
                          (sample_world EStatus.cancelled 0 []) eq_refl))
            (sample_enrollment EStatus.cancelled 0) eq_refl _).
  discriminate.
Defined.

(** C6 fails on the code.  A verified [payment_intent.succeeded] event naming
    a cancelled enrollment creates a completed payment for it and is
    acknowledged; the same event naming an enrollment that does not exist is
    acknowledged as well, nothing written.  And Conekta order creation for
    the cancelled enrollment is not answered 400. *)
Lemma payment_created_for_inactive_enrollment :
  (let w := sample_world EStatus.cancelled 0 [] in
   let r := stripeWebhook succeeded_env stripe_request w in
   lookup_enrollment "enr-1" w = Some (sample_enrollment EStatus.cancelled 0)
   /\ payments (db w) = []
   /\ fst r = Resp 200 "received"
   /\ payments (db (snd r))
      = [Payment.mk "pay-1" "enr-1" 50000 "MXN" PMethod.stripe PType.partial
           PStatus.completed (Some "TXN-1") (Some "pi_1") (Some "RCP-1") 1000
           "tch-1" None None None 0])
  /\ (let w := mkWorld (mkStore sample_users sample_courses [] []) [] in
      lookup_enrollment "enr-1" w = None
      /\ stripeWebhook succeeded_env stripe_request w
         = (Resp 200 "received", w))
  /\ code (fst (ConektaController.createOrder sample_env "enr-1" "card"
                  (sample_world EStatus.cancelled 0 []))) <> 400.
Proof.
  repeat split; try reflexivity. vm_compute. discriminate.
Qed.

(** * Further properties of the code *)

(** ** Authorization middleware *)

Lemma Role_eqb_eq a b : User.Role_eqb a b = true <-> a = b.
Proof. destruct a, b; simpl; split; congruence. Qed.




Lemma checkResourceOwnership_unfold env user resourceId w :
  checkResourceOwnership env user resourceId w
  = if negb (truthy resourceId)
    then (Some (Resp 400 "Resource ID required"), w)
    else if dbUp env then
      match lookup_enrollment (or_default resourceId EmptyString) w with
      | None => (Some (Resp 404 "Resource not found"), w)
      | Some resource =>
          if User.Role_eqb (User.role user) User.admin then (None, w)
          else if String.eqb
                    ((if User.Role_eqb (User.role user) User.teacher
                      then Enrollment.teacherId else Enrollment.studentId)
                       resource)
                    (User.id user)
          then (None, w)
          else (Some (Resp 403 "Access denied"), w)
      end
    else (Some (Resp 500 "Authorization error"),
          console_log "Resource ownership check error:" w).
Proof.
  unfold checkResourceOwnership. unfold_db. unfold_m.
  destruct (negb (truthy resourceId)); [reflexivity|].
  destruct (dbUp env); [|reflexivity].
  destruct (lookup_enrollment _ w) as [resource|]; [|reflexivity].
  destruct (User.Role_eqb (User.role user) User.admin); [reflexivity|].
  destruct (String.eqb _ _); reflexivity.
Qed.

(** The ownership check on an enrollment lets the request through exactly
    when the data base answers, the enrollment named by a non-empty id
    exists, and the user is an admin, or a teacher who is the enrollment's
    teacher, or a student who is the enrollment's student -- a teacher is
    never matched against [studentId].  It never writes a table. *)
Theorem checkResourceOwnership_admission env user resourceId w :
  (fst (checkResourceOwnership env user resourceId w) = None
   <-> dbUp env = true
       /\ exists id resource,
            resourceId = Some id /\ id <> EmptyString
            /\ lookup_enrollment id w = Some resource
            /\ (User.role user = User.admin
                \/ (User.role user = User.teacher
                    /\ Enrollment.teacherId resource = User.id user)
                \/ (User.role user = User.student
                    /\ Enrollment.studentId resource = User.id user)))
  /\ db (snd (checkResourceOwnership env user resourceId w)) = db w.
Proof.
  rewrite checkResourceOwnership_unfold. split.
  - destruct resourceId as [id|]; simpl truthy; simpl negb.
    2:{ simpl. split; [discriminate|].
        intros (_ & id & r & H & _). discriminate. }
    destruct (String.eqb id EmptyString) eqn:Hid; simpl negb; cbv iota.
    { apply String.eqb_eq in Hid. simpl. split; [discriminate|].
      intros (_ & id' & r & [= <-] & Hne & _). contradiction. }
    apply String.eqb_neq in Hid.
    destruct (dbUp env); simpl or_default.
    2:{ simpl. split; [discriminate|]. intros (H & _). discriminate. }
    destruct (lookup_enrollment id w) as [resource|] eqn:Hfind.
    2:{ simpl. split; [discriminate|].
        intros (_ & id' & r & [= <-] & _ & Hf & _). congruence. }
    destruct (User.role user) eqn:Hrole; cbn.
    + simpl. split; [|reflexivity]. intros _. split; [reflexivity|].
      exists id, resource. auto.
    + destruct (String.eqb (Enrollment.teacherId resource) (User.id user))
        eqn:Ho; simpl.
      * apply String.eqb_eq in Ho. split; [|reflexivity].
        intros _. split; [reflexivity|]. exists id, resource.
        repeat split; auto.
      * apply String.eqb_neq in Ho. split; [discriminate|].
        intros (_ & id' & r & [= <-] & _ & Hf & Hc).
        rewrite Hfind in Hf. injection Hf as <-.
        destruct Hc as [Hc|[[_ Hc]|[Hc _]]]; congruence.
    + destruct (String.eqb (Enrollment.studentId resource) (User.id user))
        eqn:Ho; simpl.
      * apply String.eqb_eq in Ho. split; [|reflexivity].
        intros _. split; [reflexivity|]. exists id, resource.
        repeat split; auto.
      * apply String.eqb_neq in Ho. split; [discriminate|].
        intros (_ & id' & r & [= <-] & _ & Hf & Hc).
        rewrite Hfind in Hf. injection Hf as <-.
        destruct Hc as [Hc|[[Hc _]|[_ Hc]]]; congruence.
  - break_match; reflexivity.
Qed.

(** ** Cancelling and completing an enrollment *)

Lemma cancelEnrollment_unfold env user id w :
  cancelEnrollment env user id w
  = if dbUp env then
      match lookup_enrollment id w with
      | None => (Resp 404 "Enrollment not found", w)
      | Some enrollment =>
          if negb (User.Role_eqb (User.role user) User.admin)
             && negb (String.eqb (User.id user)
                        (Enrollment.studentId enrollment))
             && negb (String.eqb (User.id user)
                        (Enrollment.teacherId enrollment))
          then (Resp 403 "Access denied", w)
          else if EStatus.eqb (Enrollment.status enrollment) EStatus.cancelled
          then (Resp 400 "Already cancelled", w)
          else if EStatus.eqb (Enrollment.status enrollment) EStatus.completed
          then (Resp 400 "Cannot cancel completed enrollment", w)
          else (Resp 200 "Enrollment cancelled successfully",
                with_enrollments
                  (update_enrollment_row (Enrollment.id enrollment)
                     (Enrollment_set_status EStatus.cancelled)
                     (enrollments (db w)))
                  w)
      end
    else (Resp 500 "Failed to cancel enrollment",
          console_log "Cancel enrollment error:" w).
Proof.
  unfold cancelEnrollment. unfold_db. unfold_m.
  destruct (dbUp env); [|reflexivity].
  destruct (lookup_enrollment id w) as [enrollment|]; [|reflexivity].
  destruct (_ && _); [reflexivity|].
  destruct (EStatus.eqb _ EStatus.cancelled); [reflexivity|].
  destruct (EStatus.eqb _ EStatus.completed); reflexivity.
Qed.

Lemma completeEnrollment_unfold env user id body w :
  completeEnrollment env user id body w
  = if User.Role_eqb (User.role user) User.student
    then (Resp 403 "Access denied", w)
    else if dbUp env then
      match lookup_enrollment id w with
      | None => (Resp 404 "Enrollment not found", w)
      | Some enrollment =>
          if negb (User.Role_eqb (User.role user) User.admin)
             && negb (String.eqb (User.id user)
                        (Enrollment.teacherId enrollment))
          then (Resp 403 "Access denied", w)
          else if EStatus.eqb (Enrollment.status enrollment) EStatus.completed
          then (Resp 400 "Already completed", w)
          else if EStatus.eqb (Enrollment.status enrollment) EStatus.cancelled
          then (Resp 400 "Cannot complete cancelled enrollment", w)
          else
            let finalGrade :=
              number_or (cd_finalGrade body)
                (Enrollment.finalGrade enrollment) in
            let attendancePercentage :=
              number_or (cd_attendancePercentage body)
                (Enrollment.attendancePercentage enrollment) in
            if percentage_ok finalGrade && percentage_ok attendancePercentage
            then
              (Resp 200 "Enrollment completed successfully",
               with_enrollments
                 (update_enrollment_row (Enrollment.id enrollment)
                    (Enrollment.set_completed (now env) finalGrade
                       attendancePercentage
                       (string_or (cd_certificateNumber body)
                          (Enrollment.certificateNumber enrollment))
                       (truthy (cd_certificateNumber body)))
                    (enrollments (db w)))
                 w)
            else (Resp 500 "Failed to complete enrollment",
                  console_log "Complete enrollment error:" w)
      end
    else (Resp 500 "Failed to complete enrollment",
          console_log "Complete enrollment error:" w).
Proof.
  unfold completeEnrollment, requireTeacher, authorizeRoles.
  destruct (User.role user) eqn:Hrole; cbn [existsb User.Role_eqb orb negb];
    try reflexivity;
    unfold_db; unfold_m;
    (destruct (dbUp env) eqn:Hup; [|reflexivity]);
    (destruct (lookup_enrollment id w) as [enrollment|]; [|reflexivity]);
    rewrite ?Hrole; cbn [User.Role_eqb negb andb];
    try (destruct (negb _); [reflexivity|]);
    (destruct (EStatus.eqb _ EStatus.completed); [reflexivity|]);
    (destruct (EStatus.eqb _ EStatus.cancelled); [reflexivity|]);
    cbv zeta;
    (destruct (percentage_ok (number_or (cd_finalGrade body) _));
       cbn [negb andb]; [|reflexivity]);
    (destruct (percentage_ok (number_or (cd_attendancePercentage body) _));
       cbn [negb]; [|reflexivity]);
    rewrite ?Hup; reflexivity.
Qed.

Lemma lookup_update_enrollment_row pk pk' f w :
  (forall e, Enrollment.id (f e) = Enrollment.id e) ->
  lookup_enrollment pk'
    (with_enrollments (update_enrollment_row pk f (enrollments (db w))) w)
  = option_map
      (fun e => if String.eqb (Enrollment.id e) pk then f e else e)
      (lookup_enrollment pk' w).
Proof.
  intros Hf. unfold lookup_enrollment, update_enrollment_row. simpl.
  apply find_map_preserve. intros e.
  destruct (String.eqb (Enrollment.id e) pk); [now rewrite Hf|reflexivity].
Qed.

Lemma may_cancel_iff user enrollment :
  negb (User.Role_eqb (User.role user) User.admin)
  && negb (String.eqb (User.id user) (Enrollment.studentId enrollment))
  && negb (String.eqb (User.id user) (Enrollment.teacherId enrollment))
  = false
  <-> User.role user = User.admin
      \/ User.id user = Enrollment.studentId enrollment
      \/ User.id user = Enrollment.teacherId enrollment.
Proof.
  rewrite !andb_false_iff, !negb_false_iff, Role_eqb_eq, !String.eqb_eq.
  tauto.
Qed.

Lemma EStatus_eqb_neq a b : EStatus.eqb a b = false <-> a <> b.
Proof. destruct a, b; simpl; split; congruence. Qed.

(** Cancelling, for an enrollment that exists and a reachable data base:
    the answer is 200 exactly when the user is an admin, the enrollment's
    student or its teacher, and the enrollment is neither cancelled nor
    completed; then the row read back is the old row with status
    [cancelled], every other key reads as before; otherwise nothing is
    written.  In no case is a payment row written: cancelling refunds
    nothing and leaves [paidAmount] as it was. *)
Theorem cancelEnrollment_effect env user id w enrollment :
  dbUp env = true ->
  lookup_enrollment id w = Some enrollment ->
  let r := fst (cancelEnrollment env user id w) in
  let w' := snd (cancelEnrollment env user id w) in
  payments (db w') = payments (db w)
  /\ (code r = 200
      <-> (User.role user = User.admin
           \/ User.id user = Enrollment.studentId enrollment
           \/ User.id user = Enrollment.teacherId enrollment)
          /\ Enrollment.status enrollment <> EStatus.cancelled
          /\ Enrollment.status enrollment <> EStatus.completed)
  /\ (code r = 200 ->
      lookup_enrollment id w'
      = Some (Enrollment_set_status EStatus.cancelled enrollment)
      /\ forall id', id' <> id ->
           lookup_enrollment id' w' = lookup_enrollment id' w)
  /\ (code r <> 200 -> w' = w).
Proof.
  intros Hup Hfind r w'. subst r w'.
  pose proof (lookup_enrollment_id _ _ _ Hfind) as Hid.
  pose proof (may_cancel_iff user enrollment) as Hperm.
  rewrite cancelEnrollment_unfold, Hup, Hfind.
  destruct (negb (User.Role_eqb (User.role user) User.admin) && _ && _).
  { cbn [fst snd code]. split; [reflexivity|]. split; [|split].
    - split; [discriminate|]. intros (Ha & _).
      apply Hperm in Ha. discriminate.
    - discriminate.
    - reflexivity. }
  assert (Hok : User.role user = User.admin
                \/ User.id user = Enrollment.studentId enrollment
                \/ User.id user = Enrollment.teacherId enrollment)
    by now apply Hperm.
  destruct (EStatus.eqb (Enrollment.status enrollment) EStatus.cancelled)
    eqn:Hc.
  { apply EStatus_eqb_eq in Hc. cbn [fst snd code].
    split; [reflexivity|]. split; [|split].
    - split; [discriminate|]. intros (_ & Hn & _). contradiction.
    - discriminate.
    - reflexivity. }
  destruct (EStatus.eqb (Enrollment.status enrollment) EStatus.completed)
    eqn:Hd.
  { apply EStatus_eqb_eq in Hd. cbn [fst snd code].
    split; [reflexivity|]. split; [|split].
    - split; [discriminate|]. intros (_ & _ & Hn). contradiction.
    - discriminate.
    - reflexivity. }
  apply EStatus_eqb_neq in Hc. apply EStatus_eqb_neq in Hd.
  cbn [fst snd code]. split; [reflexivity|]. split; [|split].
  - split; [auto|reflexivity].
  - intros _. split.
    + rewrite lookup_update_enrollment_row by (intros; reflexivity).
      rewrite Hfind. simpl. now rewrite String.eqb_refl.
    + intros id' Hne.
      rewrite lookup_update_enrollment_row by (intros; reflexivity).
      destruct (lookup_enrollment id' w) as [e0|] eqn:Hf0; simpl;
        [|reflexivity].
      apply lookup_enrollment_id in Hf0. rewrite Hf0, Hid.
      apply String.eqb_neq in Hne. now rewrite Hne.
  - intros Hne. exfalso. now apply Hne.
Qed.

Lemma cancelEnrollment_effect_witness :
  lookup_enrollment "enr-1"
    (snd (cancelEnrollment sample_env (User.mk "stu-1" User.student) "enr-1"
            (sample_world EStatus.active 0 [])))
  = Some (sample_enrollment EStatus.cancelled 0).
Proof.
  exact (proj1 (proj1 (proj2 (proj2
    (cancelEnrollment_effect sample_env (User.mk "stu-1" User.student)
       "enr-1" (sample_world EStatus.active 0 [])
       (sample_enrollment EStatus.active 0) eq_refl eq_refl))) eq_refl)).
Defined.





(** ** The active enrollments of a course *)

Lemma update_enrollment_row_fresh pk f es :
  ~ In pk (map Enrollment.id es) -> update_enrollment_row pk f es = es.
Proof.
  intros Hn. unfold update_enrollment_row.
  rewrite <- (map_id es) at 2. apply map_ext_in. intros e Hin.
  destruct (String.eqb (Enrollment.id e) pk) eqn:E; [|reflexivity].
  apply String.eqb_eq in E. exfalso. apply Hn. rewrite <- E.
  now apply in_map.
Qed.

Lemma count_after_update course pk f e es :
  (forall x, Enrollment.courseId (f x) = Enrollment.courseId x) ->
  NoDup (map Enrollment.id es) ->
  find (fun x => String.eqb (Enrollment.id x) pk) es = Some e ->
  active_enrollments course (update_enrollment_row pk f es)
  = active_enrollments course es
    - (if String.eqb (Enrollment.courseId e) (Course.id course)
          && EStatus.eqb (Enrollment.status e) EStatus.active
       then 1 else 0)
    + (if String.eqb (Enrollment.courseId e) (Course.id course)
          && EStatus.eqb (Enrollment.status (f e)) EStatus.active
       then 1 else 0).
Proof.
  intros Hf. unfold active_enrollments.
  induction es as [|x l IH]; intros Hnd Hfind; [discriminate|].
  simpl in Hnd. inversion Hnd as [|? ? Hfresh Hnd']; subst.
  simpl in Hfind.
  destruct (String.eqb (Enrollment.id x) pk) eqn:E.
  - injection Hfind as <-. apply String.eqb_eq in E. subst pk.
    unfold update_enrollment_row at 1. simpl map.
    rewrite String.eqb_refl.
    fold (update_enrollment_row (Enrollment.id x) f l).
    rewrite update_enrollment_row_fresh by assumption.
    simpl filter. rewrite Hf.
    destruct (String.eqb (Enrollment.courseId x) (Course.id course));
      destruct (EStatus.eqb (Enrollment.status x) EStatus.active);
      destruct (EStatus.eqb (Enrollment.status (f x)) EStatus.active);
      cbn [andb Datatypes.length]; lia.
  - unfold update_enrollment_row at 1. simpl map. rewrite E.
    fold (update_enrollment_row pk f l).
    specialize (IH Hnd' Hfind). simpl filter.
    destruct (String.eqb (Enrollment.courseId x) (Course.id course)
              && EStatus.eqb (Enrollment.status x) EStatus.active);
      cbn [Datatypes.length]; lia.
Qed.

(** Cancelling or completing an active enrollment, the primary keys of the
    enrollments being distinct, lowers the number of active enrollments of
    its course by exactly one and leaves the number of every other course as
    it was. *)
Theorem closing_lowers_active_count env user id body w enrollment course :
  dbUp env = true ->
  NoDup (map Enrollment.id (enrollments (db w))) ->
  lookup_enrollment id w = Some enrollment ->
  Enrollment.status enrollment = EStatus.active ->
  let freed :=
    if String.eqb (Enrollment.courseId enrollment) (Course.id course)
    then 1 else 0 in
  (code (fst (cancelEnrollment env user id w)) = 200 ->
   active_enrollments course
     (enrollments (db (snd (cancelEnrollment env user id w))))
   = active_enrollments course (enrollments (db w)) - freed)
  /\ (code (fst (completeEnrollment env user id body w)) = 200 ->
      active_enrollments course
        (enrollments (db (snd (completeEnrollment env user id body w))))
      = active_enrollments course (enrollments (db w)) - freed).
Proof.
  intros Hup Hnd Hfind Hst freed.
  pose proof (lookup_enrollment_id _ _ _ Hfind) as Hid.
  assert (Hcount : forall f,
    (forall x, Enrollment.courseId (f x) = Enrollment.courseId x) ->
    Enrollment.status (f enrollment) <> EStatus.active ->
    active_enrollments course
      (update_enrollment_row (Enrollment.id enrollment) f (enrollments (db w)))
    = active_enrollments course (enrollments (db w)) - freed).
  { intros f Hf Hs. subst freed. rewrite Hid.
    rewrite (count_after_update course id f enrollment) by assumption.
    rewrite Hst. apply EStatus_eqb_neq in Hs. rewrite Hs.
    cbn [EStatus.eqb]. rewrite andb_true_r, andb_false_r. lia. }
  clearbody freed. split.
  - rewrite cancelEnrollment_unfold, Hup, Hfind.
    break_match; cbn [fst snd code]; try discriminate.
    intros _. apply Hcount; [reflexivity|discriminate].
  - rewrite completeEnrollment_unfold, Hup, Hfind. cbv zeta.
    break_match; cbn [fst snd code]; try discriminate.
    intros _. apply Hcount; [reflexivity|discriminate].
Qed.

Lemma closing_lowers_active_count_witness :
  active_enrollments (Course.mk "crs-1" "English A1" 15 150000 true)
    (enrollments
       (db (snd (cancelEnrollment sample_env (User.mk "adm-1" User.admin)
                   "enr-1" (sample_world EStatus.active 0 [])))))
  = active_enrollments (Course.mk "crs-1" "English A1" 15 150000 true)
      (enrollments (db (sample_world EStatus.active 0 []))) - 1.
Proof.
  refine (proj1 (closing_lowers_active_count sample_env
           (User.mk "adm-1" User.admin) "enr-1"
           (mkCompletionData None None None)
           (sample_world EStatus.active 0 [])
           (sample_enrollment EStatus.active 0)
           (Course.mk "crs-1" "English A1" 15 150000 true)
           eq_refl _ eq_refl eq_refl) eq_refl).
  repeat constructor. intros [].
Defined.

(** ** Refunds and the completed total *)

Lemma update_payment_row_fresh pk f ps :
  ~ In pk (map Payment.id ps) -> update_payment_row pk f ps = ps.
Proof.
  intros Hn. unfold update_payment_row.
  rewrite <- (map_id ps) at 2. apply map_ext_in. intros p Hin.
  destruct (String.eqb (Payment.id p) pk) eqn:E; [|reflexivity].
  apply String.eqb_eq in E. exfalso. apply Hn. rewrite <- E.
  now apply in_map.
Qed.

Lemma completed_total_cons eid p ps :
  completed_total eid (p :: ps)
  = (if is_completed_of eid p then Payment.amount p else 0)
    + completed_total eid ps.
Proof.
  unfold completed_total. simpl filter.
  destruct (is_completed_of eid p); reflexivity.
Qed.

Lemma completed_total_app eid ps qs :
  completed_total eid (ps ++ qs)
  = completed_total eid ps + completed_total eid qs.
Proof.
  induction ps as [|p ps IH]; [reflexivity|].
  rewrite <- app_comm_cons, !completed_total_cons, IH. break_match; lia.
Qed.

Lemma completed_total_after_update eid pk f p ps :
  NoDup (map Payment.id ps) ->
  find (fun x => String.eqb (Payment.id x) pk) ps = Some p ->
  completed_total eid (update_payment_row pk f ps)
  = completed_total eid ps
    - (if is_completed_of eid p then Payment.amount p else 0)
    + (if is_completed_of eid (f p) then Payment.amount (f p) else 0).
Proof.
  induction ps as [|x l IH]; intros Hnd Hfind; [discriminate|].
  simpl in Hnd. inversion Hnd as [|? ? Hfresh Hnd']; subst.
  simpl in Hfind.
  destruct (String.eqb (Payment.id x) pk) eqn:E.
  - injection Hfind as <-. apply String.eqb_eq in E. subst pk.
    unfold update_payment_row at 1. simpl map. rewrite String.eqb_refl.
    fold (update_payment_row (Payment.id x) f l).
    rewrite update_payment_row_fresh by assumption.
    rewrite !completed_total_cons. break_match; lia.
  - unfold update_payment_row at 1. simpl map. rewrite E.
    fold (update_payment_row pk f l).
    rewrite !completed_total_cons, (IH Hnd' Hfind). break_match; lia.
Qed.

(** A refund that is performed, on either route and for any amount, takes the
    whole payment out of the completed total of its enrollment, the primary
    keys of the payments being distinct: the total that the next
    recomputation reads is lower by [payment.amount], not by the amount
    refunded, and the totals of the other enrollments are as before. *)
Theorem refund_removes_whole_payment
    env user id refundAmount refundReason w payment enrollmentId :
  dbUp env = true ->
  NoDup (map Payment.id (payments (db w))) ->
  lookup_payment id w = Some payment ->
  let gone :=
    if String.eqb (Payment.enrollmentId payment) enrollmentId
    then Payment.amount payment else 0 in
  (code (fst (refund env user id refundAmount refundReason w)) = 200 ->
   completed_total enrollmentId
     (payments (db (snd (refund env user id refundAmount refundReason w))))
   = completed_total enrollmentId (payments (db w)) - gone)
  /\ (code (fst (ConektaController.refundPayment env id w)) = 200 ->
      completed_total enrollmentId
        (payments (db (snd (ConektaController.refundPayment env id w))))
      = completed_total enrollmentId (payments (db w)) - gone).
Proof.
  intros Hup Hnd Hfind gone.
  pose proof (lookup_payment_id _ _ _ Hfind) as Hid.
  assert (Hsum : forall f,
    Payment.status payment = PStatus.completed ->
    Payment.status (f payment) = PStatus.refunded ->
    completed_total enrollmentId
      (update_payment_row (Payment.id payment) f (payments (db w)))
    = completed_total enrollmentId (payments (db w)) - gone).
  { intros f Hc Hr. subst gone. rewrite Hid.
    rewrite (completed_total_after_update enrollmentId id f payment)
      by assumption.
    unfold is_completed_of. rewrite Hc, Hr. cbn [PStatus.eqb].
    rewrite andb_true_r, andb_false_r. break_match; lia. }
  clearbody gone. split.
  - intros Hcode.
    destruct (refund_performed _ _ _ _ _ _ _ Hup Hfind Hcode)
      as (Hc & _ & stored & _ & Hw).
    rewrite Hw. cbn [with_payments db payments].
    pose proof (Hsum (Payment.set_refund stored refundReason user (now env))
                  Hc eq_refl) as H.
    rewrite Hid in H. exact H.
  - rewrite refundPayment_unfold, Hup, Hfind.
    destruct (PStatus.eqb (Payment.status payment) PStatus.completed) eqn:Hc;
      cbn [negb]; [|discriminate].
    apply PStatus_eqb_eq in Hc.
    destruct (conekta_Charge_refund _ _); [discriminate|].
    intros _. cbn [fst snd with_payments db payments]. now apply Hsum.
Qed.

Lemma refund_removes_whole_payment_witness :
  completed_total "enr-1" (payments (db refunded_world))
  = completed_total "enr-1" (payments (db (paid_world 0))) - 100000.
Proof.
  refine (proj1 (refund_removes_whole_payment later_env "adm-1" "pay-1"
                   (js_number 40000) (Some "customer request") (paid_world 0)
                   sample_cash_payment "enr-1" eq_refl _ eq_refl) eq_refl).
  repeat constructor. intros [].
Defined.


(** Both refund routes refuse a payment whose status is not [completed]
    and write nothing (the data base reachable).  A refund that either route
    performs leaves the payment [refunded]; so on the tables it leaves, both
    routes refuse the payment, whatever the amount asked.  This speaks of the
    tables as the refund leaves them: a later request that sets the status
    back to [completed] makes the payment refundable again. *)
Theorem refund_refused_unless_completed
    env env' user user' id amount amount' reason reason' w :
  dbUp env' = true ->
  (forall payment,
      lookup_payment id w = Some payment ->
      Payment.status payment <> PStatus.completed ->
      refund env' user' id amount' reason' w
      = (Resp 400 "Payment not completed", w)
      /\ ConektaController.refundPayment env' id w
         = (Resp 400 "Payment cannot be refunded", w))
  /\ (code (fst (refund env user id amount reason w)) = 200 ->
      let w1 := snd (refund env user id amount reason w) in
      (exists p,
          lookup_payment id w1 = Some p
          /\ Payment.status p = PStatus.refunded)
      /\ refund env' user' id amount' reason' w1
         = (Resp 400 "Payment not completed", w1)
      /\ ConektaController.refundPayment env' id w1
         = (Resp 400 "Payment cannot be refunded", w1))
  /\ (code (fst (ConektaController.refundPayment env id w)) = 200 ->
      let w1 := snd (ConektaController.refundPayment env id w) in
      (exists p,
          lookup_payment id w1 = Some p
          /\ Payment.status p = PStatus.refunded)
      /\ refund env' user' id amount' reason' w1
         = (Resp 400 "Payment not completed", w1)
      /\ ConektaController.refundPayment env' id w1
         = (Resp 400 "Payment cannot be refunded", w1)).
Proof.
  intros Hup'.
  assert (Hrefused : forall w0 payment,
    lookup_payment id w0 = Some payment ->
    Payment.status payment <> PStatus.completed ->
    refund env' user' id amount' reason' w0
    = (Resp 400 "Payment not completed", w0)
    /\ ConektaController.refundPayment env' id w0
       = (Resp 400 "Payment cannot be refunded", w0)).
  { intros w0 payment Hfind Hst.
    rewrite refund_unfold, refundPayment_unfold, Hup', Hfind.
    apply PStatus_eqb_neq in Hst. rewrite Hst. split; reflexivity. }
  assert (Hafter : forall f payment,
    lookup_payment id w = Some payment ->
    (forall p, Payment.id (f p) = Payment.id p) ->
    Payment.status (f payment) = PStatus.refunded ->
    let w1 :=
      with_payments
        (update_payment_row (Payment.id payment) f (payments (db w))) w in
    (exists p,
        lookup_payment id w1 = Some p /\ Payment.status p = PStatus.refunded)
    /\ refund env' user' id amount' reason' w1
       = (Resp 400 "Payment not completed", w1)
    /\ ConektaController.refundPayment env' id w1
       = (Resp 400 "Payment cannot be refunded", w1)).
  { intros f payment Hfind Hf Hr w1. subst w1.
    pose proof (lookup_payment_id _ _ _ Hfind) as Hid. rewrite Hid.
    assert (Hlook :
      lookup_payment id
        (with_payments (update_payment_row id f (payments (db w))) w)
      = Some (f payment))
      by (now apply lookup_after_update_payment).
    split; [eauto|].
    apply (Hrefused _ (f payment) Hlook). rewrite Hr. discriminate. }
  split; [exact (Hrefused w)|]. split.
  - rewrite refund_unfold.
    destruct (dbUp env); [|discriminate].
    destruct (lookup_payment id w) as [payment|] eqn:Hfind; [|discriminate].
    destruct (negb _); [discriminate|].
    destruct (js_gt_decimal _ _); [discriminate|].
    destruct (_ && _);
      [destruct (stripe_refunds_create _ _ _); [discriminate|]|];
      (destruct (refundAmount_column _ _); [discriminate|]);
      intros _; cbn [fst snd]; apply Hafter; auto.
  - rewrite refundPayment_unfold.
    destruct (dbUp env); [|discriminate].
    destruct (lookup_payment id w) as [payment|] eqn:Hfind; [|discriminate].
    destruct (negb _); [discriminate|].
    destruct (conekta_Charge_refund _ _); [discriminate|].
    intros _. cbn [fst snd]. apply Hafter; auto.
Qed.

Lemma refund_refused_unless_completed_witness :
  refund later_env "adm-1" "pay-1" (js_number 60000) None refunded_world
  = (Resp 400 "Payment not completed", refunded_world)
  /\ ConektaController.refundPayment later_env "pay-c" conekta_pending_world
     = (Resp 400 "Payment cannot be refunded", conekta_pending_world).
Proof.
  split.
  - exact (proj1 (proj2 (proj1 (proj2
             (refund_refused_unless_completed later_env later_env
                "adm-1" "adm-1" "pay-1" (js_number 40000) (js_number 60000)
                (Some "customer request") None (paid_world 0) eq_refl))
             eq_refl))).
  - refine (proj2 (proj1
             (refund_refused_unless_completed later_env later_env
                "adm-1" "adm-1" "pay-c" js_undefined js_undefined None None
                conekta_pending_world eq_refl)
             (sample_conekta_payment PStatus.pending) eq_refl _)).
    discriminate.
Defined.

(** ** What a created payment adds to the balance *)

Lemma createPayment_created_row env user pd w r w' :
  createPayment env user pd w = (r, w') -> code r = 201 ->
  exists enrollment row,
    lookup_enrollment (pd_enrollmentId pd) w = Some enrollment
    /\ Enrollment.status enrollment = EStatus.active
    /\ Payment.enrollmentId row = pd_enrollmentId pd
    /\ pd_amount pd = Some (Payment.amount row)
    /\ 1 <= Payment.amount row
    /\ Payment.status row = or_default (pd_status pd) PStatus.pending
    /\ w' = recomputed env enrollment (pd_enrollmentId pd) row w.
Proof.
  unfold createPayment, try_catch, bind at 1.
  unfold Enrollment_findByPk. unfold bind at 1. unfold connected.
  destruct (dbUp env) eqn:Hup; unfold_m; [|intros [= <- _]; discriminate].
  destruct (lookup_enrollment (pd_enrollmentId pd) w) as [enrollment|] eqn:Hfind;
    [|intros [= <- _]; discriminate].
  destruct (EStatus.eqb (Enrollment.status enrollment) EStatus.active) eqn:Hst;
    simpl; [|intros [= <- _]; discriminate].
  match goal with |- context [Payment_create env ?v w] =>
    destruct (Payment_create env v w) as [[e|row] w1] eqn:Hc end;
    [intros [= <- _]; discriminate|].
  apply Payment_create_ok in Hc. destruct Hc as (_ & Hb & ->).
  rewrite updateEnrollmentPaymentStatus_up by assumption.
  intros [= <- <-] _.
  apply Payment_build_ok in Hb. simpl in Hb.
  destruct Hb as (He & Ha & Hge & Hs & _).
  apply EStatus_eqb_eq in Hst.
  exists enrollment, row.
  repeat split; try assumption; try reflexivity; congruence.
Qed.

Lemma recomputed_lookup env enrollment enrollmentId row w :
  lookup_enrollment enrollmentId w = Some enrollment ->
  lookup_enrollment enrollmentId
    (recomputed env enrollment enrollmentId row w)
  = Some
      (Enrollment.set_payment
         (nullable_total enrollmentId (payments (db w) ++ [row]))
         (paymentStatus_of
            (Enrollment.totalAmount enrollment
             - num (nullable_total enrollmentId (payments (db w) ++ [row])))
            (nullable_total enrollmentId (payments (db w) ++ [row])))
         (now env) enrollment).
Proof.
  intros Hfind.
  pose proof (lookup_enrollment_id _ _ _ Hfind) as Hid.
  unfold recomputed, lookup_enrollment. simpl. rewrite Hid.
  rewrite find_update_enrollment_row by (intros; reflexivity).
  fold (lookup_enrollment enrollmentId w). now rewrite Hfind.
Qed.

Lemma completed_total_snoc enrollmentId ps row :
  completed_total enrollmentId (ps ++ [row])
  = completed_total enrollmentId ps
    + (if is_completed_of enrollmentId row then Payment.amount row else 0).
Proof.
  rewrite completed_total_app, completed_total_cons.
  unfold completed_total. simpl. lia.
Qed.

Lemma nullable_total_snoc_None enrollmentId ps row :
  nullable_total enrollmentId (ps ++ [row]) = None
  <-> (forall p, In p ps -> is_completed_of enrollmentId p = false)
      /\ is_completed_of enrollmentId row = false.
Proof.
  rewrite nullable_total_None. split.
  - intros H. split.
    + intros p Hp. apply H, in_or_app. now left.
    + apply H, in_or_app. right. now left.
  - intros [H1 H2] p Hp. apply in_app_or in Hp.
    destruct Hp as [Hp|[<-|[]]]; auto.
Qed.

(** After the create-payment route has answered 201, the enrollment's
    [paidAmount], read as a number, is the completed total its payments had
    before, plus the amount of the body when the body says
    [status: 'completed'], plus nothing otherwise: a payment posted without a
    status is stored as [pending] and does not move the balance.  The column
    is left [NULL] exactly when the enrollment had no completed payment and
    the payment posted is not completed.  The amount of the body is at least
    0.01 and the payment table has grown by exactly one row. *)
Theorem created_payment_adds_its_amount env user pd w r w' e' :
  createPayment env user pd w = (r, w') -> code r = 201 ->
  lookup_enrollment (pd_enrollmentId pd) w' = Some e' ->
  exists amount row,
    pd_amount pd = Some amount
    /\ 1 <= amount
    /\ payments (db w') = payments (db w) ++ [row]
    /\ num (Enrollment.paidAmount e')
       = completed_total (pd_enrollmentId pd) (payments (db w))
         + (if PStatus.eqb (or_default (pd_status pd) PStatus.pending)
                 PStatus.completed
            then amount else 0)
    /\ (Enrollment.paidAmount e' = None
        <-> (forall p, In p (payments (db w)) ->
               is_completed_of (pd_enrollmentId pd) p = false)
            /\ or_default (pd_status pd) PStatus.pending
               <> PStatus.completed)
    /\ (pd_status pd = None ->
        num (Enrollment.paidAmount e')
        = completed_total (pd_enrollmentId pd) (payments (db w))).
Proof.
  intros Hrun Hcode He'.
  destruct (createPayment_created_row _ _ _ _ _ _ Hrun Hcode)
    as (enrollment & row & Hfind & _ & Heid & Ha & Hge & Hs & ->).
  rewrite (recomputed_lookup _ _ _ _ _ Hfind) in He'. injection He' as <-.
  exists (Payment.amount row), row.
  assert (Hrow : is_completed_of (pd_enrollmentId pd) row
                 = PStatus.eqb (or_default (pd_status pd) PStatus.pending)
                     PStatus.completed).
  { unfold is_completed_of. now rewrite Heid, Hs, String.eqb_refl. }
  assert (Hpaid :
    completed_total (pd_enrollmentId pd) (payments (db w) ++ [row])
    = completed_total (pd_enrollmentId pd) (payments (db w))
      + (if PStatus.eqb (or_default (pd_status pd) PStatus.pending)
              PStatus.completed
         then Payment.amount row else 0)).
  { now rewrite completed_total_snoc, Hrow. }
  cbn [Enrollment.set_payment Enrollment.paidAmount].
  split; [exact Ha|]. split; [exact Hge|]. split; [reflexivity|].
  split; [now rewrite num_nullable_total|].
  split.
  - rewrite nullable_total_snoc_None, Hrow, PStatus_eqb_neq. reflexivity.
  - intros Hn. rewrite num_nullable_total, Hpaid, Hn.
    cbn [or_default PStatus.eqb]. lia.
Qed.

Lemma created_payment_adds_its_amount_witness :
  let pending_data :=
    mkPaymentData "enr-1" (Some 100000) None (Some PMethod.cash)
      (Some PType.partial) None None None in
  let w' :=
    snd (createPayment sample_env "adm-1" pending_data
           (sample_world EStatus.active 0 [])) in
  exists e',
    lookup_enrollment "enr-1" w' = Some e'
    /\ Enrollment.paidAmount e' = None
    /\ num (Enrollment.paidAmount e')
       = completed_total "enr-1"
           (payments (db (sample_world EStatus.active 0 []))).
Proof.
  intros pending_data w'.
  exists (Enrollment.set_payment None EPaymentStatus.pending 1000
            (sample_enrollment EStatus.active 0)).
  destruct (created_payment_adds_its_amount sample_env "adm-1" pending_data
              (sample_world EStatus.active 0 [])
              (Resp 201 "Payment created successfully") w'
              (Enrollment.set_payment None EPaymentStatus.pending 1000
                 (sample_enrollment EStatus.active 0))
              eq_refl eq_refl eq_refl)
    as (amount & row & _ & _ & _ & _ & _ & Hnum).
  split; [reflexivity|]. split; [reflexivity|]. exact (Hnum eq_refl).
Defined.

(** When the Stripe webhook creates the row of a succeeded payment intent,
    the amount counted is the amount of the event: the enrollment's
    [paidAmount] becomes the completed total its payments had before plus
    [paymentIntent.amount], which is at least one cent, whatever the
    enrollment's price or status. *)
Theorem lazy_payment_adds_event_amount
    env req event enrollmentId enrollment w r w' e' :
  stripe_constructEvent env (sw_body req) (sw_signature req) = inr event ->
  se_type event = "payment_intent.succeeded" ->
  lookup_externalPaymentId (pi_id (se_data_object event)) w = None ->
  pi_metadata_enrollmentId (se_data_object event) = Some enrollmentId ->
  lookup_enrollment enrollmentId w = Some enrollment ->
  stripeWebhook env req w = (r, w') -> code r = 200 ->
  lookup_enrollment enrollmentId w' = Some e' ->
  1 <= pi_amount (se_data_object event)
  /\ Enrollment.paidAmount e'
     = Some (completed_total enrollmentId (payments (db w))
             + pi_amount (se_data_object event))
  /\ Enrollment.status e' = Enrollment.status enrollment.
Proof.
  intros Hev Hty Hnone Hmeta Hfind. unfold stripeWebhook. rewrite Hev, Hty.
  change (String.eqb "payment_intent.succeeded" "payment_intent.succeeded")
    with true.
  cbv iota. rewrite Hmeta.
  unfold try_catch, bind at 1 2.
  unfold Payment_findOne_externalPaymentId, Enrollment_findByPk.
  unfold bind at 1. unfold connected.
  destruct (dbUp env) eqn:Hup; unfold_m; [|intros [= <- _]; discriminate].
  rewrite Hnone, Hfind.
  match goal with |- context [Payment_create env ?v w] =>
    destruct (Payment_create env v w) as [[e|row] w1] eqn:Hc end;
    [intros [= <- _]; discriminate|].
  apply Payment_create_ok in Hc. destruct Hc as (_ & Hb & ->).
  rewrite updateEnrollmentPaymentStatus_up by assumption.
  intros [= <- <-] _ He'.
  apply Payment_build_ok in Hb. simpl in Hb.
  destruct Hb as (He & Ha & Hge & Hs & _).
  injection He as He. injection Ha as Ha.
  change (lookup_enrollment enrollmentId
            (recomputed env enrollment enrollmentId row w) = Some e') in He'.
  rewrite (recomputed_lookup _ _ _ _ _ Hfind) in He'. injection He' as <-.
  cbn [Enrollment.set_payment Enrollment.paidAmount Enrollment.status].
  assert (Hrow : is_completed_of enrollmentId row = true).
  { unfold is_completed_of. now rewrite <- He, Hs, String.eqb_refl. }
  split; [lia|]. split; [|reflexivity].
  unfold nullable_total.
  rewrite existsb_app. cbn [existsb]. rewrite Hrow. cbn [orb].
  rewrite orb_true_r.
  rewrite completed_total_snoc, Hrow. f_equal. lia.
Qed.

Lemma lazy_payment_adds_event_amount_witness :
  1 <= pi_amount sample_intent
  /\ Enrollment.paidAmount
       (Enrollment.set_payment (Some 50000) EPaymentStatus.partial 1000
          (sample_enrollment EStatus.cancelled 0))
     = Some (completed_total "enr-1"
               (payments (db (sample_world EStatus.cancelled 0 [])))
             + pi_amount sample_intent)
  /\ Enrollment.status
       (Enrollment.set_payment (Some 50000) EPaymentStatus.partial 1000
          (sample_enrollment EStatus.cancelled 0))
     = Enrollment.status (sample_enrollment EStatus.cancelled 0).
Proof.
  exact (lazy_payment_adds_event_amount succeeded_env stripe_request
           (mkStripeEvent "payment_intent.succeeded" sample_intent) "enr-1"
           (sample_enrollment EStatus.cancelled 0)
           (sample_world EStatus.cancelled 0 [])
           (Resp 200 "received")
           (snd (stripeWebhook succeeded_env stripe_request
                   (sample_world EStatus.cancelled 0 [])))
           (Enrollment.set_payment (Some 50000) EPaymentStatus.partial 1000
              (sample_enrollment EStatus.cancelled 0))
           eq_refl eq_refl eq_refl eq_refl eq_refl eq_refl eq_refl eq_refl).
Defined.

(** The [paymentStatus] the create-payment route writes and the model's
    [isFullyPaid]: after an answer of 201 the status is [completed] exactly
    when [paidAmount] has reached [totalAmount], and never [overdue]; with a
    discount that is not negative a [completed] enrollment is fully paid, and
    without discount the two agree.  A [paidAmount] that is [NULL] is read as
    0, as the block and [isFullyPaid] read it. *)
Theorem paymentStatus_and_isFullyPaid env user pd w r w' e' :
  createPayment env user pd w = (r, w') -> code r = 201 ->
  lookup_enrollment (pd_enrollmentId pd) w' = Some e' ->
  (Enrollment.paymentStatus e' = EPaymentStatus.completed
   <-> Enrollment.totalAmount e' <= num (Enrollment.paidAmount e'))
  /\ Enrollment.paymentStatus e' <> EPaymentStatus.overdue
  /\ (0 <= Enrollment.discountAmount e' ->
      Enrollment.paymentStatus e' = EPaymentStatus.completed ->
      Enrollment.isFullyPaid e' = true)
  /\ (Enrollment.discountAmount e' = 0 ->
      (Enrollment.isFullyPaid e' = true
       <-> Enrollment.paymentStatus e' = EPaymentStatus.completed)).
Proof.
  intros Hrun Hcode He'.
  destruct (createPayment_created_row _ _ _ _ _ _ Hrun Hcode)
    as (enrollment & row & Hfind & _ & _ & _ & _ & _ & ->).
  rewrite (recomputed_lookup _ _ _ _ _ Hfind) in He'. injection He' as <-.
  set (N := nullable_total (pd_enrollmentId pd) (payments (db w) ++ [row])).
  unfold Enrollment.isFullyPaid, Enrollment.getRemainingAmount.
  cbn [Enrollment.set_payment Enrollment.paidAmount Enrollment.paymentStatus
       Enrollment.totalAmount Enrollment.discountAmount].
  unfold paymentStatus_of. set (T := num N).
  destruct (Enrollment.totalAmount enrollment - T <=? 0) eqn:E.
  - apply Z.leb_le in E. split; [split; [lia|reflexivity]|].
    split; [discriminate|]. split.
    + intros Hd _. apply Z.leb_le. lia.
    + intros Hd. split; [reflexivity|]. intros _. apply Z.leb_le. lia.
  - apply Z.leb_gt in E.
    split; [split; [destruct (0 <? T); discriminate|lia]|].
    split; [destruct (0 <? T); discriminate|]. split.
    + intros _. destruct (0 <? T); discriminate.
    + intros Hd. split.
      * intros H. apply Z.leb_le in H. lia.
      * destruct (0 <? T); discriminate.
Qed.

Lemma paymentStatus_and_isFullyPaid_witness :
  let e' :=
    Enrollment.set_payment (Some 100000) EPaymentStatus.partial 1000
      (sample_enrollment EStatus.active 0) in
  Enrollment.paymentStatus e' = EPaymentStatus.completed
  <-> Enrollment.totalAmount e' <= num (Enrollment.paidAmount e').
Proof.
  intros e'.
  exact (proj1 (paymentStatus_and_isFullyPaid sample_env "adm-1"
                  sample_paymentData (sample_world EStatus.active 0 [])
                  (Resp 201 "Payment created successfully") (paid_world 0) e'
                  eq_refl eq_refl eq_refl)).
Defined.

(** ** Reading and editing one payment *)




Lemma getPayment_unfold env user id w :
  getPayment env user id w
  = if dbUp env then
      match lookup_payment id w with
      | None => ((Resp 404 "Payment not found", None), w)
      | Some payment =>
          if negb (User.Role_eqb (User.role user) User.admin)
          then
            match lookup_enrollment (Payment.enrollmentId payment) w with
            | None =>
                ((Resp 500 "Failed to retrieve payment", None),
                 console_log "Get payment error:" w)
            | Some enrollment =>
                if negb (String.eqb (User.id user)
                           (Enrollment.studentId enrollment))
                then ((Resp 403 "Access denied", None), w)
                else ((Resp 200 "payment", Some payment), w)
            end
          else ((Resp 200 "payment", Some payment), w)
      end
    else ((Resp 500 "Failed to retrieve payment", None),
          console_log "Get payment error:" w).
Proof.
  unfold getPayment. unfold_db. unfold_m.
  destruct (dbUp env); [|reflexivity].
  destruct (lookup_payment id w) as [payment|]; [|reflexivity].
  destruct (negb _); [|reflexivity].
  destruct (lookup_enrollment _ w); [|reflexivity].
  destruct (negb _); reflexivity.
Qed.

(** Reading a payment never writes a table, sends a payment exactly with the
    answer 200, and sends it only to an admin or to the student of the
    payment's enrollment: the teacher of that enrollment, not being its
    student, is refused.  An admin or that student is sent the payment of the
    key asked whenever the data base answers. *)
Theorem getPayment_disclosure env user id w :
  let answer := fst (fst (getPayment env user id w)) in
  let sent := snd (fst (getPayment env user id w)) in
  db (snd (getPayment env user id w)) = db w
  /\ (code answer = 200 <-> sent <> None)
  /\ (forall payment,
      sent = Some payment ->
      lookup_payment id w = Some payment
      /\ (User.role user = User.admin
          \/ exists enrollment,
               lookup_enrollment (Payment.enrollmentId payment) w
               = Some enrollment
               /\ Enrollment.studentId enrollment = User.id user))
  /\ (forall payment enrollment,
      dbUp env = true ->
      lookup_payment id w = Some payment ->
      lookup_enrollment (Payment.enrollmentId payment) w = Some enrollment ->
      User.role user = User.admin
      \/ Enrollment.studentId enrollment = User.id user ->
      sent = Some payment).
Proof.
  intros answer sent. subst answer sent. rewrite getPayment_unfold.
  split; [break_match; reflexivity|]. split; [|split].
  - break_match; cbn [fst snd code]; split; congruence.
  - intros payment.
    destruct (dbUp env); [|discriminate].
    destruct (lookup_payment id w) as [p|]; [|discriminate].
    destruct (User.Role_eqb (User.role user) User.admin) eqn:Ha; cbn [negb].
    + intros [= <-]. apply Role_eqb_eq in Ha. auto.
    + destruct (lookup_enrollment _ w) as [e|] eqn:He; [|discriminate].
      destruct (String.eqb (User.id user) (Enrollment.studentId e)) eqn:Hs;
        cbn [negb]; [|discriminate].
      intros [= <-]. apply String.eqb_eq in Hs. split; [reflexivity|].
      right. exists e. auto.
  - intros payment enrollment Hup Hp He Hor. rewrite Hup, Hp, He.
    destruct (User.Role_eqb (User.role user) User.admin) eqn:Ha; cbn [negb];
      [reflexivity|].
    destruct Hor as [Hor|Hor].
    + apply Role_eqb_eq in Hor. congruence.
    + rewrite Hor, String.eqb_refl. reflexivity.
Qed.

Lemma getPayment_disclosure_witness :
  snd (fst (getPayment sample_env (User.mk "stu-1" User.student) "pay-1"
              (paid_world 0)))
  = Some sample_cash_payment.
Proof.
  exact (proj2 (proj2 (proj2
    (getPayment_disclosure sample_env (User.mk "stu-1" User.student) "pay-1"
       (paid_world 0))))
    sample_cash_payment
    (Enrollment.set_payment (Some 100000) EPaymentStatus.partial 1000
       (sample_enrollment EStatus.active 0))
    eq_refl eq_refl eq_refl (or_intror eq_refl)).
Defined.

(** ** The Conekta payment routes *)

Lemma conekta_values_refused env enrollmentId amount st txn w :
  dbUp env = true ->
  Payment_create env
    (mkPaymentValues (Some enrollmentId) (Some amount) (Some "MXN") None None
       (Some st) (Some txn) None None None None) w
  = (inl (SequelizeValidationError "Payment.paymentMethod cannot be null"), w).
Proof.
  intros Hup. unfold Payment_create. unfold_m. rewrite Hup. reflexivity.
Qed.

Ltac conekta_route :=
  unfold ConektaController.createOrder, processCardPayment,
    processOxxoPayment, processSpeiPayment, Payment_create;
  unfold_db; unfold_m;
  match goal with |- context [dbUp ?e] => destruct (dbUp e) end;
    [|cbn; auto];
  match goal with |- context [lookup_enrollment ?i ?w] =>
    destruct (lookup_enrollment i w) end; [|cbn; auto];
  match goal with |- context [lookup_course ?i ?w] =>
    destruct (lookup_course i w) end; [|cbn; auto];
  match goal with |- context [conekta_Order_create ?e ?a ?t] =>
    destruct (conekta_Order_create e a t) end; cbn; auto.

(** None of the four Conekta routes that open a payment ever records it:
    the values they hand to [Payment.create] lack [paymentMethod],
    [paymentType] and [processedBy], which the model requires, so the insert
    is refused.  Whatever the processor answers, no table is written and the
    answer is 404 or 500; in particular, when the enrollment and its course
    exist and the processor has accepted the order, the answer is 500 and the
    order has no local payment row. *)
Theorem conekta_routes_record_nothing env enrollmentId paymentMethod_type w :
  (db (snd (ConektaController.createOrder env enrollmentId
              paymentMethod_type w)) = db w
   /\ (code (fst (ConektaController.createOrder env enrollmentId
                    paymentMethod_type w)) = 404
       \/ code (fst (ConektaController.createOrder env enrollmentId
                       paymentMethod_type w)) = 500))
  /\ (db (snd (processCardPayment env enrollmentId w)) = db w
      /\ (code (fst (processCardPayment env enrollmentId w)) = 404
          \/ code (fst (processCardPayment env enrollmentId w)) = 500))
  /\ (db (snd (processOxxoPayment env enrollmentId w)) = db w
      /\ (code (fst (processOxxoPayment env enrollmentId w)) = 404
          \/ code (fst (processOxxoPayment env enrollmentId w)) = 500))
  /\ (db (snd (processSpeiPayment env enrollmentId w)) = db w
      /\ (code (fst (processSpeiPayment env enrollmentId w)) = 404
          \/ code (fst (processSpeiPayment env enrollmentId w)) = 500))
  /\ (forall enrollment course order,
      dbUp env = true ->
      lookup_enrollment enrollmentId w = Some enrollment ->
      lookup_course (Enrollment.courseId enrollment) w = Some course ->
      conekta_Order_create env (Course.price course) "oxxo_cash" = inr order ->
      processOxxoPayment env enrollmentId w
      = (Resp 500 "Payment.paymentMethod cannot be null",
         console_log "Conekta OXXO payment error:" w)).
Proof.
  split; [conekta_route|]. split; [conekta_route|].
  split; [conekta_route|]. split; [conekta_route|].
  intros enrollment course order Hup He Hc Ho.
  unfold processOxxoPayment, Payment_create. unfold_db. unfold_m.
  rewrite Hup, He, Hc, Ho. reflexivity.
Qed.

Lemma conekta_routes_record_nothing_witness :
  processOxxoPayment sample_env "enr-1" (sample_world EStatus.active 0 [])
  = (Resp 500 "Payment.paymentMethod cannot be null",
     console_log "Conekta OXXO payment error:"
       (sample_world EStatus.active 0 [])).
Proof.
  pose proof (conekta_routes_record_nothing sample_env "enr-1" "oxxo_cash"
                (sample_world EStatus.active 0 [])) as H.
  exact (proj2 (proj2 (proj2 (proj2 H)))
           (sample_enrollment EStatus.active 0)
           (Course.mk "crs-1" "English A1" 15 150000 true)
           (mkConektaOrder "ord_1" (mkConektaCharge "pending_payment"))
           eq_refl eq_refl eq_refl eq_refl).
Defined.

(** ** Delivering a notification twice *)

Lemma update_payment_row_twice pk f ps :
  (forall p, Payment.id (f p) = Payment.id p) ->
  (forall p, f (f p) = f p) ->
  update_payment_row pk f (update_payment_row pk f ps)
  = update_payment_row pk f ps.
Proof.
  intros Hid Hf. unfold update_payment_row. rewrite map_map.
  apply map_ext. intros p.
  destruct (String.eqb (Payment.id p) pk) eqn:E.
  - now rewrite Hid, E, Hf.
  - now rewrite E.
Qed.

Lemma status_written_once oid s w p :
  lookup_transactionId oid w = Some p ->
  let w1 :=
    with_payments
      (update_payment_row (Payment.id p) (Payment.set_status s)
         (payments (db w))) w in
  lookup_transactionId oid w1 = Some (Payment.set_status s p)
  /\ update_payment_row (Payment.id p) (Payment.set_status s)
       (payments (db w1))
     = payments (db w1).
Proof.
  intros Hfind w1. subst w1. split.
  - unfold lookup_transactionId, update_payment_row in *. simpl.
    rewrite find_map_preserve.
    + rewrite Hfind. simpl. now rewrite String.eqb_refl.
    + intros x. destruct (String.eqb (Payment.id x) (Payment.id p));
        reflexivity.
  - simpl. apply update_payment_row_twice; intros; reflexivity.
Qed.

Lemma failure_handler_idempotent env1 env2 txn line w :
  dbUp env1 = true ->
  let run env :=
    try_catch
      (payment <- Payment_findOne_transactionId env txn ;;
       match payment with
       | Some payment =>
           Payment_save env payment (Payment.set_status PStatus.failed)
       | None => ret tt
       end)
      (fun error w => (tt, console_log line w)) in
  db (snd (run env2 (snd (run env1 w)))) = db (snd (run env1 w)).
Proof.
  intros Hup run. subst run. cbv beta.
  rewrite !handle_failure_unfold, Hup.
  destruct txn as [oid|]; [|reflexivity].
  destruct (lookup_transactionId oid w) as [p|] eqn:Hfind.
  - destruct (status_written_once oid PStatus.failed w p Hfind) as [H1 H2].
    cbn [snd]. rewrite H1.
    destruct (dbUp env2); [|reflexivity].
    cbn [with_payments db payments] in H2.
    cbn [snd with_payments db users courses enrollments payments
         Payment.set_status Payment.id]. now rewrite H2.
  - cbn [snd]. rewrite Hfind. destruct (dbUp env2); reflexivity.
Qed.

(** A notification that was processed can be delivered again without
    changing a table.  For the Conekta webhook and any signed event, and for
    the Stripe webhook and a verified [payment_intent.payment_failed] event:
    if the first delivery found the data base reachable, the second delivery
    -- at another time, the data base reachable or not, the mail working or
    not -- leaves every table as the first left it. *)
Theorem webhook_redelivery_writes_nothing env1 env2 w :
  dbUp env1 = true ->
  (forall req,
      truthy (cw_signature req) = true ->
      let w1 := snd (ConektaController.webhook env1 req w) in
      db (snd (ConektaController.webhook env2 req w1)) = db w1)
  /\ (forall req1 req2 event,
      stripe_constructEvent env1 (sw_body req1) (sw_signature req1)
      = inr event ->
      stripe_constructEvent env2 (sw_body req2) (sw_signature req2)
      = inr event ->
      se_type event = "payment_intent.payment_failed" ->
      let w1 := snd (stripeWebhook env1 req1 w) in
      db (snd (stripeWebhook env2 req2 w1)) = db w1).
Proof.
  intros Hup. split.
  - intros req Hsig w1. subst w1.
    rewrite !conektaWebhook_unfold, Hsig. cbn [negb snd].
    unfold conekta_switch.
    destruct (String.eqb (ce_type (cw_body req)) "order.paid").
    { rewrite !handleOrderPaid_unfold, Hup.
      destruct (ce_data_object_id (cw_body req)) as [oid|]; [|reflexivity].
      destruct (lookup_transactionId oid w) as [p|] eqn:Hfind.
      - destruct (status_written_once oid PStatus.completed w p Hfind)
          as [H1 H2].
        cbn [with_payments db payments] in H2.
        set (w1 := with_payments
                     (update_payment_row (Payment.id p)
                        (Payment.set_status PStatus.completed)
                        (payments (db w))) w) in *.
        assert (Hlog : forall line,
          lookup_transactionId oid (console_log line w1)
          = Some (Payment.set_status PStatus.completed p)) by (intros; exact H1).
        assert (Hdone : forall w0,
          payments (db w0) = payments (db w1) ->
          db (with_payments
                (update_payment_row
                   (Payment.id (Payment.set_status PStatus.completed p))
                   (Payment.set_status PStatus.completed)
                   (payments (db w0))) w0) = db w0).
        { intros w0 Hps. unfold with_payments. cbn [db]. rewrite Hps.
          subst w1. cbn [with_payments db payments Payment.set_status
                         Payment.id].
          rewrite H2. destruct w0 as [[us cs es ps] c]. cbn in *.
          now subst ps. }
        destruct (lookup_enrollment (Payment.enrollmentId p) w);
          [destruct (mailUp env1)|]; cbn [snd];
          rewrite ?Hlog, ?H1;
          (destruct (dbUp env2); [|reflexivity]);
          cbv zeta;
          repeat match goal with
          | |- context [match ?x with Some _ => _ | None => _ end] =>
              destruct x
          | |- context [if ?c then _ else _] => destruct c
          end;
          cbn [snd]; try (apply Hdone; reflexivity);
          (unfold console_log at 1; cbn [db]; apply Hdone; reflexivity).
      - cbn [snd]. rewrite Hfind.
        destruct (dbUp env2); reflexivity. }
    destruct (String.eqb (ce_type (cw_body req)) "order.expired").
    { unfold ConektaController.handleOrderExpired.
      now apply failure_handler_idempotent. }
    destruct (String.eqb (ce_type (cw_body req)) "charge.failed").
    { unfold ConektaController.handleChargeFailed.
      now apply failure_handler_idempotent. }
    reflexivity.
  - intros req1 req2 event Hev1 Hev2 Hty w1. subst w1.
    rewrite (stripeWebhook_failed_up _ _ _ _ Hev1 Hty Hup).
    destruct (dbUp env2) eqn:Hup2.
    + rewrite (stripeWebhook_failed_up _ _ _ _ Hev2 Hty Hup2).
      cbn [snd with_payments db payments]. f_equal.
      rewrite map_map. apply map_ext. intros p.
      destruct (opt_eqb (Payment.externalPaymentId p)
                  (pi_id (se_data_object event))) eqn:E.
      * cbn [Payment.set_status Payment.externalPaymentId].
        now rewrite E.
      * now rewrite E.
    + rewrite (stripeWebhook_failed_down _ _ _ _ Hev2 Hty Hup2). reflexivity.
Qed.

Lemma webhook_redelivery_writes_nothing_witness :
  db (snd (ConektaController.webhook later_env (signed order_paid_event)
             conekta_paid_world))
  = db conekta_paid_world.
Proof.
  exact (proj1 (webhook_redelivery_writes_nothing sample_env later_env
                  conekta_pending_world eq_refl)
           (signed order_paid_event) eq_refl).
Defined.

(** ** Status predicates of the models *)

(** The status predicates of a payment: exactly one of [isSuccessful],
    [isPending], [isFailed] and "the status is refunded" holds; a refunded
    status makes [isRefunded] true, which a positive [refundAmount] also
    does whatever the status; and a payment counts in the completed total of
    an enrollment exactly when it belongs to it and [isSuccessful]. *)
Theorem payment_status_predicates p :
  List.length
    (filter (fun b : bool => b)
       [Payment.isSuccessful p; Payment_isPending p; Payment_isFailed p;
        PStatus.eqb (Payment.status p) PStatus.refunded]) = 1%nat
  /\ (Payment.status p = PStatus.refunded -> Payment_isRefunded p = true)
  /\ (Payment_isRefunded p = true
      <-> Payment.status p = PStatus.refunded \/ 0 < Payment.refundAmount p)
  /\ (forall enrollmentId,
      is_completed_of enrollmentId p = true
      <-> Payment.enrollmentId p = enrollmentId
          /\ Payment.isSuccessful p = true).
Proof.
  unfold Payment.isSuccessful, Payment_isPending, Payment_isFailed,
    Payment_isRefunded, is_completed_of.
  split; [destruct (Payment.status p); reflexivity|].
  split; [intros ->; reflexivity|]. split.
  - rewrite orb_true_iff, PStatus_eqb_eq, Z.ltb_lt. tauto.
  - intros enrollmentId.
    rewrite andb_true_iff, String.eqb_eq. tauto.
Qed.

Lemma payment_status_predicates_witness :
  Payment_isRefunded
    (Payment.set_refund (Some 0) None "adm-1" 2000 sample_cash_payment) = true.
Proof.
  exact (proj1 (proj2 (payment_status_predicates
                  (Payment.set_refund (Some 0) None "adm-1" 2000 sample_cash_payment)))
           eq_refl).
Defined.

(** The status predicates of an attendance record: exactly one of
    [isPresent], [isAbsent] and [isExcused] holds, late and tardy counting as
    present; the colour tells the status; and the record is present exactly
    when its colour is green, yellow or orange. *)
Theorem attendance_status_predicates (a b : Attendance.t) :
  List.length
    (filter (fun x : bool => x)
       [Attendance.isPresent a; Attendance.isAbsent a; Attendance.isExcused a])
  = 1%nat
  /\ (Attendance.getStatusColor a = Attendance.getStatusColor b ->
      Attendance.status a = Attendance.status b)
  /\ (Attendance.isPresent a = true
      <-> In (Attendance.getStatusColor a) ["green"; "yellow"; "orange"]).
Proof.
  unfold Attendance.isPresent, Attendance.isAbsent, Attendance.isExcused,
    Attendance.getStatusColor.
  split; [destruct (Attendance.status a); reflexivity|]. split.
  - destruct (Attendance.status a), (Attendance.status b);
      intros H; try reflexivity; discriminate.
  - destruct (Attendance.status a); simpl; split; intros H;
      try reflexivity; try discriminate; auto;
      repeat (destruct H as [H|H]; try discriminate); contradiction.
Qed.

Lemma attendance_status_predicates_witness :
  Attendance.status (Attendance.mk Attendance.late 10 80)
  = Attendance.status (Attendance.mk Attendance.late 0 90).
Proof.
  exact (proj1 (proj2 (attendance_status_predicates
                  (Attendance.mk Attendance.late 10 80)
                  (Attendance.mk Attendance.late 0 90))) eq_refl).
Defined.

(** ** What no route ever does *)

Lemma evolves_refl w : evolves w w.
Proof.
  constructor; try reflexivity; try (exists []; now rewrite app_nil_r); auto.
  intros id e H. exists e. auto.
Qed.

Lemma closed_status_eq a b : a = b -> closed a = closed b.
Proof. now intros ->. Qed.

Lemma evolves_trans w1 w2 w3 : evolves w1 w2 -> evolves w2 w3 -> evolves w1 w3.
Proof.
  intros [U1 C1 [p1 P1] [e1 E1] K1 S1] [U2 C2 [p2 P2] [e2 E2] K2 S2].
  constructor.
  - congruence.
  - congruence.
  - exists (p1 ++ p2). now rewrite P2, P1, app_assoc.
  - exists (e1 ++ e2). now rewrite E2, E1, app_assoc.
  - auto.
  - intros id e H. destruct (S1 id e H) as (e' & H' & Hc).
    destruct (S2 id e' H') as (e'' & H'' & Hc').
    exists e''. split; [exact H''|]. intros Hcl.
    specialize (Hc Hcl). rewrite Hc' by (now rewrite Hc). exact Hc.
Qed.

Lemma evolves_console_log line w : evolves w (console_log line w).
Proof.
  constructor; try reflexivity; try (exists []; now rewrite app_nil_r); auto.
  intros id e H. exists e. auto.
Qed.

Lemma payment_id_of_key ps :
  map Payment.id ps = map (fun k => fst (fst (fst (fst k)))) (map payment_key ps).
Proof. rewrite map_map. reflexivity. Qed.

Lemma enrollment_id_of_key es :
  map Enrollment.id es
  = map (fun k => fst (fst (fst (fst (fst k))))) (map enrollment_key es).
Proof. rewrite map_map. reflexivity. Qed.

Lemma enrollment_pair_of_key es :
  map enrollment_pair es
  = map (fun k => (snd (fst (fst (fst (fst k)))), snd (fst (fst (fst k)))))
      (map enrollment_key es).
Proof. rewrite map_map. reflexivity. Qed.

(** Rows rewritten in place, their keys kept. *)
Lemma evolves_same_keys w w' :
  users (db w') = users (db w) ->
  courses (db w') = courses (db w) ->
  map payment_key (payments (db w')) = map payment_key (payments (db w)) ->
  map enrollment_key (enrollments (db w'))
  = map enrollment_key (enrollments (db w)) ->
  (forall id e,
      lookup_enrollment id w = Some e ->
      exists e',
        lookup_enrollment id w' = Some e'
        /\ (closed (Enrollment.status e) = true ->
            Enrollment.status e' = Enrollment.status e)) ->
  evolves w w'.
Proof.
  intros U C P E S. constructor; auto.
  - exists []. now rewrite app_nil_r.
  - exists []. now rewrite app_nil_r.
  - unfold unique_keys.
    rewrite !payment_id_of_key, !enrollment_id_of_key,
      !enrollment_pair_of_key, P, E. auto.
Qed.

Lemma map_update_payment_row {B} (g : Payment.t -> B) pk f ps :
  (forall p, g (f p) = g p) ->
  map g (update_payment_row pk f ps) = map g ps.
Proof.
  intros Hg. unfold update_payment_row. rewrite map_map.
  apply map_ext. intros p. destruct (String.eqb _ _); auto.
Qed.

Lemma map_update_enrollment_row {B} (g : Enrollment.t -> B) pk f es :
  (forall e, g (f e) = g e) ->
  map g (update_enrollment_row pk f es) = map g es.
Proof.
  intros Hg. unfold update_enrollment_row. rewrite map_map.
  apply map_ext. intros e. destruct (String.eqb _ _); auto.
Qed.

Lemma evolves_payments_rewritten w g :
  (forall p, payment_key (g p) = payment_key p) ->
  evolves w (with_payments (map g (payments (db w))) w).
Proof.
  intros Hg. apply evolves_same_keys; try reflexivity.
  - simpl. rewrite map_map. apply map_ext. exact Hg.
  - intros id e H. exists e. auto.
Qed.

Lemma evolves_enrollments_rewritten w pk f :
  (forall e, enrollment_key (f e) = enrollment_key e) ->
  (forall e, lookup_enrollment pk w = Some e ->
             closed (Enrollment.status e) = true ->
             Enrollment.status (f e) = Enrollment.status e) ->
  evolves w
    (with_enrollments (update_enrollment_row pk f (enrollments (db w))) w).
Proof.
  intros Hk Hs. apply evolves_same_keys; try reflexivity.
  - simpl. now apply map_update_enrollment_row.
  - intros id e H.
    assert (Hid : forall e0, Enrollment.id (f e0) = Enrollment.id e0).
    { intros e0. specialize (Hk e0). unfold enrollment_key in Hk. congruence. }
    rewrite lookup_update_enrollment_row by exact Hid.
    rewrite H. simpl.
    destruct (String.eqb (Enrollment.id e) pk) eqn:E.
    + exists (f e). split; [reflexivity|].
      apply String.eqb_eq in E.
      pose proof (lookup_enrollment_id _ _ _ H) as Hi.
      apply Hs. congruence.
    + exists e. auto.
Qed.

Lemma find_app_found {A} (p : A -> bool) l l' x :
  find p l = Some x -> find p (l ++ l') = Some x.
Proof.
  induction l as [|a l IH]; simpl; [discriminate|].
  destruct (p a); auto.
Qed.

Lemma NoDup_snoc {A} (l : list A) (x : A) :
  NoDup l -> ~ In x l -> NoDup (l ++ [x]).
Proof.
  intros Hl Hx. apply NoDup_app.
  - exact Hl.
  - repeat constructor. intros [].
  - intros a Ha [<-|[]]. contradiction.
Qed.

Lemma evolves_payment_inserted w row :
  existsb (fun p => String.eqb (Payment.id p) (Payment.id row))
    (payments (db w)) = false ->
  evolves w (with_payments (payments (db w) ++ [row]) w).
Proof.
  intros Hfresh. constructor; try reflexivity.
  - exists [payment_key row]. simpl. now rewrite map_app.
  - exists []. now rewrite app_nil_r.
  - intros (Hp & He & Hq). unfold unique_keys. simpl.
    split; [|split]; auto.
    rewrite map_app. apply NoDup_snoc; [exact Hp|].
    intros Hin. apply in_map_iff in Hin. destruct Hin as (p & Hid & Hin).
    assert (existsb (fun p => String.eqb (Payment.id p) (Payment.id row))
              (payments (db w)) = true).
    { apply existsb_exists. exists p. split; [exact Hin|].
      now apply String.eqb_eq. }
    congruence.
  - intros id e H. exists e. auto.
Qed.

Lemma same_pair_iff s c e :
  same_pair s c e = true <-> enrollment_pair e = (s, c).
Proof.
  unfold same_pair, enrollment_pair.
  rewrite andb_true_iff, !String.eqb_eq. split.
  - intros [-> ->]. reflexivity.
  - intros [= -> ->]. auto.
Qed.

Lemma evolves_enrollment_inserted w row :
  existsb (fun e => String.eqb (Enrollment.id e) (Enrollment.id row))
    (enrollments (db w)) = false ->
  existsb (same_pair (Enrollment.studentId row) (Enrollment.courseId row))
    (enrollments (db w)) = false ->
  evolves w (with_enrollments (enrollments (db w) ++ [row]) w).
Proof.
  intros Hid Hpair. constructor; try reflexivity.
  - exists []. now rewrite app_nil_r.
  - exists [enrollment_key row]. simpl. now rewrite map_app.
  - intros (Hp & He & Hq). unfold unique_keys. simpl.
    split; [exact Hp|]. rewrite !map_app. split.
    + apply NoDup_snoc; [exact He|].
      intros Hin. apply in_map_iff in Hin. destruct Hin as (e & Hi & Hin).
      assert (existsb
                (fun e => String.eqb (Enrollment.id e) (Enrollment.id row))
                (enrollments (db w)) = true).
      { apply existsb_exists. exists e. split; [exact Hin|].
        now apply String.eqb_eq. }
      congruence.
    + apply NoDup_snoc; [exact Hq|].
      intros Hin. apply in_map_iff in Hin. destruct Hin as (e & Hi & Hin).
      assert (existsb
                (same_pair (Enrollment.studentId row) (Enrollment.courseId row))
                (enrollments (db w)) = true).
      { apply existsb_exists. exists e. split; [exact Hin|].
        now apply same_pair_iff. }
      congruence.
  - intros id e H. exists e. split; [|auto].
    unfold lookup_enrollment in *. simpl. now apply find_app_found.
Qed.

Lemma keeps_ret {A} (a : A) : keeps (ret a).
Proof. intros w. apply evolves_refl. Qed.

Lemma keeps_throw {A} (e : Exn) : keeps (@throw A e).
Proof. intros w. apply evolves_refl. Qed.

Lemma keeps_gets {A} (f : World -> A) : keeps (gets f).
Proof. intros w. apply evolves_refl. Qed.

Lemma keeps_of_sum {A} (r : Exn + A) : keeps (of_sum r).
Proof. destruct r; [apply keeps_throw|apply keeps_ret]. Qed.

Lemma keeps_connected env : keeps (connected env).
Proof.
  unfold connected. destruct (dbUp env); [apply keeps_ret|apply keeps_throw].
Qed.

Lemma keeps_bind {A B} (m : M A) (k : A -> M B) :
  keeps m -> (forall a, keeps (k a)) -> keeps (bind m k).
Proof.
  intros Hm Hk w. unfold bind. specialize (Hm w).
  destruct (m w) as [[e|a] w1]; [exact Hm|].
  eapply evolves_trans; [exact Hm|apply Hk].
Qed.

Lemma keeps_lift {A} (n : World -> A * World) :
  (forall w, evolves w (snd (n w))) -> keeps (lift n).
Proof.
  intros Hn w. unfold lift. specialize (Hn w).
  destruct (n w) as [a w1]. exact Hn.
Qed.

Lemma evolves_try_catch {A} (m : M A) (h : Exn -> World -> A * World) :
  keeps m -> (forall e w, evolves w (snd (h e w))) ->
  forall w, evolves w (snd (try_catch m h w)).
Proof.
  intros Hm Hh w. unfold try_catch. specialize (Hm w).
  destruct (m w) as [[e|a] w1]; [|exact Hm].
  eapply evolves_trans; [exact Hm|apply Hh].
Qed.

Lemma keeps_log line : keeps (modify (console_log line)).
Proof. intros w. apply evolves_console_log. Qed.

Lemma keeps_Payment_save env payment f :
  (forall p, payment_key (f p) = payment_key p) ->
  keeps (Payment_save env payment f).
Proof.
  intros Hf. unfold Payment_save. apply keeps_bind; [apply keeps_connected|].
  intros _ w. unfold modify. cbn [snd]. unfold update_payment_row.
  apply evolves_payments_rewritten. intros p.
  destruct (String.eqb _ _); auto.
Qed.

Lemma keeps_Payment_update_where env ext f :
  (forall p, payment_key (f p) = payment_key p) ->
  keeps (Payment_update_where_externalPaymentId env ext f).
Proof.
  intros Hf. unfold Payment_update_where_externalPaymentId.
  apply keeps_bind; [apply keeps_connected|].
  intros _ w. unfold modify. cbn [snd].
  apply evolves_payments_rewritten. intros p.
  destruct (opt_eqb _ _); auto.
Qed.

Lemma keeps_Enrollment_update env enrollment f :
  (forall e, enrollment_key (f e) = enrollment_key e) ->
  (forall e, Enrollment.status (f e) = Enrollment.status e) ->
  keeps (Enrollment_update env enrollment f).
Proof.
  intros Hk Hs. unfold Enrollment_update.
  apply keeps_bind; [apply keeps_connected|].
  intros _ w. unfold modify. cbn [snd].
  apply evolves_enrollments_rewritten; auto.
Qed.

Lemma keeps_Payment_create env v : keeps (Payment_create env v).
Proof.
  unfold Payment_create. apply keeps_bind; [apply keeps_connected|].
  intros _. apply keeps_bind; [apply keeps_of_sum|]. intros row.
  intros w. unfold bind, gets. cbv beta iota.
  destruct (existsb _ (payments (db w))) eqn:Hid; [apply evolves_refl|].
  destruct (taken Payment.transactionId _ _); [apply evolves_refl|].
  destruct (taken Payment.receiptNumber _ _); [apply evolves_refl|].
  unfold modify, ret. cbn [snd]. now apply evolves_payment_inserted.
Qed.

Lemma keeps_Enrollment_create env d : keeps (Enrollment_create env d).
Proof.
  unfold Enrollment_create. apply keeps_bind; [apply keeps_connected|].
  intros _ w. unfold bind, gets. cbv beta iota zeta.
  destruct (existsb _ (enrollments (db w))) eqn:Hid; [apply evolves_refl|].
  destruct (existsb (same_pair _ _) _) eqn:Hp; [apply evolves_refl|].
  unfold modify, ret. cbn [snd]. now apply evolves_enrollment_inserted.
Qed.

Lemma keeps_updateEnrollmentPaymentStatus env enrollment enrollmentId :
  keeps (updateEnrollmentPaymentStatus env enrollment enrollmentId).
Proof.
  unfold updateEnrollmentPaymentStatus, Payment_sum_amount.
  apply keeps_bind.
  - apply keeps_bind; [apply keeps_connected|intros; apply keeps_gets].
  - intros T. apply keeps_Enrollment_update; intros; reflexivity.
Qed.

Ltac keeps_step :=
  first
    [ apply keeps_ret | apply keeps_throw | apply keeps_gets
    | apply keeps_of_sum | apply keeps_connected | apply keeps_log
    | apply keeps_Payment_create | apply keeps_Enrollment_create
    | apply keeps_updateEnrollmentPaymentStatus
    | apply keeps_Payment_save; intros; reflexivity
    | apply keeps_Payment_update_where; intros; reflexivity
    | apply keeps_bind; [|intros]
    | apply keeps_lift; intros
    | apply evolves_try_catch; [|intros; apply evolves_console_log]
    | match goal with
      | |- keeps (match ?x with Some _ => _ | None => _ end) => destruct x
      | |- keeps (match ?x with inl _ => _ | inr _ => _ end) => destruct x
      | |- keeps (if ?c then _ else _) => destruct c
      | |- forall w, evolves w (snd (_ w)) => intros
      end ].

Ltac keeps_all := unfold_db; repeat keeps_step.

Lemma evolves_createPayment env user pd w :
  evolves w (snd (createPayment env user pd w)).
Proof. revert w. unfold createPayment. keeps_all. Qed.

Lemma evolves_stripeWebhook env req w :
  evolves w (snd (stripeWebhook env req w)).
Proof.
  revert w. unfold stripeWebhook.
  destruct (stripe_constructEvent _ _ _).
  - intros w. apply evolves_console_log.
  - keeps_all.
Qed.

Lemma evolves_refund env user id amount reason w :
  evolves w (snd (refund env user id amount reason w)).
Proof. revert w. unfold refund. keeps_all. Qed.

Lemma evolves_conekta_routes env enrollmentId ty w :
  evolves w (snd (ConektaController.createOrder env enrollmentId ty w))
  /\ evolves w (snd (processCardPayment env enrollmentId w))
  /\ evolves w (snd (processOxxoPayment env enrollmentId w))
  /\ evolves w (snd (processSpeiPayment env enrollmentId w)).
Proof.
  split; [|split; [|split]]; revert w;
    unfold ConektaController.createOrder, processCardPayment,
      processOxxoPayment, processSpeiPayment; keeps_all.
Qed.

Lemma evolves_conekta_webhook env req w :
  evolves w (snd (ConektaController.webhook env req w)).
Proof.
  revert w.
  unfold ConektaController.webhook, ConektaController.handleOrderPaid,
    ConektaController.handleOrderExpired,
    ConektaController.handleChargeFailed.
  keeps_all.
Qed.

Lemma evolves_refundPayment env id w :
  evolves w (snd (ConektaController.refundPayment env id w)).
Proof. revert w. unfold ConektaController.refundPayment. keeps_all. Qed.

Lemma evolves_createEnrollment env d w :
  evolves w (snd (createEnrollment env d w)).
Proof. revert w. unfold createEnrollment. keeps_all. Qed.

Lemma evolves_getPayment env user id w :
  evolves w (snd (getPayment env user id w)).
Proof. revert w. unfold getPayment. keeps_all. Qed.

Lemma evolves_cancelEnrollment env user id w :
  evolves w (snd (cancelEnrollment env user id w)).
Proof.
  rewrite cancelEnrollment_unfold.
  destruct (dbUp env); [|apply evolves_console_log].
  destruct (lookup_enrollment id w) as [enrollment|] eqn:Hfind;
    [|apply evolves_refl].
  destruct (_ && _); [apply evolves_refl|].
  destruct (EStatus.eqb (Enrollment.status enrollment) EStatus.cancelled)
    eqn:Hc; [apply evolves_refl|].
  destruct (EStatus.eqb (Enrollment.status enrollment) EStatus.completed)
    eqn:Hd; [apply evolves_refl|].
  cbn [snd]. apply evolves_enrollments_rewritten; [intros; reflexivity|].
  intros e He Hcl.
  rewrite (lookup_enrollment_id _ _ _ Hfind), Hfind in He.
  injection He as <-. unfold closed in Hcl. rewrite Hc, Hd in Hcl.
  discriminate.
Qed.

Lemma evolves_completeEnrollment env user id body w :
  evolves w (snd (completeEnrollment env user id body w)).
Proof.
  rewrite completeEnrollment_unfold.
  destruct (User.Role_eqb _ _); [apply evolves_refl|].
  destruct (dbUp env); [|apply evolves_console_log].
  destruct (lookup_enrollment id w) as [enrollment|] eqn:Hfind;
    [|apply evolves_refl].
  destruct (_ && _); [apply evolves_refl|].
  destruct (EStatus.eqb (Enrollment.status enrollment) EStatus.completed)
    eqn:Hd; [apply evolves_refl|].
  destruct (EStatus.eqb (Enrollment.status enrollment) EStatus.cancelled)
    eqn:Hc; [apply evolves_refl|].
  cbv zeta. destruct (_ && _); [|apply evolves_console_log].
  cbn [snd]. apply evolves_enrollments_rewritten; [intros; reflexivity|].
  intros e He Hcl.
  rewrite (lookup_enrollment_id _ _ _ Hfind), Hfind in He.
  injection He as <-. unfold closed in Hcl. rewrite Hc, Hd in Hcl.
  discriminate.
Qed.

Lemma evolves_serve env r w : evolves w (snd (serve env r w)).
Proof.
  destruct r as [r| | | | | |]; cbn [serve snd].
  - destruct r; cbn [handle].
    + apply evolves_createPayment.
    + apply evolves_stripeWebhook.
    + apply evolves_refund.
    + apply evolves_conekta_routes.
    + apply evolves_conekta_webhook.
    + apply evolves_refundPayment.
    + apply evolves_createEnrollment.
  - apply evolves_cancelEnrollment.
  - apply evolves_completeEnrollment.
  - apply evolves_getPayment.
  - apply (evolves_conekta_routes env enrollmentId EmptyString).
  - apply (evolves_conekta_routes env enrollmentId EmptyString).
  - apply (evolves_conekta_routes env enrollmentId EmptyString).
Qed.

Lemma evolves_serve_all rs w : evolves w (serve_all rs w).
Proof.
  revert w. induction rs as [|[env r] rs IH]; intros w; cbn [serve_all].
  - apply evolves_refl.
  - eapply evolves_trans; [apply evolves_serve|apply IH].
Qed.

(** Whatever requests are served -- payments created, notified, refunded or
    read, Conekta orders opened, enrollments created, cancelled or completed
    -- no row is ever deleted or re-keyed: the payments that existed are
    still there, in order, with their id, enrollment, amount, transaction id
    and external id; the enrollments that existed are still there with their
    id, student, course, teacher, total and discount; new rows only come
    after them; users and courses are never written. *)
Theorem rows_are_kept rs w :
  let w' := serve_all rs w in
  users (db w') = users (db w)
  /\ courses (db w') = courses (db w)
  /\ (exists added,
        map payment_key (payments (db w'))
        = map payment_key (payments (db w)) ++ added)
  /\ (exists added,
        map enrollment_key (enrollments (db w'))
        = map enrollment_key (enrollments (db w)) ++ added).
Proof.
  destruct (evolves_serve_all rs w) as [U C P E _ _]. auto.
Qed.

(** Distinct primary keys and at most one enrollment per (student, course)
    pair are kept by every sequence of requests. *)
Theorem unique_keys_are_kept rs w :
  unique_keys w -> unique_keys (serve_all rs w).
Proof.
  destruct (evolves_serve_all rs w) as [_ _ _ _ K _]. exact K.
Qed.

Lemma unique_keys_are_kept_witness :
  unique_keys
    (serve_all
       [(sample_env, ledger_route (POST_payments "adm-1" sample_paymentData));
        (later_env,
         PUT_enrollments_cancel (User.mk "stu-1" User.student) "enr-1");
        (later_env, ledger_route (POST_enrollments sample_enrollmentData))]
       (sample_world EStatus.active 0 [])).
Proof.
  apply (unique_keys_are_kept
    [(sample_env, ledger_route (POST_payments "adm-1" sample_paymentData));
     (later_env,
      PUT_enrollments_cancel (User.mk "stu-1" User.student) "enr-1");
     (later_env, ledger_route (POST_enrollments sample_enrollmentData))]
    (sample_world EStatus.active 0 [])).
  repeat split; repeat constructor; intros [].
Defined.



(** Once a student has an enrollment in a course, whatever its status -- so
    also after it was cancelled -- no later request creates another
    enrollment of that student in that course, whatever requests were served
    in between: the answer is never 201 and nothing is written; and
    [Enrollment.create] itself, were it called with the body of the request,
    would be refused and insert nothing. *)
Theorem no_second_enrollment rs env d w e :
  In e (enrollments (db w)) ->
  Enrollment.studentId e = ed_studentId d ->
  Enrollment.courseId e = ed_courseId d ->
  let w' := serve_all rs w in
  code (fst (createEnrollment env d w')) <> 201
  /\ db (snd (createEnrollment env d w')) = db w'
  /\ (exists exn, Enrollment_create env d w' = (inl exn, w')).
Proof.
  intros Hin Hs Hc w'.
  assert (Hex : existsb (same_pair (ed_studentId d) (ed_courseId d))
                  (enrollments (db w')) = true).
  { destruct (evolves_serve_all rs w) as [_ _ _ [added E] _ _].
    fold w' in E.
    assert (Hk : In (enrollment_key e)
                   (map enrollment_key (enrollments (db w')))).
    { rewrite E. apply in_or_app. left. now apply in_map. }
    apply in_map_iff in Hk. destruct Hk as (e0 & Hk & Hin0).
    apply existsb_exists. exists e0. split; [exact Hin0|].
    apply same_pair_iff. unfold enrollment_key in Hk.
    unfold enrollment_pair. congruence. }
  destruct (createEnrollment_creates_nothing env d w') as (H1 & _ & H3).
  split; [exact H1|]. split; [exact H3|].
  unfold Enrollment_create. unfold_m.
  destruct (dbUp env); [|eauto].
  rewrite Hex.
  match goal with |- context [existsb ?f ?l] => destruct (existsb f l) end;
    eauto.
Qed.

Lemma no_second_enrollment_witness :
  let w' :=
    serve_all
      [(sample_env,
        PUT_enrollments_cancel (User.mk "stu-1" User.student) "enr-1")]
      (sample_world EStatus.active 0 []) in
  code (fst (createEnrollment later_env sample_enrollmentData w')) <> 201
  /\ db (snd (createEnrollment later_env sample_enrollmentData w')) = db w'
  /\ (exists exn,
        Enrollment_create later_env sample_enrollmentData w' = (inl exn, w')).
Proof.
  exact (no_second_enrollment
    [(sample_env,
      PUT_enrollments_cancel (User.mk "stu-1" User.student) "enr-1")]
    later_env sample_enrollmentData (sample_world EStatus.active 0 [])
    (sample_enrollment EStatus.active 0)
    (or_introl eq_refl) eq_refl eq_refl).
Defined.

Lemma checkResourceOwnership_admission_witness :
  fst (checkResourceOwnership sample_env (User.mk "tch-1" User.teacher)
         (Some "enr-1") (sample_world EStatus.active 0 [])) = None.
Proof.
  apply (proj2 (proj1 (checkResourceOwnership_admission sample_env
                         (User.mk "tch-1" User.teacher) (Some "enr-1")
                         (sample_world EStatus.active 0 [])))).
  split; [reflexivity|].
  exists "enr-1", (sample_enrollment EStatus.active 0).
  repeat split; try reflexivity; try discriminate.
  right. left. split; reflexivity.
Defined.
